(** * nengo-dl example notebooks: syntax of the code cells and their properties

    The repository consists of four Jupyter notebooks
    (from-nengo, from-tensorflow, tensorflow-models, spiking-mnist) and two
    configuration files.  The first part of this development records the
    Python code of every code cell as an abstract syntax tree and defines the
    analyses (name binding, definitions, calls, mutation) used to state
    properties of the notebooks as they are written.  The second part models
    the three pieces of computation the notebooks implement themselves: the
    [onerror] handler, the one-hot encoding of the MNIST labels and the
    sorting of the Inception class probabilities.  A third part models what
    the cells do around them: the minibatches of the TensorFlow training
    loop, the arrays over time, the objectives, the reshaping of the images
    and the build stages of [KerasNode]. *)

From Stdlib Require Import List String Ascii ZArith QArith Bool Lia Permutation Sorted.
From stdpp Require Import base option list strings gmap.

Set Warnings "-register-all".

Open Scope string_scope.
Open Scope list_scope.

(** ** Python abstract syntax (the subset the notebooks use) *)

Inductive unaryop : Set := USub | Not.

Inductive operator : Set := Add | Sub | Mult | Div | Mod | Pow.

(** Expressions.  Numeric literals keep their source text; [EIndex v s] is
    the subscription [v[s]]; [EIs] is the only comparison that occurs
    ([ax is None]); a comprehension has one generator and no condition. *)
Inductive expr : Set :=
| EName (id : string)
| ENum (literal : string)
| EStr (s : string)
| ENone
| ETrue
| EFalse
| EAttr (value : expr) (attr : string)
| ECall (func : expr) (args : list expr) (keywords : list (string * expr))
| EIndex (value : expr) (slice : expr)
| ESlice (lower upper : option expr)
| ETuple (elts : list expr)
| EList (elts : list expr)
| EDict (items : list (expr * expr))
| EBinOp (op : operator) (left right : expr)
| EUnaryOp (op : unaryop) (operand : expr)
| EIs (left right : expr)
| ELambda (params : list string) (body : expr)
| EListComp (elt target iter : expr).

(** Statements.  [SMagic] is an IPython line ([%matplotlib inline],
    [!git clone ...]); [SDef name params vararg body] pairs every positional
    parameter with its default, if any.  No cell contains [try], [while],
    [del], [global], decorators or augmented assignment. *)
Inductive stmt : Set :=
| SMagic (line : string)
| SImport (module : string) (asname : option string)
| SImportFrom (module : string) (names : list string)
| SAssign (target value : expr)
| SExpr (value : expr)
| SDef (name : string) (params : list (string * option expr))
       (vararg : option string) (body : list stmt)
| SClass (name : string) (bases : list expr) (body : list stmt)
| SReturn (value : expr)
| SIf (test : expr) (body orelse : list stmt)
| SFor (target iter : expr) (body : list stmt)
| SWith (items : list (expr * option expr)) (body : list stmt)
| SRaise (exc : expr)
| SPass.

(** A notebook cell: a markdown cell with its number of source lines, or a
    code cell with its number of source lines and its statements. *)
Inductive cell : Set :=
| Markdown (nlines : nat)
| Code (nlines : nat) (body : list stmt).

Record notebook : Set := { nb_path : string; nb_cells : list cell }.

(** ** The code cells *)

(** [src/unnamed/part_000], lines 27-40. *)
Definition from_nengo_cell02 : list stmt :=
  [SMagic "%matplotlib inline";
   SImport "matplotlib.pyplot" (Some "plt");
   SImport "nengo" None;
   SImport "numpy" (Some "np");
   SImport "tensorflow" (Some "tf");
   SImport "nengo_dl" None;
   SAssign (EName "seed") (ENum "0");
   SExpr (ECall (EAttr (EAttr (EName "np") "random") "seed") [EName "seed"] [])].

(** [src/unnamed/part_000], lines 49-69. *)
Definition from_nengo_cell03 : list stmt :=
  [SWith
     [(ECall (EAttr (EName "nengo") "Network") [] [("seed", EName "seed")],
       Some (EName "net"))]
     [SAssign (EName "inpt")
        (ECall (EAttr (EName "nengo") "Node")
           [ECall (EAttr (EAttr (EName "nengo") "processes") "WhiteSignal")
              [ENum "1"; ENum "5"]
              [("rms", ENum "0.3")]]
           []);
      SAssign (EName "square")
        (ECall (EAttr (EName "nengo") "Ensemble") [ENum "20"; ENum "1"] []);
      SAssign (EName "sin")
        (ECall (EAttr (EName "nengo") "Ensemble") [ENum "20"; ENum "1"] []);
      SAssign (EName "outpt")
        (ECall (EAttr (EName "nengo") "Node") [] [("size_in", ENum "1")]);
      SExpr
        (ECall (EAttr (EName "nengo") "Connection") [EName "inpt"; EName "square"] []);
      SExpr
        (ECall (EAttr (EName "nengo") "Connection") [EName "square"; EName "sin"]
           [("function", EAttr (EName "np") "square")]);
      SExpr
        (ECall (EAttr (EName "nengo") "Connection") [EName "sin"; EName "outpt"]
           [("function", EAttr (EName "np") "sin")]);
      SAssign (EName "inpt_p")
        (ECall (EAttr (EName "nengo") "Probe") [EName "inpt"] []);
      SAssign (EName "outpt_p")
        (ECall (EAttr (EName "nengo") "Probe") [EName "outpt"]
           [("synapse", ENum "0.01")])]].

(** [src/unnamed/part_000], lines 85-86. *)
Definition from_nengo_cell05 : list stmt :=
  [SWith
     [(ECall (EAttr (EName "nengo") "Simulator") [EName "net"] [("seed", EName "seed")],
       Some (EName "sim"))]
     [SExpr (ECall (EAttr (EName "sim") "run") [ENum "1.0"] [])]].

(** [src/unnamed/part_000], lines 102-112. *)
Definition from_nengo_cell07 : list stmt :=
  [SDef "plot"
     [("plot_sim", None);
      ("ax", Some ENone);
      ("idx", Some (ECall (EName "slice") [ENone] []))]
     None
     [SIf (EIs (EName "ax") ENone)
        [SExpr (ECall (EAttr (EName "plt") "figure") [] []);
         SAssign (EName "ax") (ECall (EAttr (EName "plt") "gca") [] [])]
        [];
      SExpr
        (ECall (EAttr (EName "ax") "plot")
           [ECall (EAttr (EName "plot_sim") "trange") [] [];
            EIndex (EIndex (EAttr (EName "plot_sim") "data") (EName "inpt_p"))
              (EName "idx")]
           [("label", EStr "x")]);
      SExpr
        (ECall (EAttr (EName "ax") "plot")
           [ECall (EAttr (EName "plot_sim") "trange") [] [];
            ECall (EAttr (EName "np") "sin")
              [EBinOp Pow
                 (EIndex (EIndex (EAttr (EName "plot_sim") "data") (EName "inpt_p"))
                    (EName "idx"))
                 (ENum "2")]
              []]
           [("label", EStr "sin(x^2)")]);
      SExpr
        (ECall (EAttr (EName "ax") "plot")
           [ECall (EAttr (EName "plot_sim") "trange") [] [];
            EIndex (EIndex (EAttr (EName "plot_sim") "data") (EName "outpt_p"))
              (EName "idx")]
           [("label", EStr "output")]);
      SExpr (ECall (EAttr (EName "ax") "legend") [] [])];
   SExpr (ECall (EName "plot") [EName "sim"] [])].

(** [src/unnamed/part_000], lines 128-131. *)
Definition from_nengo_cell09 : list stmt :=
  [SWith
     [(ECall (EAttr (EName "nengo_dl") "Simulator") [EName "net"]
         [("seed", EName "seed")],
       Some (EName "sim"))]
     [SExpr (ECall (EAttr (EName "sim") "run") [ENum "1.0"] [])];
   SExpr (ECall (EName "plot") [EName "sim"] [])].

(** [src/unnamed/part_000], lines 158-166. *)
Definition from_nengo_cell12 : list stmt :=
  [SAssign (EName "reps") (ENum "3");
   SWith
     [(ECall (EAttr (EName "nengo") "Simulator") [EName "net"] [], Some (EName "sim"))]
     [SAssign (ETuple [EName "_"; EName "axes"])
        (ECall (EAttr (EName "plt") "subplots") [ENum "1"; EName "reps"]
           [("figsize", ETuple [ENum "20"; ENum "4.8"])]);
      SFor (EName "i") (ECall (EName "range") [EName "reps"] [])
        [SExpr (ECall (EAttr (EName "sim") "run") [ENum "1.0"] []);
         SExpr
           (ECall (EName "plot") [EName "sim"]
              [("ax", EIndex (EName "axes") (EName "i"))]);
         SExpr
           (ECall (EAttr (EName "sim") "reset") []
              [("seed", EBinOp Add (EName "i") (ENum "10"))])]]].

(** [src/unnamed/part_000], lines 186-191. *)
Definition from_nengo_cell14 : list stmt :=
  [SWith
     [(ECall (EAttr (EName "nengo_dl") "Simulator") [EName "net"]
         [("minibatch_size", EName "reps")],
       Some (EName "sim"))]
     [SExpr (ECall (EAttr (EName "sim") "run") [ENum "1.0"] [])];
   SAssign (ETuple [EName "_"; EName "axes"])
     (ECall (EAttr (EName "plt") "subplots") [ENum "1"; EName "reps"]
        [("figsize", ETuple [ENum "20"; ENum "4.8"])]);
   SFor (EName "i") (ECall (EName "range") [EName "reps"] [])
     [SExpr
        (ECall (EName "plot") [EName "sim"]
           [("ax", EIndex (EName "axes") (EName "i")); ("idx", EName "i")])]].

(** [src/unnamed/part_000], lines 220-224. *)
Definition from_nengo_cell17 : list stmt :=
  [SWith
     [(ECall (EAttr (EName "nengo_dl") "Simulator") [EName "net"] [],
       Some (EName "sim"))]
     [SExpr
        (ECall (EAttr (EName "sim") "run") [ENum "1.0"]
           [("data",
             EDict
               [(EName "inpt",
                 ECall (EAttr (EName "np") "reshape")
                   [ECall (EAttr (EName "np") "linspace")
                      [EUnaryOp USub (ENum "1"); ENum "1"; ENum "1000"]
                      [];
                    ETuple [ENum "1"; ENum "1000"; ENum "1"]]
                   [])])])];
   SExpr (ECall (EName "plot") [EName "sim"] [])].

(** [src/unnamed/part_000], lines 242-250. *)
Definition from_nengo_cell19 : list stmt :=
  [SWith
     [(ECall (EAttr (EName "nengo_dl") "Simulator") [EName "net"]
         [("minibatch_size", EName "reps")],
       Some (EName "sim"))]
     [SExpr
        (ECall (EAttr (EName "sim") "run") [ENum "1.0"]
           [("data",
             EDict
               [(EName "inpt",
                 EBinOp Mult
                   (EIndex
                      (ECall (EAttr (EName "np") "linspace")
                         [ENum "0.5"; ENum "1"; EName "reps"]
                         [])
                      (ETuple [ESlice None None; ENone; ENone]))
                   (EIndex
                      (ECall (EAttr (EName "np") "linspace")
                         [EUnaryOp USub (ENum "1"); ENum "1"; ENum "1000"]
                         [])
                      (ETuple [ENone; ESlice None None; ENone])))])])];
   SAssign (ETuple [EName "_"; EName "axes"])
     (ECall (EAttr (EName "plt") "subplots") [ENum "1"; EName "reps"]
        [("figsize", ETuple [ENum "20"; ENum "4.8"])]);
   SFor (EName "i") (ECall (EName "range") [EName "reps"] [])
     [SExpr
        (ECall (EName "plot") [EName "sim"]
           [("ax", EIndex (EName "axes") (EName "i")); ("idx", EName "i")]);
      SExpr
        (ECall (EAttr (EIndex (EName "axes") (EName "i")) "set_ylim")
           [ETuple [EUnaryOp USub (ENum "1"); ENum "1"]]
           [])]].

(** [src/unnamed/part_000], lines 272-284. *)
Definition from_nengo_cell21 : list stmt :=
  [SFor (EName "conn") (EAttr (EName "net") "all_connections")
     [SAssign (EAttr (EName "conn") "synapse") ENone];
   SWith [(EName "net", None)]
     [SAssign (EName "outpt_p_nofilt")
        (ECall (EAttr (EName "nengo") "Probe") [EName "outpt"] [])];
   SAssign (EAttr (EName "outpt_p") "synapse") (ENum "0.04")].

(** [src/unnamed/part_000], lines 300-302. *)
Definition from_nengo_cell23 : list stmt :=
  [SWith
     [(ECall (EAttr (EName "nengo_dl") "Simulator") [EName "net"]
         [("seed", EName "seed")],
       Some (EName "sim"))]
     [SExpr (ECall (EAttr (EName "sim") "run") [ENum "1.0"] []);
      SExpr (ECall (EName "plot") [EName "sim"] [])]].

(** [src/unnamed/part_000], lines 318-323. *)
Definition from_nengo_cell25 : list stmt :=
  [SWith [(EName "net", None)]
     [SExpr
        (ECall (EAttr (EName "nengo_dl") "configure_settings") []
           [("trainable", EFalse)]);
      SAssign
        (EAttr
           (EIndex (EAttr (EName "net") "config") (EAttr (EName "nengo") "Ensemble"))
           "trainable")
        ETrue]].

(** [src/unnamed/part_000], lines 343-351. *)
Definition from_nengo_cell27 : list stmt :=
  [SAssign (EName "batch_size") (ENum "4096");
   SAssign (EName "minibatch_size") (ENum "32");
   SAssign (EName "n_steps") (ENum "1");
   SAssign (EName "vals")
     (ECall (EAttr (EAttr (EName "np") "random") "uniform")
        [EUnaryOp USub (ENum "1"); ENum "1"]
        [("size", ETuple [EName "batch_size"; EName "n_steps"; ENum "1"])]);
   SAssign (EName "data")
     (EDict
        [(EName "inpt", EName "vals");
         (EName "outpt_p_nofilt",
          ECall (EAttr (EName "np") "sin") [EBinOp Pow (EName "vals") (ENum "2")]
            [])])].

(** [src/unnamed/part_000], lines 375-381. *)
Definition from_nengo_cell29 : list stmt :=
  [SWith
     [(ECall (EAttr (EName "nengo_dl") "Simulator") [EName "net"]
         [("minibatch_size", EName "minibatch_size"); ("seed", EName "seed")],
       Some (EName "sim"))]
     [SExpr
        (ECall (EAttr (EName "sim") "train")
           [EName "data";
            ECall (EAttr (EAttr (EName "tf") "train") "RMSPropOptimizer") [ENum "0.01"]
              []]
           [("objective",
             EDict
               [(EName "outpt_p_nofilt",
                 EAttr (EAttr (EName "nengo_dl") "obj") "mse")]);
            ("n_epochs", ENum "25")]);
      SExpr (ECall (EAttr (EName "sim") "run") [ENum "1.0"] []);
      SExpr (ECall (EName "plot") [EName "sim"] [("idx", ENum "0")])]].

(** [src/unnamed/part_000], lines 410-411. *)
Definition from_nengo_cell32 : list stmt :=
  [SAssign (EName "test_vals")
     (ECall (EAttr (EAttr (EName "np") "random") "uniform")
        [EUnaryOp USub (ENum "1"); ENum "1"]
        [("size", ETuple [ENum "1024"; ENum "1"; ENum "1"])])].

(** [src/unnamed/part_000], lines 427-433. *)
Definition from_nengo_cell34 : list stmt :=
  [SAssign (EName "test_steps") (ENum "100");
   SAssign (EName "test_vals")
     (ECall (EAttr (EName "np") "tile")
        [EName "test_vals"; ETuple [ENum "1"; EName "test_steps"; ENum "1"]]
        []);
   SAssign (EName "test_data")
     (EDict
        [(EName "inpt", EName "test_vals");
         (EName "outpt_p",
          ECall (EAttr (EName "np") "sin") [EBinOp Pow (EName "test_vals") (ENum "2")]
            [])])].

(** [src/unnamed/part_000], lines 449-450. *)
Definition from_nengo_cell36 : list stmt :=
  [SDef "test_mse" [("outputs", None); ("targets", None)] None
     [SReturn
        (ECall (EAttr (EName "tf") "reduce_mean")
           [ECall (EAttr (EName "tf") "square")
              [EBinOp Sub
                 (EIndex (EName "outputs")
                    (ETuple
                       [ESlice None None;
                        ESlice (Some (EUnaryOp USub (ENum "10"))) None]))
                 (EIndex (EName "targets")
                    (ETuple
                       [ESlice None None;
                        ESlice (Some (EUnaryOp USub (ENum "10"))) None]))]
              []]
           [])]].

(** [src/unnamed/part_000], lines 466-476. *)
Definition from_nengo_cell38 : list stmt :=
  [SWith
     [(ECall (EAttr (EName "nengo_dl") "Simulator") [EName "net"]
         [("minibatch_size", EName "minibatch_size"); ("seed", EName "seed")],
       Some (EName "sim"))]
     [SExpr
        (ECall (EName "print")
           [EStr "Error before training:";
            ECall (EAttr (EName "sim") "loss") [EName "test_data"]
              [("objective", EDict [(EName "outpt_p", EName "test_mse")])]]
           []);
      SExpr
        (ECall (EAttr (EName "sim") "train")
           [EName "data";
            ECall (EAttr (EAttr (EName "tf") "train") "RMSPropOptimizer") [ENum "0.01"]
              []]
           [("objective",
             EDict
               [(EName "outpt_p_nofilt",
                 EAttr (EAttr (EName "nengo_dl") "obj") "mse")]);
            ("n_epochs", ENum "25")]);
      SExpr
        (ECall (EName "print")
           [EStr "Error after training:";
            ECall (EAttr (EName "sim") "loss") [EName "test_data"]
              [("objective", EDict [(EName "outpt_p", EName "test_mse")])]]
           [])]].

(** [src/unnamed/part_000], lines 503-524. *)
Definition from_nengo_cell41 : list stmt :=
  [SWith [(EName "net", None)]
     [SAssign (EName "exp_np")
        (ECall (EAttr (EName "nengo") "Node")
           [ELambda ["t"; "x"] (ECall (EAttr (EName "np") "exp") [EName "x"] [])]
           [("size_in", ENum "1")]);
      SExpr
        (ECall (EAttr (EName "nengo") "Connection") [EName "sin"; EName "exp_np"] []);
      SAssign (EName "np_probe")
        (ECall (EAttr (EName "nengo") "Probe") [EName "exp_np"]
           [("synapse", ENum "0.01")]);
      SAssign (EName "exp_tf")
        (ECall (EAttr (EName "nengo_dl") "TensorNode")
           [ELambda ["t"; "x"] (ECall (EAttr (EName "tf") "exp") [EName "x"] [])]
           [("size_in", ENum "1")]);
      SExpr
        (ECall (EAttr (EName "nengo") "Connection") [EName "sin"; EName "exp_tf"] []);
      SAssign (EName "tf_probe")
        (ECall (EAttr (EName "nengo") "Probe") [EName "exp_tf"]
           [("synapse", ENum "0.01")])];
   SWith
     [(ECall (EAttr (EName "nengo_dl") "Simulator") [EName "net"]
         [("seed", EName "seed")],
       Some (EName "sim"))]
     [SExpr (ECall (EAttr (EName "sim") "run") [ENum "1.0"] [])];
   SExpr (ECall (EAttr (EName "plt") "figure") [] []);
   SExpr
     (ECall (EAttr (EName "plt") "plot")
        [ECall (EAttr (EName "sim") "trange") [] [];
         ECall (EAttr (EName "np") "exp")
           [ECall (EAttr (EName "np") "sin")
              [EBinOp Pow (EIndex (EAttr (EName "sim") "data") (EName "inpt_p"))
                 (ENum "2")]
              []]
           []]
        [("label", EStr "e^sin(x^2)")]);
   SExpr
     (ECall (EAttr (EName "plt") "plot")
        [ECall (EAttr (EName "sim") "trange") [] [];
         EIndex (EAttr (EName "sim") "data") (EName "np_probe")]
        [("label", EStr "Node output")]);
   SExpr
     (ECall (EAttr (EName "plt") "plot")
        [ECall (EAttr (EName "sim") "trange") [] [];
         EIndex (EAttr (EName "sim") "data") (EName "tf_probe")]
        [("label", EStr "TensorNode output"); ("linestyle", EStr "--")]);
   SExpr (ECall (EAttr (EName "plt") "ylim") [EList [ENum "0.8"; ENum "1.4"]] []);
   SExpr (ECall (EAttr (EName "plt") "legend") [] [])].

(** The cells of [src/unnamed/part_000], in file order. *)
Definition from_nengo : notebook :=
  {| nb_path := "src/unnamed/part_000";
     nb_cells :=
       [Markdown 3;
        Markdown 3;
        Code 14 from_nengo_cell02;
        Code 21 from_nengo_cell03;
        Markdown 1;
        Code 2 from_nengo_cell05;
        Markdown 1;
        Code 11 from_nengo_cell07;
        Markdown 1;
        Code 4 from_nengo_cell09;
        Markdown 3;
        Markdown 3;
        Code 9 from_nengo_cell12;
        Markdown 5;
        Code 6 from_nengo_cell14;
        Markdown 1;
        Markdown 7;
        Code 5 from_nengo_cell17;
        Markdown 3;
        Code 9 from_nengo_cell19;
        Markdown 7;
        Code 13 from_nengo_cell21;
        Markdown 1;
        Code 3 from_nengo_cell23;
        Markdown 1;
        Code 6 from_nengo_cell25;
        Markdown 5;
        Code 9 from_nengo_cell27;
        Markdown 9;
        Code 7 from_nengo_cell29;
        Markdown 1;
        Markdown 7;
        Code 2 from_nengo_cell32;
        Markdown 1;
        Code 7 from_nengo_cell34;
        Markdown 1;
        Code 2 from_nengo_cell36;
        Markdown 1;
        Code 11 from_nengo_cell38;
        Markdown 1;
        Markdown 5;
        Code 22 from_nengo_cell41;
        Markdown 3;
        Markdown 3] |}.

(** [src/docs/examples/from-tensorflow.ipynb], lines 18-30. *)
Definition from_tensorflow_cell01 : list stmt :=
  [SMagic "%matplotlib inline";
   SImport "gzip" None;
   SImport "pickle" None;
   SImportFrom "urllib.request" ["urlretrieve"];
   SImport "matplotlib.pyplot" (Some "plt");
   SImport "nengo" None;
   SImportFrom "nengo.utils.matplotlib" ["rasterplot"];
   SImport "numpy" (Some "np");
   SImport "tensorflow" (Some "tf");
   SImport "nengo_dl" None].

(** [src/docs/examples/from-tensorflow.ipynb], lines 48-64. *)
Definition from_tensorflow_cell03 : list stmt :=
  [SAssign (EName "n_in") (ENum "784");
   SAssign (EName "n_hidden") (ENum "64");
   SAssign (EName "minibatch_size") (ENum "50");
   SWith
     [(ECall (EAttr (ECall (EAttr (EName "tf") "Graph") [] []) "as_default") [] [],
       Some (EName "auto_graph"))]
     [SAssign (EName "tf_a")
        (ECall (EAttr (EName "tf") "placeholder") [EAttr (EName "tf") "float32"]
           [("shape", ETuple [EName "minibatch_size"; EName "n_in"])]);
      SAssign (EName "tf_b")
        (ECall (EAttr (EAttr (EName "tf") "layers") "dense")
           [EName "tf_a"; EName "n_hidden"]
           [("activation", EAttr (EAttr (EName "tf") "nn") "relu");
            ("kernel_initializer",
             ECall (EAttr (EAttr (EName "tf") "initializers") "glorot_uniform") []
               [])]);
      SAssign (EName "tf_c")
        (ECall (EAttr (EAttr (EName "tf") "layers") "dense")
           [EName "tf_b"; EName "n_in"]
           [("activation", EAttr (EAttr (EName "tf") "nn") "relu");
            ("kernel_initializer",
             ECall (EAttr (EAttr (EName "tf") "initializers") "glorot_uniform") []
               [])])]].

(** [src/docs/examples/from-tensorflow.ipynb], lines 80-98. *)
Definition from_tensorflow_cell05 : list stmt :=
  [SWith [(ECall (EAttr (EName "nengo") "Network") [] [], Some (EName "auto_net"))]
     [SAssign (EName "nengo_a")
        (ECall (EAttr (EName "nengo") "Node")
           [ECall (EAttr (EName "np") "zeros") [EName "n_in"] []]
           []);
      SAssign (EName "nengo_b")
        (ECall (EAttr (EName "nengo") "Ensemble") [EName "n_hidden"; ENum "1"]
           [("neuron_type", ECall (EAttr (EName "nengo") "RectifiedLinear") [] [])]);
      SExpr
        (ECall (EAttr (EName "nengo") "Connection")
           [EName "nengo_a"; EAttr (EName "nengo_b") "neurons"]
           [("transform",
             ECall (EAttr (EAttr (EName "nengo_dl") "dists") "Glorot") [] [])]);
      SAssign (EName "nengo_c")
        (ECall (EAttr (EName "nengo") "Ensemble") [EName "n_in"; ENum "1"]
           [("neuron_type", ECall (EAttr (EName "nengo") "RectifiedLinear") [] [])]);
      SExpr
        (ECall (EAttr (EName "nengo") "Connection")
           [EAttr (EName "nengo_b") "neurons"; EAttr (EName "nengo_c") "neurons"]
           [("transform",
             ECall (EAttr (EAttr (EName "nengo_dl") "dists") "Glorot") [] [])]);
      SAssign (EName "p_c")
        (ECall (EAttr (EName "nengo") "Probe") [EAttr (EName "nengo_c") "neurons"]
           [])]].

(** [src/docs/examples/from-tensorflow.ipynb], lines 129-132. *)
Definition from_tensorflow_cell08 : list stmt :=
  [SWith
     [(ECall (EAttr (EName "tf") "Session") [] [("graph", EName "auto_graph")],
       Some (EName "sess"))]
     [SExpr
        (ECall (EAttr (EName "sess") "run")
           [ECall (EAttr (EName "tf") "global_variables_initializer") [] []]
           []);
      SAssign (EName "output")
        (ECall (EAttr (EName "sess") "run") [EName "tf_c"]
           [("feed_dict",
             EDict
               [(EName "tf_a",
                 ECall (EAttr (EName "np") "ones")
                   [ETuple [EName "minibatch_size"; EName "n_in"]]
                   [])])])]].

(** [src/docs/examples/from-tensorflow.ipynb], lines 148-150. *)
Definition from_tensorflow_cell10 : list stmt :=
  [SWith
     [(ECall (EAttr (EName "nengo_dl") "Simulator") []
         [("network", EName "auto_net"); ("minibatch_size", EName "minibatch_size")],
       Some (EName "sim"))]
     [SExpr
        (ECall (EAttr (EName "sim") "run") [ENum "0.001"]
           [("data",
             EDict
               [(EName "nengo_a",
                 ECall (EAttr (EName "np") "ones")
                   [ETuple [EName "minibatch_size"; ENum "1"; EName "n_in"]]
                   [])])])]].

(** [src/docs/examples/from-tensorflow.ipynb], lines 183-222. *)
Definition from_tensorflow_cell13 : list stmt :=
  [SWith [(ECall (EAttr (EName "nengo") "Network") [] [], Some (EName "net"))]
     [SAssign (EName "a")
        (ECall (EAttr (EName "nengo") "Node")
           [ELambda ["t"]
              (ECall (EAttr (EName "np") "sin")
                 [EBinOp Mult (EBinOp Mult (ENum "2") (EAttr (EName "np") "pi"))
                    (EName "t")]
                 [])]
           []);
      SAssign (EName "b_rate")
        (ECall (EAttr (EName "nengo") "Ensemble") [ENum "10"; ENum "1"]
           [("neuron_type", ECall (EAttr (EName "nengo") "RectifiedLinear") [] []);
            ("seed", ENum "2")]);
      SExpr (ECall (EAttr (EName "nengo") "Connection") [EName "a"; EName "b_rate"] []);
      SAssign (EName "b_spike")
        (ECall (EAttr (EName "nengo") "Ensemble") [ENum "10"; ENum "1"]
           [("neuron_type",
             ECall (EAttr (EName "nengo") "SpikingRectifiedLinear") [] []);
            ("seed", ENum "2")]);
      SExpr
        (ECall (EAttr (EName "nengo") "Connection") [EName "a"; EName "b_spike"] []);
      SAssign (EName "p_a") (ECall (EAttr (EName "nengo") "Probe") [EName "a"] []);
      SAssign (EName "p_rate")
        (ECall (EAttr (EName "nengo") "Probe") [EAttr (EName "b_rate") "neurons"] []);
      SAssign (EName "p_spike")
        (ECall (EAttr (EName "nengo") "Probe") [EAttr (EName "b_spike") "neurons"] [])];
   SWith
     [(ECall (EAttr (EName "nengo_dl") "Simulator") [EName "net"] [],
       Some (EName "sim"))]
     [SExpr (ECall (EAttr (EName "sim") "run") [ENum "1.0"] [])];
   SExpr (ECall (EAttr (EName "plt") "figure") [] []);
   SExpr
     (ECall (EAttr (EName "plt") "plot")
        [ECall (EAttr (EName "sim") "trange") [] [];
         EIndex (EAttr (EName "sim") "data") (EName "p_a")]
        []);
   SExpr (ECall (EAttr (EName "plt") "xlabel") [EStr "time"] []);
   SExpr (ECall (EAttr (EName "plt") "ylabel") [EStr "input value"] []);
   SExpr (ECall (EAttr (EName "plt") "title") [EStr "a"] []);
   SExpr (ECall (EAttr (EName "plt") "figure") [] []);
   SExpr
     (ECall (EAttr (EName "plt") "plot")
        [ECall (EAttr (EName "sim") "trange") [] [];
         EIndex (EAttr (EName "sim") "data") (EName "p_rate")]
        []);
   SExpr (ECall (EAttr (EName "plt") "xlabel") [EStr "time"] []);
   SExpr (ECall (EAttr (EName "plt") "ylabel") [EStr "firing rate"] []);
   SExpr (ECall (EAttr (EName "plt") "title") [EStr "b_rate"] []);
   SExpr (ECall (EAttr (EName "plt") "figure") [] []);
   SExpr
     (ECall (EName "rasterplot")
        [ECall (EAttr (EName "sim") "trange") [] [];
         EIndex (EAttr (EName "sim") "data") (EName "p_spike")]
        []);
   SExpr (ECall (EAttr (EName "plt") "xlabel") [EStr "time"] []);
   SExpr (ECall (EAttr (EName "plt") "ylabel") [EStr "neuron"] []);
   SExpr (ECall (EAttr (EName "plt") "title") [EStr "b_spike"] [])].

(** [src/docs/examples/from-tensorflow.ipynb], lines 242-251. *)
Definition from_tensorflow_cell15 : list stmt :=
  [SAssign (EName "filt")
     (ECall (EAttr (EName "nengo") "Lowpass") [] [("tau", ENum "0.05")]);
   SAssign (EName "filtered_spikes")
     (ECall (EAttr (EName "filt") "filt")
        [EIndex (EAttr (EName "sim") "data") (EName "p_spike")]
        []);
   SExpr (ECall (EAttr (EName "plt") "figure") [] []);
   SExpr
     (ECall (EAttr (EName "plt") "plot")
        [ECall (EAttr (EName "sim") "trange") [] []; EName "filtered_spikes"]
        []);
   SExpr (ECall (EAttr (EName "plt") "xlabel") [EStr "time"] []);
   SExpr
     (ECall (EAttr (EName "plt") "ylabel") [EStr "filtered spike train (firing rates)"]
        [])].

(** [src/docs/examples/from-tensorflow.ipynb], lines 286-289. *)
Definition from_tensorflow_cell18 : list stmt :=
  [SWith [(EName "net", None)]
     [SAssign (EName "batch_norm")
        (ECall (EAttr (EName "nengo_dl") "tensor_layer")
           [EAttr (EName "b_rate") "neurons";
            EAttr (EAttr (EName "tf") "layers") "batch_normalization"]
           [("momentum", ENum "0.9")]);
      SAssign (EName "p_batch_norm")
        (ECall (EAttr (EName "nengo") "Probe") [EName "batch_norm"] [])]].

(** [src/docs/examples/from-tensorflow.ipynb], lines 307-312. *)
Definition from_tensorflow_cell20 : list stmt :=
  [SWith [(EName "net", None)]
     [SAssign (EName "batch_norm")
        (ECall (EAttr (EName "nengo_dl") "TensorNode")
           [ELambda ["t"; "x"]
              (ECall (EAttr (EAttr (EName "tf") "layers") "batch_normalization")
                 [EName "x"]
                 [("momentum", ENum "0.9")])]
           [("size_in", ENum "10")]);
      SExpr
        (ECall (EAttr (EName "nengo") "Connection")
           [EAttr (EName "b_rate") "neurons"; EName "batch_norm"]
           [("synapse", ENone)]);
      SAssign (EName "p_batch_norm")
        (ECall (EAttr (EName "nengo") "Probe") [EName "batch_norm"] [])]].

(** [src/docs/examples/from-tensorflow.ipynb], lines 330-354. *)
Definition from_tensorflow_cell22 : list stmt :=
  [SWith [(ECall (EAttr (EName "nengo") "Network") [] [], Some (EName "net"))]
     [SAssign (EName "a")
        (ECall (EAttr (EName "nengo") "Node")
           [EList [ENum "0.5"; EUnaryOp USub (ENum "0.1")]]
           []);
      SDef "tensor_func" [("t", None); ("x", None)] None
        [SAssign (EName "t")
           (ECall (EAttr (EAttr (EName "nengo_dl") "utils") "print_op")
              [EName "t"; EStr "t:"]
              []);
         SWith
           [(ECall (EAttr (EName "tf") "control_dependencies") [EList [EName "t"]] [],
             None)]
           [SAssign (EName "x")
              (ECall (EAttr (EAttr (EName "nengo_dl") "utils") "print_op")
                 [EName "x"; EStr "x:"]
                 [])];
         SReturn (ECall (EAttr (EName "tf") "add") [EName "t"; EName "x"] [])];
      SAssign (EName "b")
        (ECall (EAttr (EName "nengo_dl") "TensorNode") [EName "tensor_func"]
           [("size_in", ENum "2")]);
      SExpr
        (ECall (EAttr (EName "nengo") "Connection") [EName "a"; EName "b"]
           [("synapse", ENone)]);
      SAssign (EName "p") (ECall (EAttr (EName "nengo") "Probe") [EName "b"] [])];
   SWith
     [(ECall (EAttr (EName "nengo_dl") "Simulator") [EName "net"] [],
       Some (EName "sim"))]
     [SExpr (ECall (EName "print") [EStr "TensorNode input:"] []);
      SExpr
        (ECall (EAttr (EName "sim") "run_steps") [ENum "10"]
           [("progress_bar", EFalse)]);
      SExpr (ECall (EName "print") [EStr "TensorNode output:"] []);
      SExpr
        (ECall (EName "print") [EIndex (EAttr (EName "sim") "data") (EName "p")] [])]].

(** [src/docs/examples/from-tensorflow.ipynb], lines 374-404. *)
Definition from_tensorflow_cell24 : list stmt :=
  [SWith [(ECall (EAttr (EName "nengo") "Network") [] [], Some (EName "net"))]
     [SClass "TensorFunc" []
        [SDef "pre_build" [("self", None); ("shape_in", None); ("shape_out", None)] None
           [SExpr
              (ECall (EName "print")
                 [EStr "in pre_build, scope:";
                  ECall
                    (EAttr (ECall (EAttr (EName "tf") "get_default_graph") [] [])
                       "get_name_scope")
                    []
                    []]
                 [])];
         SDef "__call__" [("self", None); ("t", None); ("x", None)] None
           [SExpr
              (ECall (EName "print")
                 [EStr "in build, scope:";
                  ECall
                    (EAttr (ECall (EAttr (EName "tf") "get_default_graph") [] [])
                       "get_name_scope")
                    []
                    []]
                 []);
            SReturn (EName "x")];
         SDef "post_build" [("self", None); ("sim_sess", None); ("rng", None)] None
           [SExpr
              (ECall (EName "print")
                 [EStr "in post_build, scope:";
                  ECall
                    (EAttr (ECall (EAttr (EName "tf") "get_default_graph") [] [])
                       "get_name_scope")
                    []
                    []]
                 [])]];
      SAssign (EName "a")
        (ECall (EAttr (EName "nengo_dl") "TensorNode")
           [ECall (EName "TensorFunc") [] []]
           [("size_in", ENum "1"); ("size_out", ENum "1")])];
   SWith
     [(ECall (EAttr (EName "nengo_dl") "Simulator") [EName "net"]
         [("progress_bar", EFalse)],
       Some (EName "sim"))]
     [SPass]].

(** [src/docs/examples/from-tensorflow.ipynb], lines 429-437. *)
Definition from_tensorflow_cell27 : list stmt :=
  [SExpr
     (ECall (EName "urlretrieve")
        [EStr "http://deeplearning.net/data/mnist/mnist.pkl.gz"; EStr "mnist.pkl.gz"]
        []);
   SWith
     [(ECall (EAttr (EName "gzip") "open") [EStr "mnist.pkl.gz"] [], Some (EName "f"))]
     [SAssign
        (ETuple
           [ETuple [EName "train_data"; EName "_"];
            EName "_";
            ETuple [EName "test_data"; EName "_"]])
        (ECall (EAttr (EName "pickle") "load") [EName "f"]
           [("encoding", EStr "latin1")])];
   SExpr
     (ECall (EAttr (EAttr (EName "np") "random") "shuffle") [EName "train_data"] []);
   SAssign (EName "n_epochs") (ENum "2")].

(** [src/docs/examples/from-tensorflow.ipynb], lines 453-485. *)
Definition from_tensorflow_cell29 : list stmt :=
  [SWith [(ECall (EAttr (EName "auto_graph") "as_default") [] [], None)]
     [SAssign (EName "targets")
        (ECall (EAttr (EName "tf") "placeholder")
           [EAttr (EName "tf") "float32"; ETuple [EName "minibatch_size"; EName "n_in"]]
           []);
      SAssign (EName "loss")
        (ECall (EAttr (EName "tf") "reduce_mean")
           [ECall (EAttr (EName "tf") "square")
              [EBinOp Sub (EName "targets") (EName "tf_c")]
              []]
           []);
      SAssign (EName "optimizer")
        (ECall (EAttr (EAttr (EName "tf") "train") "RMSPropOptimizer") [ENum "1e-3"]
           []);
      SAssign (EName "opt_op")
        (ECall (EAttr (EName "optimizer") "minimize") [EName "loss"] [])];
   SWith
     [(ECall (EAttr (EName "tf") "Session") [] [("graph", EName "auto_graph")],
       Some (EName "sess"))]
     [SExpr
        (ECall (EAttr (EName "sess") "run")
           [ECall (EAttr (EName "tf") "global_variables_initializer") [] []]
           []);
      SFor (EName "i") (ECall (EName "range") [EName "n_epochs"] [])
        [SFor (EName "j")
           (ECall (EName "range")
              [ENum "0";
               ECall (EName "len") [EName "train_data"] [];
               EName "minibatch_size"]
              [])
           [SExpr
              (ECall (EAttr (EName "sess") "run") [EName "opt_op"]
                 [("feed_dict",
                   EDict
                     [(EName "tf_a",
                       EIndex (EName "train_data")
                         (ESlice (Some (EName "j"))
                            (Some (EBinOp Add (EName "j") (EName "minibatch_size")))));
                      (EName "targets",
                       EIndex (EName "train_data")
                         (ESlice (Some (EName "j"))
                            (Some
                               (EBinOp Add (EName "j")
                                  (EName "minibatch_size")))))])])]];
      SAssign (EName "error")
        (ECall (EAttr (EName "np") "mean")
           [EListComp
              (ECall (EAttr (EName "sess") "run") [EName "loss"]
                 [("feed_dict",
                   EDict
                     [(EName "tf_a",
                       EIndex (EName "test_data")
                         (ESlice (Some (EName "j"))
                            (Some (EBinOp Add (EName "j") (EName "minibatch_size")))));
                      (EName "targets",
                       EIndex (EName "test_data")
                         (ESlice (Some (EName "j"))
                            (Some
                               (EBinOp Add (EName "j") (EName "minibatch_size")))))])])
              (EName "j")
              (ECall (EName "range")
                 [ENum "0";
                  ECall (EName "len") [EName "test_data"] [];
                  EName "minibatch_size"]
                 [])]
           []);
      SExpr (ECall (EName "print") [EStr "error:"; EName "error"] []);
      SAssign (EName "output")
        (ECall (EAttr (EName "sess") "run") [EName "tf_c"]
           [("feed_dict",
             EDict
               [(EName "tf_a",
                 EIndex (EName "test_data")
                   (ESlice None (Some (EName "minibatch_size"))))])]);
      SExpr (ECall (EAttr (EName "plt") "figure") [] []);
      SExpr
        (ECall (EAttr (EName "plt") "imshow")
           [ECall (EAttr (EIndex (EName "output") (ENum "0")) "reshape")
              [ETuple [ENum "28"; ENum "28"]]
              []]
           [])]].

(** [src/docs/examples/from-tensorflow.ipynb], lines 501-508. *)
Definition from_tensorflow_cell31 : list stmt :=
  [SFor (EName "ens") (EAttr (EName "auto_net") "all_ensembles")
     [SAssign (EAttr (EName "ens") "gain")
        (ECall (EAttr (EAttr (EName "nengo") "dists") "Choice") [EList [ENum "1"]] []);
      SAssign (EAttr (EName "ens") "bias")
        (ECall (EAttr (EAttr (EName "nengo") "dists") "Choice") [EList [ENum "0"]] [])];
   SFor (EName "conn") (EAttr (EName "auto_net") "all_connections")
     [SAssign (EAttr (EName "conn") "synapse") ENone]].

(** [src/docs/examples/from-tensorflow.ipynb], lines 524-525. *)
Definition from_tensorflow_cell33 : list stmt :=
  [SAssign (EName "train_data")
     (EIndex (EName "train_data") (ETuple [ESlice None None; ENone; ESlice None None]));
   SAssign (EName "test_data")
     (EIndex (EName "test_data") (ETuple [ESlice None None; ENone; ESlice None None]))].

(** [src/docs/examples/from-tensorflow.ipynb], lines 541-563. *)
Definition from_tensorflow_cell35 : list stmt :=
  [SDef "mse" [("out", None); ("tar", None)] None
     [SReturn
        (ECall (EAttr (EName "tf") "reduce_mean")
           [ECall (EAttr (EName "tf") "square") [EBinOp Sub (EName "out") (EName "tar")]
              []]
           [])];
   SWith
     [(ECall (EAttr (EName "nengo_dl") "Simulator") [EName "auto_net"]
         [("minibatch_size", EName "minibatch_size")],
       Some (EName "sim"))]
     [SExpr
        (ECall (EAttr (EName "sim") "train")
           [EDict
              [(EName "nengo_a", EName "train_data");
               (EName "p_c", EName "train_data")];
            ECall (EAttr (EAttr (EName "tf") "train") "RMSPropOptimizer") [ENum "1e-3"]
              []]
           [("objective", EDict [(EName "p_c", EName "mse")]);
            ("n_epochs", EName "n_epochs")]);
      SAssign (EName "error")
        (ECall (EAttr (EName "sim") "loss")
           [EDict
              [(EName "nengo_a", EName "test_data"); (EName "p_c", EName "test_data")]]
           [("objective", EDict [(EName "p_c", EName "mse")])]);
      SExpr (ECall (EName "print") [EStr "error:"; EName "error"] []);
      SExpr
        (ECall (EAttr (EName "sim") "step") []
           [("data",
             EDict
               [(EName "nengo_a",
                 EIndex (EName "test_data")
                   (ESlice None (Some (EName "minibatch_size"))))])]);
      SExpr (ECall (EAttr (EName "plt") "figure") [] []);
      SExpr
        (ECall (EAttr (EName "plt") "imshow")
           [ECall
              (EAttr
                 (EIndex (EIndex (EAttr (EName "sim") "data") (EName "p_c")) (ENum "0"))
                 "reshape")
              [ETuple [ENum "28"; ENum "28"]]
              []]
           [])]].

(** [src/docs/examples/from-tensorflow.ipynb], lines 590-625. *)
Definition from_tensorflow_cell38 : list stmt :=
  [SWith
     [(ECall (EAttr (EName "nengo") "Network") [] [("seed", ENum "0")],
       Some (EName "net"))]
     [SAssign (EName "inpt")
        (ECall (EAttr (EName "nengo") "Node")
           [ECall (EAttr (EAttr (EName "nengo") "processes") "WhiteSignal")
              [ENum "1"; ENum "5"]
              [("rms", ENum "0.3")]]
           []);
      SAssign (EName "ens0")
        (ECall (EAttr (EName "nengo") "Ensemble") [ENum "50"; ENum "1"] []);
      SAssign (EName "ens1")
        (ECall (EAttr (EName "nengo") "Ensemble") [ENum "50"; ENum "1"] []);
      SAssign (EName "outpt")
        (ECall (EAttr (EName "nengo") "Node") [] [("size_in", ENum "1")]);
      SExpr
        (ECall (EAttr (EName "nengo") "Connection") [EName "inpt"; EName "ens0"] []);
      SExpr
        (ECall (EAttr (EName "nengo") "Connection") [EName "ens0"; EName "ens1"]
           [("function", EAttr (EName "np") "square")]);
      SExpr
        (ECall (EAttr (EName "nengo") "Connection") [EName "ens1"; EName "outpt"]
           [("function", EAttr (EName "np") "sin")]);
      SAssign (EName "inpt_p")
        (ECall (EAttr (EName "nengo") "Probe") [EName "inpt"] []);
      SAssign (EName "outpt_p")
        (ECall (EAttr (EName "nengo") "Probe") [EName "outpt"] [])];
   SWith
     [(ECall (EAttr (EName "nengo_dl") "Simulator") [EName "net"] [],
       Some (EName "sim"))]
     [SExpr (ECall (EAttr (EName "sim") "run") [ENum "1.0"] [])];
   SExpr (ECall (EAttr (EName "plt") "figure") [] []);
   SExpr
     (ECall (EAttr (EName "plt") "plot")
        [ECall (EAttr (EName "sim") "trange") [] [];
         EIndex (EAttr (EName "sim") "data") (EName "inpt_p")]
        [("label", EStr "x")]);
   SExpr
     (ECall (EAttr (EName "plt") "plot")
        [ECall (EAttr (EName "sim") "trange") [] [];
         ECall (EAttr (EName "np") "sin")
           [EBinOp Pow (EIndex (EAttr (EName "sim") "data") (EName "inpt_p"))
              (ENum "2")]
           []]
        [("label", EStr "sin(x^2)")]);
   SExpr
     (ECall (EAttr (EName "plt") "plot")
        [ECall (EAttr (EName "sim") "trange") [] [];
         EIndex (EAttr (EName "sim") "data") (EName "outpt_p")]
        [("label", EStr "output")]);
   SExpr (ECall (EAttr (EName "plt") "legend") [] [])].

(** [src/docs/examples/from-tensorflow.ipynb], lines 654-677. *)
Definition from_tensorflow_cell41 : list stmt :=
  [SWith
     [(ECall (EAttr (EName "nengo") "Simulator") [EName "net"] [], Some (EName "sim"))]
     [SExpr (ECall (EAttr (EName "sim") "run") [ENum "1.0"] [])];
   SExpr (ECall (EAttr (EName "plt") "figure") [] []);
   SExpr
     (ECall (EAttr (EName "plt") "plot")
        [ECall (EAttr (EName "sim") "trange") [] [];
         EIndex (EAttr (EName "sim") "data") (EName "inpt_p")]
        [("label", EStr "x")]);
   SExpr
     (ECall (EAttr (EName "plt") "plot")
        [ECall (EAttr (EName "sim") "trange") [] [];
         ECall (EAttr (EName "np") "sin")
           [EBinOp Pow (EIndex (EAttr (EName "sim") "data") (EName "inpt_p"))
              (ENum "2")]
           []]
        [("label", EStr "sin(x^2)")]);
   SExpr
     (ECall (EAttr (EName "plt") "plot")
        [ECall (EAttr (EName "sim") "trange") [] [];
         EIndex (EAttr (EName "sim") "data") (EName "outpt_p")]
        [("label", EStr "output")]);
   SExpr (ECall (EAttr (EName "plt") "legend") [] [])].

(** The cells of [src/docs/examples/from-tensorflow.ipynb], in file order. *)
Definition from_tensorflow : notebook :=
  {| nb_path := "src/docs/examples/from-tensorflow.ipynb";
     nb_cells :=
       [Markdown 3;
        Code 13 from_tensorflow_cell01;
        Markdown 3;
        Code 17 from_tensorflow_cell03;
        Markdown 1;
        Code 19 from_tensorflow_cell05;
        Markdown 7;
        Markdown 3;
        Code 4 from_tensorflow_cell08;
        Markdown 1;
        Code 3 from_tensorflow_cell10;
        Markdown 5;
        Markdown 7;
        Code 40 from_tensorflow_cell13;
        Markdown 5;
        Code 10 from_tensorflow_cell15;
        Markdown 7;
        Markdown 7;
        Code 4 from_tensorflow_cell18;
        Markdown 3;
        Code 6 from_tensorflow_cell20;
        Markdown 3;
        Code 25 from_tensorflow_cell22;
        Markdown 5;
        Code 31 from_tensorflow_cell24;
        Markdown 1;
        Markdown 3;
        Code 9 from_tensorflow_cell27;
        Markdown 1;
        Code 33 from_tensorflow_cell29;
        Markdown 1;
        Code 8 from_tensorflow_cell31;
        Markdown 1;
        Code 2 from_tensorflow_cell33;
        Markdown 1;
        Code 23 from_tensorflow_cell35;
        Markdown 1;
        Markdown 5;
        Code 36 from_tensorflow_cell38;
        Markdown 3;
        Markdown 5;
        Code 24 from_tensorflow_cell41;
        Markdown 3;
        Markdown 3] |}.

(** [src/docs/examples/tensorflow-models.ipynb], lines 20-37. *)
Definition tensorflow_models_cell01 : list stmt :=
  [SMagic "%matplotlib inline";
   SImport "sys" None;
   SImport "os" None;
   SImportFrom "urllib.request" ["urlopen"];
   SImport "io" None;
   SImport "shutil" None;
   SImport "stat" None;
   SImport "numpy" (Some "np");
   SImport "matplotlib.pyplot" (Some "plt");
   SImportFrom "PIL" ["Image"];
   SImport "tensorflow" (Some "tf");
   SImportFrom "tensorflow" ["keras"];
   SImport "tensorflow.contrib.slim" (Some "slim");
   SImport "nengo" None;
   SImport "nengo_dl" None].

(** [src/docs/examples/tensorflow-models.ipynb], lines 57-75. *)
Definition tensorflow_models_cell03 : list stmt :=
  [SWith [(ECall (EAttr (EName "nengo") "Network") [] [], Some (EName "net"))]
     [SDef "sin_func" [("t", None)] None
        [SAssign (EName "out") (ECall (EAttr (EName "tf") "sin") [EName "t"] []);
         SAssign (EName "out")
           (ECall (EAttr (EName "tf") "reshape")
              [EName "out"; ETuple [ENum "1"; ENum "1"]]
              []);
         SReturn (EName "out")];
      SAssign (EName "node")
        (ECall (EAttr (EName "nengo_dl") "TensorNode") [EName "sin_func"] []);
      SAssign (EName "p") (ECall (EAttr (EName "nengo") "Probe") [EName "node"] [])];
   SWith
     [(ECall (EAttr (EName "nengo_dl") "Simulator") [EName "net"] [],
       Some (EName "sim"))]
     [SExpr (ECall (EAttr (EName "sim") "run") [ENum "5.0"] [])];
   SExpr (ECall (EAttr (EName "plt") "figure") [] []);
   SExpr
     (ECall (EAttr (EName "plt") "plot")
        [ECall (EAttr (EName "sim") "trange") [] [];
         EIndex (EAttr (EName "sim") "data") (EName "p")]
        [])].

(** [src/docs/examples/tensorflow-models.ipynb], lines 104-121. *)
Definition tensorflow_models_cell06 : list stmt :=
  [SAssign (EName "fashion_mnist")
     (EAttr (EAttr (EName "keras") "datasets") "fashion_mnist");
   SAssign
     (ETuple
        [ETuple [EName "train_images"; EName "train_labels"];
         ETuple [EName "test_images"; EName "test_labels"]])
     (ECall (EAttr (EName "fashion_mnist") "load_data") [] []);
   SAssign (EName "num_classes")
     (EIndex
        (EAttr (ECall (EAttr (EName "np") "unique") [EName "test_labels"] []) "shape")
        (ENum "0"));
   SAssign (EName "train_images") (EBinOp Div (EName "train_images") (ENum "255.0"));
   SAssign (EName "test_images") (EBinOp Div (EName "test_images") (ENum "255.0"));
   SAssign (EName "class_names")
     (EList
        [EStr "T-shirt/top";
         EStr "Trouser";
         EStr "Pullover";
         EStr "Dress";
         EStr "Coat";
         EStr "Sandal";
         EStr "Shirt";
         EStr "Sneaker";
         EStr "Bag";
         EStr "Ankle boot"]);
   SFor (EName "i") (ECall (EName "range") [ENum "3"] [])
     [SExpr (ECall (EAttr (EName "plt") "figure") [] []);
      SExpr
        (ECall (EAttr (EName "plt") "imshow") [EIndex (EName "test_images") (EName "i")]
           [("cmap", EStr "gray")]);
      SExpr (ECall (EAttr (EName "plt") "axis") [EStr "off"] []);
      SExpr
        (ECall (EAttr (EName "plt") "title")
           [EIndex (EName "class_names") (EIndex (EName "test_labels") (EName "i"))]
           [])]].

(** [src/docs/examples/tensorflow-models.ipynb], lines 139-151. *)
Definition tensorflow_models_cell08 : list stmt :=
  [SAssign (EName "image_shape") (ETuple [ENum "28"; ENum "28"]);
   SAssign (EName "model")
     (ECall (EAttr (EName "keras") "Sequential")
        [EList
           [ECall (EAttr (EAttr (EName "keras") "layers") "Flatten") []
              [("input_shape", EName "image_shape"); ("name", EStr "flatten")];
            ECall (EAttr (EAttr (EName "keras") "layers") "Dense") [ENum "128"]
              [("activation", EAttr (EAttr (EName "tf") "nn") "relu");
               ("name", EStr "hidden")];
            ECall (EAttr (EAttr (EName "keras") "layers") "Dense") [EName "num_classes"]
              [("activation", EAttr (EAttr (EName "tf") "nn") "softmax");
               ("name", EStr "softmax")]]]
        []);
   SExpr
     (ECall (EAttr (EName "model") "compile") []
        [("optimizer",
          ECall (EAttr (EAttr (EName "tf") "train") "AdamOptimizer") [] []);
         ("loss", EStr "sparse_categorical_crossentropy");
         ("metrics", EList [EStr "accuracy"])]);
   SExpr
     (ECall (EAttr (EName "model") "fit") [EName "train_images"; EName "train_labels"]
        [("epochs", ENum "5")])].

(** [src/docs/examples/tensorflow-models.ipynb], lines 167-168. *)
Definition tensorflow_models_cell10 : list stmt :=
  [SAssign (EName "model_weights") (EStr "keras_weights.h5");
   SExpr (ECall (EAttr (EName "model") "save_weights") [EName "model_weights"] [])].

(** [src/docs/examples/tensorflow-models.ipynb], lines 190-205. *)
Definition tensorflow_models_cell12 : list stmt :=
  [SClass "KerasNode" []
     [SDef "__init__" [("self", None); ("keras_model", None)] None
        [SAssign (EAttr (EName "self") "model") (EName "keras_model")];
      SDef "pre_build" [("self", None)] (Some "args")
        [SAssign (EAttr (EName "self") "model")
           (ECall (EAttr (EAttr (EName "keras") "models") "clone_model")
              [EAttr (EName "self") "model"]
              [])];
      SDef "__call__" [("self", None); ("t", None); ("x", None)] None
        [SAssign (EName "images")
           (ECall (EAttr (EName "tf") "reshape")
              [EName "x";
               EBinOp Add (ETuple [EUnaryOp USub (ENum "1")]) (EName "image_shape")]
              []);
         SReturn
           (ECall (EAttr (EAttr (EName "self") "model") "call") [EName "images"] [])];
      SDef "post_build" [("self", None); ("sess", None); ("rng", None)] None
        [SExpr
           (ECall (EAttr (EAttr (EName "self") "model") "load_weights")
              [EName "model_weights"]
              [])]]].

(** [src/docs/examples/tensorflow-models.ipynb], lines 223-233. *)
Definition tensorflow_models_cell14 : list stmt :=
  [SWith [(ECall (EAttr (EName "tf") "Session") [] [], None)]
     [SExpr (ECall (EAttr (EName "model") "load_weights") [EName "model_weights"] []);
      SAssign (EName "out1")
        (ECall (EAttr (EName "model") "call")
           [ECall (EAttr (EName "tf") "convert_to_tensor")
              [EIndex (EName "test_images") (ESlice None (Some (ENum "10")))]
              [("dtype", EAttr (EName "tf") "float32")]]
           []);
      SExpr
        (ECall (EName "print")
           [EStr "Type of 'out1':"; ECall (EName "type") [EName "out1"] []]
           []);
      SAssign (EName "out2")
        (ECall (EAttr (EName "model") "predict")
           [EIndex (EName "test_images") (ESlice None (Some (ENum "10")))]
           []);
      SExpr
        (ECall (EName "print")
           [EStr "Type of 'out2':"; ECall (EName "type") [EName "out2"] []]
           [])]].

(** [src/docs/examples/tensorflow-models.ipynb], lines 249-272. *)
Definition tensorflow_models_cell16 : list stmt :=
  [SAssign (EName "net_input_shape")
     (ECall (EAttr (EName "np") "prod") [EName "image_shape"] []);
   SWith [(ECall (EAttr (EName "nengo") "Network") [] [], Some (EName "net"))]
     [SAssign (EName "input_node")
        (ECall (EAttr (EName "nengo") "Node") []
           [("output",
             ECall (EAttr (EName "np") "ones") [ETuple [EName "net_input_shape"]] [])]);
      SAssign (EName "keras_node")
        (ECall (EAttr (EName "nengo_dl") "TensorNode")
           [ECall (EName "KerasNode") [EName "model"] []]
           [("size_in", EName "net_input_shape"); ("size_out", EName "num_classes")]);
      SExpr
        (ECall (EAttr (EName "nengo") "Connection")
           [EName "input_node"; EName "keras_node"]
           [("synapse", ENone)]);
      SAssign (EName "keras_p")
        (ECall (EAttr (EName "nengo") "Probe") [EName "keras_node"] [])]].

(** [src/docs/examples/tensorflow-models.ipynb], lines 290-304. *)
Definition tensorflow_models_cell18 : list stmt :=
  [SAssign (EName "minibatch_size") (ENum "20");
   SExpr (ECall (EAttr (EAttr (EName "np") "random") "seed") [ENum "1"] []);
   SAssign (EName "test_inds")
     (ECall (EAttr (EAttr (EName "np") "random") "randint") []
        [("low", ENum "0");
         ("high", EIndex (EAttr (EName "test_images") "shape") (ENum "0"));
         ("size", ETuple [EName "minibatch_size"])]);
   SAssign (EName "test_inputs") (EIndex (EName "test_images") (EName "test_inds"));
   SAssign (EName "test_inputs")
     (ECall (EAttr (EName "test_inputs") "reshape")
        [ETuple [EUnaryOp USub (ENum "1"); EName "net_input_shape"]]
        []);
   SAssign (EName "test_inputs")
     (EIndex (EName "test_inputs")
        (ETuple [ESlice None None; ENone; ESlice None None]))].

(** [src/docs/examples/tensorflow-models.ipynb], lines 320-321. *)
Definition tensorflow_models_cell20 : list stmt :=
  [SWith
     [(ECall (EAttr (EName "nengo_dl") "Simulator") [EName "net"]
         [("minibatch_size", EName "minibatch_size")],
       Some (EName "sim"))]
     [SExpr
        (ECall (EAttr (EName "sim") "step") []
           [("data", EDict [(EName "input_node", EName "test_inputs")])])]].

(** [src/docs/examples/tensorflow-models.ipynb], lines 337-345. *)
Definition tensorflow_models_cell22 : list stmt :=
  [SAssign (EName "tensornode_output")
     (EIndex (EAttr (EName "sim") "data") (EName "keras_p"));
   SFor (EName "i") (ECall (EName "range") [ENum "5"] [])
     [SExpr (ECall (EAttr (EName "plt") "figure") [] []);
      SExpr
        (ECall (EAttr (EName "plt") "imshow")
           [EIndex (EIndex (EName "test_images") (EName "test_inds")) (EName "i")]
           [("cmap", EStr "gray")]);
      SExpr (ECall (EAttr (EName "plt") "axis") [EStr "off"] []);
      SExpr
        (ECall (EAttr (EName "plt") "title")
           [EBinOp Mod (EStr "%s (%s)")
              (ETuple
                 [EIndex (EName "class_names")
                    (EIndex (EIndex (EName "test_labels") (EName "test_inds"))
                       (EName "i"));
                  EIndex (EName "class_names")
                    (ECall (EAttr (EName "np") "argmax")
                       [EIndex (EName "tensornode_output")
                          (ETuple [EName "i"; ENum "0"])]
                       [])])]
           [])]].

(** [src/docs/examples/tensorflow-models.ipynb], lines 372-376. *)
Definition tensorflow_models_cell25 : list stmt :=
  [SMagic "!git clone -q https://github.com/tensorflow/models";
   SExpr
     (ECall (EAttr (EAttr (EName "sys") "path") "append")
        [ECall (EAttr (EAttr (EName "os") "path") "join")
           [EStr "."; EStr "models"; EStr "research"; EStr "slim"]
           []]
        []);
   SImportFrom "datasets" ["dataset_utils"; "imagenet"];
   SImportFrom "nets" ["inception"];
   SImportFrom "preprocessing" ["inception_preprocessing"]].

(** [src/docs/examples/tensorflow-models.ipynb], lines 396-404. *)
Definition tensorflow_models_cell27 : list stmt :=
  [SAssign (EName "url")
     (EStr
        "https://upload.wikimedia.org/wikipedia/commons/7/70/EnglishCockerSpaniel_simon.jpg");
   SAssign (EName "image_string")
     (ECall (EAttr (ECall (EName "urlopen") [EName "url"] []) "read") [] []);
   SAssign (EName "image")
     (ECall (EAttr (EName "np") "array")
        [ECall (EAttr (EName "Image") "open")
           [ECall (EAttr (EName "io") "BytesIO") [EName "image_string"] []]
           []]
        []);
   SAssign (EName "image_shape") (EAttr (EName "image") "shape");
   SExpr (ECall (EAttr (EName "plt") "figure") [] []);
   SExpr (ECall (EAttr (EName "plt") "imshow") [EName "image"] []);
   SExpr (ECall (EAttr (EName "plt") "axis") [EStr "off"] [])].

(** [src/docs/examples/tensorflow-models.ipynb], lines 426-465. *)
Definition tensorflow_models_cell29 : list stmt :=
  [SAssign (EName "checkpoints_dir") (EStr "/tmp/checkpoints");
   SClass "InceptionNode" []
     [SDef "pre_build" [("self", None)] (Some "args")
        [SAssign (EAttr (EName "self") "input_shape")
           (EAttr (EAttr (EName "inception") "inception_v1") "default_image_size");
         SIf
           (EUnaryOp Not
              (ECall (EAttr (EAttr (EName "tf") "gfile") "Exists")
                 [EName "checkpoints_dir"]
                 []))
           [SExpr
              (ECall (EAttr (EAttr (EName "tf") "gfile") "MakeDirs")
                 [EName "checkpoints_dir"]
                 [])]
           [];
         SExpr
           (ECall (EAttr (EName "dataset_utils") "download_and_uncompress_tarball")
              [EStr
                 "http://download.tensorflow.org/models/inception_v1_2016_08_28.tar.gz";
               EName "checkpoints_dir"]
              [])];
      SDef "__call__" [("self", None); ("t", None); ("x", None)] None
        [SAssign (EName "img")
           (ECall (EAttr (EName "tf") "reshape")
              [ECall (EAttr (EName "tf") "cast") [EName "x"; EAttr (EName "tf") "uint8"]
                 [];
               EName "image_shape"]
              []);
         SAssign (EName "img")
           (ECall (EAttr (EName "inception_preprocessing") "preprocess_image")
              [EName "img";
               EAttr (EName "self") "input_shape";
               EAttr (EName "self") "input_shape"]
              [("is_training", EFalse)]);
         SAssign (EName "img")
           (ECall (EAttr (EName "tf") "expand_dims") [EName "img"; ENum "0"] []);
         SWith
           [(ECall (EAttr (EName "slim") "arg_scope")
               [ECall (EAttr (EName "inception") "inception_v1_arg_scope") [] []]
               [],
             None)]
           [SAssign (ETuple [EName "logits"; EName "_"])
              (ECall (EAttr (EName "inception") "inception_v1") [EName "img"]
                 [("num_classes", ENum "1001"); ("is_training", EFalse)])];
         SReturn
           (ECall (EAttr (EAttr (EName "tf") "nn") "softmax") [EName "logits"] [])];
      SDef "post_build" [("self", None); ("sess", None); ("rng", None)] None
        [SAssign (EName "init_fn")
           (ECall (EAttr (EName "slim") "assign_from_checkpoint_fn")
              [ECall (EAttr (EAttr (EName "os") "path") "join")
                 [EName "checkpoints_dir"; EStr "inception_v1.ckpt"]
                 [];
               ECall (EAttr (EName "slim") "get_model_variables") [EStr "InceptionV1"]
                 []]
              []);
         SExpr (ECall (EName "init_fn") [EName "sess"] [])]]].

(** [src/docs/examples/tensorflow-models.ipynb], lines 481-497. *)
Definition tensorflow_models_cell31 : list stmt :=
  [SWith [(ECall (EAttr (EName "nengo") "Network") [] [], Some (EName "net"))]
     [SAssign (EName "input_node")
        (ECall (EAttr (EName "nengo") "Node") []
           [("output", ECall (EAttr (EName "image") "flatten") [] [])]);
      SAssign (EName "incep_node")
        (ECall (EAttr (EName "nengo_dl") "TensorNode")
           [ECall (EName "InceptionNode") [] []]
           [("size_in", ECall (EAttr (EName "np") "prod") [EName "image_shape"] []);
            ("size_out", ENum "1001")]);
      SExpr
        (ECall (EAttr (EName "nengo") "Connection")
           [EName "input_node"; EName "incep_node"]
           [("synapse", ENone)]);
      SAssign (EName "input_p")
        (ECall (EAttr (EName "nengo") "Probe") [EName "input_node"] []);
      SAssign (EName "incep_p")
        (ECall (EAttr (EName "nengo") "Probe") [EName "incep_node"] [])]].

(** [src/docs/examples/tensorflow-models.ipynb], lines 515-535. *)
Definition tensorflow_models_cell33 : list stmt :=
  [SWith
     [(ECall (EAttr (EName "nengo_dl") "Simulator") [EName "net"] [],
       Some (EName "sim"))]
     [SExpr (ECall (EAttr (EName "sim") "step") [] [])];
   SAssign (EName "probabilities")
     (EIndex (EIndex (EAttr (EName "sim") "data") (EName "incep_p")) (ENum "0"));
   SAssign (EName "sorted_inds")
     (EListComp (EIndex (EName "i") (ENum "0")) (EName "i")
        (ECall (EName "sorted")
           [ECall (EName "enumerate") [EUnaryOp USub (EName "probabilities")] []]
           [("key", ELambda ["x"] (EIndex (EName "x") (ENum "1")))]));
   SAssign (EName "names")
     (ECall (EAttr (EName "imagenet") "create_readable_names_for_imagenet_labels") []
        []);
   SFor (EName "i") (ECall (EName "range") [ENum "5"] [])
     [SAssign (EName "index") (EIndex (EName "sorted_inds") (EName "i"));
      SExpr
        (ECall (EName "print")
           [EBinOp Mod (EStr "Probability %0.2f%% => [%s]")
              (ETuple
                 [EBinOp Mult (EIndex (EName "probabilities") (EName "index"))
                    (ENum "100");
                  EIndex (EName "names") (EName "index")])]
           [])];
   SExpr (ECall (EAttr (EName "plt") "figure") [] []);
   SExpr
     (ECall (EAttr (EName "plt") "imshow")
        [ECall
           (EAttr
              (ECall
                 (EAttr
                    (EIndex (EIndex (EAttr (EName "sim") "data") (EName "input_p"))
                       (ENum "0"))
                    "reshape")
                 [EName "image_shape"]
                 [])
              "astype")
           [EAttr (EName "np") "uint8"]
           []]
        []);
   SExpr (ECall (EAttr (EName "plt") "axis") [EStr "off"] [])].

(** [src/docs/examples/tensorflow-models.ipynb], lines 544-551. *)
Definition tensorflow_models_cell34 : list stmt :=
  [SDef "onerror" [("func", None); ("path", None); ("exc_info", None)] None
     [SIf
        (EUnaryOp Not
           (ECall (EAttr (EName "os") "access")
              [EName "path"; EAttr (EName "os") "W_OK"]
              []))
        [SExpr
           (ECall (EAttr (EName "os") "chmod")
              [EName "path"; EAttr (EName "stat") "S_IWUSR"]
              []);
         SExpr (ECall (EName "func") [EName "path"] [])]
        [SRaise (EIndex (EName "exc_info") (ENum "1"))]];
   SExpr
     (ECall (EAttr (EName "shutil") "rmtree") [EStr "models"]
        [("onerror", EName "onerror")])].

(** The cells of [src/docs/examples/tensorflow-models.ipynb], in file order. *)
Definition tensorflow_models : notebook :=
  {| nb_path := "src/docs/examples/tensorflow-models.ipynb";
     nb_cells :=
       [Markdown 5;
        Code 18 tensorflow_models_cell01;
        Markdown 5;
        Code 19 tensorflow_models_cell03;
        Markdown 1;
        Markdown 7;
        Code 18 tensorflow_models_cell06;
        Markdown 3;
        Code 13 tensorflow_models_cell08;
        Markdown 1;
        Code 2 tensorflow_models_cell10;
        Markdown 7;
        Code 16 tensorflow_models_cell12;
        Markdown 3;
        Code 11 tensorflow_models_cell14;
        Markdown 1;
        Code 24 tensorflow_models_cell16;
        Markdown 3;
        Code 15 tensorflow_models_cell18;
        Markdown 1;
        Code 2 tensorflow_models_cell20;
        Markdown 1;
        Code 9 tensorflow_models_cell22;
        Markdown 1;
        Markdown 5;
        Code 5 tensorflow_models_cell25;
        Markdown 5;
        Code 9 tensorflow_models_cell27;
        Markdown 7;
        Code 40 tensorflow_models_cell29;
        Markdown 1;
        Code 17 tensorflow_models_cell31;
        Markdown 3;
        Code 21 tensorflow_models_cell33;
        Code 8 tensorflow_models_cell34] |}.

(** [src/docs/examples/spiking-mnist.ipynb], lines 20-32. *)
Definition spiking_mnist_cell01 : list stmt :=
  [SMagic "%matplotlib inline";
   SImport "gzip" None;
   SImport "pickle" None;
   SImportFrom "urllib.request" ["urlretrieve"];
   SImport "zipfile" None;
   SImport "nengo" None;
   SImport "tensorflow" (Some "tf");
   SImport "numpy" (Some "np");
   SImport "matplotlib.pyplot" (Some "plt");
   SImport "nengo_dl" None].

(** [src/docs/examples/spiking-mnist.ipynb], lines 48-64. *)
Definition spiking_mnist_cell03 : list stmt :=
  [SExpr
     (ECall (EName "urlretrieve")
        [EStr "http://deeplearning.net/data/mnist/mnist.pkl.gz"; EStr "mnist.pkl.gz"]
        []);
   SWith
     [(ECall (EAttr (EName "gzip") "open") [EStr "mnist.pkl.gz"] [], Some (EName "f"))]
     [SAssign (ETuple [EName "train_data"; EName "_"; EName "test_data"])
        (ECall (EAttr (EName "pickle") "load") [EName "f"]
           [("encoding", EStr "latin1")])];
   SAssign (EName "train_data") (ECall (EName "list") [EName "train_data"] []);
   SAssign (EName "test_data") (ECall (EName "list") [EName "test_data"] []);
   SFor (EName "data") (ETuple [EName "train_data"; EName "test_data"])
     [SAssign (EName "one_hot")
        (ECall (EAttr (EName "np") "zeros")
           [ETuple
              [EIndex (EAttr (EIndex (EName "data") (ENum "0")) "shape") (ENum "0");
               ENum "10"]]
           []);
      SAssign
        (EIndex (EName "one_hot")
           (ETuple
              [ECall (EAttr (EName "np") "arange")
                 [EIndex (EAttr (EIndex (EName "data") (ENum "0")) "shape") (ENum "0")]
                 [];
               EIndex (EName "data") (ENum "1")]))
        (ENum "1");
      SAssign (EIndex (EName "data") (ENum "1")) (EName "one_hot")];
   SFor (EName "i") (ECall (EName "range") [ENum "3"] [])
     [SExpr (ECall (EAttr (EName "plt") "figure") [] []);
      SExpr
        (ECall (EAttr (EName "plt") "imshow")
           [ECall (EAttr (EName "np") "reshape")
              [EIndex (EIndex (EName "train_data") (ENum "0")) (EName "i");
               ETuple [ENum "28"; ENum "28"]]
              []]
           [("cmap", EStr "gray")]);
      SExpr (ECall (EAttr (EName "plt") "axis") [EStr "off"] []);
      SExpr
        (ECall (EAttr (EName "plt") "title")
           [ECall (EName "str")
              [ECall (EAttr (EName "np") "argmax")
                 [EIndex (EIndex (EName "train_data") (ENum "1")) (EName "i")]
                 []]
              []]
           [])]].

(** [src/docs/examples/spiking-mnist.ipynb], lines 89-145. *)
Definition spiking_mnist_cell05 : list stmt :=
  [SWith [(ECall (EAttr (EName "nengo") "Network") [] [], Some (EName "net"))]
     [SAssign
        (EAttr
           (EIndex (EAttr (EName "net") "config") (EAttr (EName "nengo") "Ensemble"))
           "max_rates")
        (ECall (EAttr (EAttr (EName "nengo") "dists") "Choice") [EList [ENum "100"]]
           []);
      SAssign
        (EAttr
           (EIndex (EAttr (EName "net") "config") (EAttr (EName "nengo") "Ensemble"))
           "intercepts")
        (ECall (EAttr (EAttr (EName "nengo") "dists") "Choice") [EList [ENum "0"]] []);
      SAssign (EName "neuron_type")
        (ECall (EAttr (EName "nengo") "LIF") [] [("amplitude", ENum "0.01")]);
      SExpr
        (ECall (EAttr (EName "nengo_dl") "configure_settings") []
           [("trainable", EFalse)]);
      SAssign (EName "inp")
        (ECall (EAttr (EName "nengo") "Node")
           [EBinOp Mult (EBinOp Mult (EList [ENum "0"]) (ENum "28")) (ENum "28")]
           []);
      SAssign (EName "x")
        (ECall (EAttr (EName "nengo_dl") "tensor_layer")
           [EName "inp"; EAttr (EAttr (EName "tf") "layers") "conv2d"]
           [("shape_in", ETuple [ENum "28"; ENum "28"; ENum "1"]);
            ("filters", ENum "32");
            ("kernel_size", ENum "3")]);
      SAssign (EName "x")
        (ECall (EAttr (EName "nengo_dl") "tensor_layer")
           [EName "x"; EName "neuron_type"]
           []);
      SAssign (EName "x")
        (ECall (EAttr (EName "nengo_dl") "tensor_layer")
           [EName "x"; EAttr (EAttr (EName "tf") "layers") "conv2d"]
           [("shape_in", ETuple [ENum "26"; ENum "26"; ENum "32"]);
            ("filters", ENum "64");
            ("kernel_size", ENum "3")]);
      SAssign (EName "x")
        (ECall (EAttr (EName "nengo_dl") "tensor_layer")
           [EName "x"; EName "neuron_type"]
           []);
      SAssign (EName "x")
        (ECall (EAttr (EName "nengo_dl") "tensor_layer")
           [EName "x"; EAttr (EAttr (EName "tf") "layers") "average_pooling2d"]
           [("shape_in", ETuple [ENum "24"; ENum "24"; ENum "64"]);
            ("pool_size", ENum "2");
            ("strides", ENum "2")]);
      SAssign (EName "x")
        (ECall (EAttr (EName "nengo_dl") "tensor_layer")
           [EName "x"; EAttr (EAttr (EName "tf") "layers") "conv2d"]
           [("shape_in", ETuple [ENum "12"; ENum "12"; ENum "64"]);
            ("filters", ENum "128");
            ("kernel_size", ENum "3")]);
      SAssign (EName "x")
        (ECall (EAttr (EName "nengo_dl") "tensor_layer")
           [EName "x"; EName "neuron_type"]
           []);
      SAssign (EName "x")
        (ECall (EAttr (EName "nengo_dl") "tensor_layer")
           [EName "x"; EAttr (EAttr (EName "tf") "layers") "average_pooling2d"]
           [("shape_in", ETuple [ENum "10"; ENum "10"; ENum "128"]);
            ("pool_size", ENum "2");
            ("strides", ENum "2")]);
      SAssign (EName "x")
        (ECall (EAttr (EName "nengo_dl") "tensor_layer")
           [EName "x"; EAttr (EAttr (EName "tf") "layers") "dense"]
           [("units", ENum "10")]);
      SAssign (EName "out_p") (ECall (EAttr (EName "nengo") "Probe") [EName "x"] []);
      SAssign (EName "out_p_filt")
        (ECall (EAttr (EName "nengo") "Probe") [EName "x"] [("synapse", ENum "0.1")])]].

(** [src/docs/examples/spiking-mnist.ipynb], lines 161-162. *)
Definition spiking_mnist_cell07 : list stmt :=
  [SAssign (EName "minibatch_size") (ENum "200");
   SAssign (EName "sim")
     (ECall (EAttr (EName "nengo_dl") "Simulator") [EName "net"]
        [("minibatch_size", EName "minibatch_size")])].

(** [src/docs/examples/spiking-mnist.ipynb], lines 180-193. *)
Definition spiking_mnist_cell09 : list stmt :=
  [SAssign (EName "train_data")
     (EDict
        [(EName "inp",
          EIndex (EIndex (EName "train_data") (ENum "0"))
            (ETuple [ESlice None None; ENone; ESlice None None]));
         (EName "out_p",
          EIndex (EIndex (EName "train_data") (ENum "1"))
            (ETuple [ESlice None None; ENone; ESlice None None]))]);
   SAssign (EName "n_steps") (ENum "30");
   SAssign (EName "test_data")
     (EDict
        [(EName "inp",
          ECall (EAttr (EName "np") "tile")
            [EIndex (EIndex (EName "test_data") (ENum "0"))
               (ETuple
                  [ESlice None (Some (EBinOp Mult (EName "minibatch_size") (ENum "2")));
                   ENone;
                   ESlice None None]);
             ETuple [ENum "1"; EName "n_steps"; ENum "1"]]
            []);
         (EName "out_p_filt",
          ECall (EAttr (EName "np") "tile")
            [EIndex (EIndex (EName "test_data") (ENum "1"))
               (ETuple
                  [ESlice None (Some (EBinOp Mult (EName "minibatch_size") (ENum "2")));
                   ENone;
                   ESlice None None]);
             ETuple [ENum "1"; EName "n_steps"; ENum "1"]]
            [])])].

(** [src/docs/examples/spiking-mnist.ipynb], lines 209-211. *)
Definition spiking_mnist_cell11 : list stmt :=
  [SDef "objective" [("outputs", None); ("targets", None)] None
     [SReturn
        (ECall (EAttr (EAttr (EName "tf") "nn") "softmax_cross_entropy_with_logits_v2")
           []
           [("logits", EName "outputs"); ("labels", EName "targets")])]].

(** [src/docs/examples/spiking-mnist.ipynb], lines 227-227. *)
Definition spiking_mnist_cell13 : list stmt :=
  [SAssign (EName "opt")
     (ECall (EAttr (EAttr (EName "tf") "train") "RMSPropOptimizer") []
        [("learning_rate", ENum "0.001")])].

(** [src/docs/examples/spiking-mnist.ipynb], lines 243-250. *)
Definition spiking_mnist_cell15 : list stmt :=
  [SDef "classification_error" [("outputs", None); ("targets", None)] None
     [SReturn
        (EBinOp Mult (ENum "100")
           (ECall (EAttr (EName "tf") "reduce_mean")
              [ECall (EAttr (EName "tf") "cast")
                 [ECall (EAttr (EName "tf") "not_equal")
                    [ECall (EAttr (EName "tf") "argmax")
                       [EIndex (EName "outputs")
                          (ETuple [ESlice None None; EUnaryOp USub (ENum "1")])]
                       [("axis", EUnaryOp USub (ENum "1"))];
                     ECall (EAttr (EName "tf") "argmax")
                       [EIndex (EName "targets")
                          (ETuple [ESlice None None; EUnaryOp USub (ENum "1")])]
                       [("axis", EUnaryOp USub (ENum "1"))]]
                    [];
                  EAttr (EName "tf") "float32"]
                 []]
              []))];
   SExpr
     (ECall (EName "print")
        [EBinOp Mod (EStr "error before training: %.2f%%")
           (ECall (EAttr (EName "sim") "loss")
              [EName "test_data";
               EDict [(EName "out_p_filt", EName "classification_error")]]
              [])]
        [])].

(** [src/docs/examples/spiking-mnist.ipynb], lines 266-282. *)
Definition spiking_mnist_cell17 : list stmt :=
  [SAssign (EName "do_training") EFalse;
   SIf (EName "do_training")
     [SExpr
        (ECall (EAttr (EName "sim") "train") [EName "train_data"; EName "opt"]
           [("objective", EDict [(EName "out_p", EName "objective")]);
            ("n_epochs", ENum "10")]);
      SExpr (ECall (EAttr (EName "sim") "save_params") [EStr "./mnist_params"] [])]
     [SExpr
        (ECall (EName "urlretrieve")
           [EStr
              "https://drive.google.com/uc?export=download&id=1u9JyNuRxQDUcFgkRnI1qfJVFMdnGRsjI";
            EStr "mnist_params.zip"]
           []);
      SWith
        [(ECall (EAttr (EName "zipfile") "ZipFile") [EStr "mnist_params.zip"] [],
          Some (EName "f"))]
        [SExpr (ECall (EAttr (EName "f") "extractall") [] [])];
      SExpr (ECall (EAttr (EName "sim") "load_params") [EStr "./mnist_params"] [])]].

(** [src/docs/examples/spiking-mnist.ipynb], lines 298-299. *)
Definition spiking_mnist_cell19 : list stmt :=
  [SExpr
     (ECall (EName "print")
        [EBinOp Mod (EStr "error after training: %.2f%%")
           (ECall (EAttr (EName "sim") "loss")
              [EName "test_data";
               EDict [(EName "out_p_filt", EName "classification_error")]]
              [])]
        [])].

(** [src/docs/examples/spiking-mnist.ipynb], lines 317-329. *)
Definition spiking_mnist_cell21 : list stmt :=
  [SExpr
     (ECall (EAttr (EName "sim") "run_steps") [EName "n_steps"]
        [("data",
          EDict
            [(EName "inp",
              EIndex (EIndex (EName "test_data") (EName "inp"))
                (ESlice None (Some (EName "minibatch_size"))))])]);
   SFor (EName "i") (ECall (EName "range") [ENum "5"] [])
     [SExpr (ECall (EAttr (EName "plt") "figure") [] []);
      SExpr (ECall (EAttr (EName "plt") "subplot") [ENum "1"; ENum "2"; ENum "1"] []);
      SExpr
        (ECall (EAttr (EName "plt") "imshow")
           [ECall (EAttr (EName "np") "reshape")
              [EIndex (EIndex (EName "test_data") (EName "inp"))
                 (ETuple [EName "i"; ENum "0"]);
               ETuple [ENum "28"; ENum "28"]]
              []]
           [("cmap", EStr "gray")]);
      SExpr (ECall (EAttr (EName "plt") "axis") [EStr "off"] []);
      SExpr (ECall (EAttr (EName "plt") "subplot") [ENum "1"; ENum "2"; ENum "2"] []);
      SExpr
        (ECall (EAttr (EName "plt") "plot")
           [ECall (EAttr (EName "sim") "trange") [] [];
            EIndex (EIndex (EAttr (EName "sim") "data") (EName "out_p_filt"))
              (EName "i")]
           []);
      SExpr
        (ECall (EAttr (EName "plt") "legend")
           [EListComp (ECall (EName "str") [EName "i"] []) (EName "i")
              (ECall (EName "range") [ENum "10"] [])]
           [("loc", EStr "upper left")]);
      SExpr (ECall (EAttr (EName "plt") "xlabel") [EStr "time"] [])]].

(** [src/docs/examples/spiking-mnist.ipynb], lines 338-338. *)
Definition spiking_mnist_cell22 : list stmt :=
  [SExpr (ECall (EAttr (EName "sim") "close") [] [])].

(** The cells of [src/docs/examples/spiking-mnist.ipynb], in file order. *)
Definition spiking_mnist : notebook :=
  {| nb_path := "src/docs/examples/spiking-mnist.ipynb";
     nb_cells :=
       [Markdown 5;
        Code 13 spiking_mnist_cell01;
        Markdown 1;
        Code 17 spiking_mnist_cell03;
        Markdown 10;
        Code 57 spiking_mnist_cell05;
        Markdown 1;
        Code 2 spiking_mnist_cell07;
        Markdown 3;
        Code 14 spiking_mnist_cell09;
        Markdown 1;
        Code 3 spiking_mnist_cell11;
        Markdown 1;
        Code 1 spiking_mnist_cell13;
        Markdown 1;
        Code 8 spiking_mnist_cell15;
        Markdown 1;
        Code 17 spiking_mnist_cell17;
        Markdown 1;
        Code 2 spiking_mnist_cell19;
        Markdown 3;
        Code 13 spiking_mnist_cell21;
        Code 1 spiking_mnist_cell22] |}.

(** The four notebooks of the repository. *)
Definition notebooks : list notebook :=
  [from_nengo; from_tensorflow; tensorflow_models; spiking_mnist].

(** ** Names read and bound by expressions *)

Definition mem (x : string) (l : list string) : bool := existsb (String.eqb x) l.

Definition remove_all (xs l : list string) : list string :=
  List.filter (fun y => negb (mem y xs)) l.

(** The names an assignment to [target] binds: a name, or the names of a
    tuple or list pattern.  Attribute and subscript targets bind nothing. *)
Fixpoint stores (target : expr) : list string :=
  match target with
  | EName x => [x]
  | ETuple es | EList es => flat_map stores es
  | _ => []
  end.

(** The free names an expression reads.  A lambda binds its parameters and a
    comprehension its target; the iterable of a comprehension is evaluated in
    the enclosing scope. *)
Fixpoint loads (e : expr) : list string :=
  match e with
  | EName x => [x]
  | ENum _ | EStr _ | ENone | ETrue | EFalse => []
  | EAttr v _ => loads v
  | ECall f args kws =>
      loads f ++ flat_map loads args
        ++ flat_map (fun kw => match kw with (_, v) => loads v end) kws
  | EIndex v s => loads v ++ loads s
  | ESlice lo hi =>
      match lo with Some l => loads l | None => [] end
        ++ match hi with Some h => loads h | None => [] end
  | ETuple es | EList es => flat_map loads es
  | EDict items =>
      flat_map (fun kv => match kv with (k, v) => loads k ++ loads v end) items
  | EBinOp _ l r => loads l ++ loads r
  | EUnaryOp _ x => loads x
  | EIs l r => loads l ++ loads r
  | ELambda ps b => remove_all ps (loads b)
  | EListComp elt tgt it => loads it ++ remove_all (stores tgt) (loads elt)
  end.

(** The names read when a value is assigned to [target]: the object of an
    attribute store, the object and the index of a subscript store. *)
Fixpoint target_loads (target : expr) : list string :=
  match target with
  | EName _ => []
  | ETuple es | EList es => flat_map target_loads es
  | EAttr v _ => loads v
  | EIndex v s => loads v ++ loads s
  | _ => loads target
  end.

(** ** Names read and bound by statements *)

(** [import a.b.c] binds [a]; [import a.b.c as x] binds [x]. *)
Fixpoint top_package (m : string) : string :=
  match m with
  | EmptyString => EmptyString
  | String c m' => if Ascii.eqb c (Ascii.ascii_of_nat 46) then EmptyString else String c (top_package m')
  end.

Definition import_binding (m : string) (asname : option string) : string :=
  match asname with Some x => x | None => top_package m end.

Definition item_stores (it : expr * option expr) : list string :=
  match it with (_, Some t) => stores t | (_, None) => [] end.

Definition item_loads (it : expr * option expr) : list string :=
  match it with
  | (e, Some t) => loads e ++ target_loads t
  | (e, None) => loads e
  end.

(** The names a statement binds in the scope it runs in.  The bodies of
    [if], [for] and [with] run in that scope; the body of a function or of a
    class does not. *)
Fixpoint assigned (s : stmt) : list string :=
  match s with
  | SImport m a => [import_binding m a]
  | SImportFrom _ ns => ns
  | SAssign t _ => stores t
  | SDef f _ _ _ => [f]
  | SClass c _ _ => [c]
  | SIf _ b o => flat_map assigned b ++ flat_map assigned o
  | SFor t _ b => stores t ++ flat_map assigned b
  | SWith items b => flat_map item_stores items ++ flat_map assigned b
  | SMagic _ | SExpr _ | SReturn _ | SRaise _ | SPass => []
  end.

Definition param_names (ps : list (string * option expr)) (va : option string)
  : list string :=
  map fst ps ++ match va with Some a => [a] | None => [] end.

Definition default_loads (ps : list (string * option expr)) : list string :=
  flat_map (fun p => match p with (_, Some d) => loads d | (_, None) => [] end) ps.

(** The free names a statement reads, now or when a function it defines is
    called.  Inside a function, the parameters and every name the body
    assigns are local. *)
Fixpoint refs (s : stmt) : list string :=
  match s with
  | SMagic _ | SImport _ _ | SImportFrom _ _ | SPass => []
  | SAssign t v => loads v ++ target_loads t
  | SExpr v | SReturn v | SRaise v => loads v
  | SDef f ps va body =>
      default_loads ps
        ++ remove_all (param_names ps va ++ flat_map assigned body) (flat_map refs body)
  | SClass c bases body => flat_map loads bases ++ flat_map refs body
  | SIf t b o => loads t ++ flat_map refs b ++ flat_map refs o
  | SFor t it b => loads it ++ target_loads t ++ flat_map refs b
  | SWith items b => flat_map item_loads items ++ flat_map refs b
  end.

(** ** Top-to-bottom execution, as far as names are concerned *)

(** An environment is the list of names that are certainly bound. *)
Definition env : Set := list string.

Definition closed (G : env) (names : list string) : bool :=
  forallb (fun x => mem x G) names.

(** Entering a [with] statement: each context expression is evaluated and
    its target bound, left to right. *)
Fixpoint enter (G : env) (items : list (expr * option expr)) : option env :=
  match items with
  | [] => Some G
  | it :: items' =>
      if closed G (item_loads it) then enter (item_stores it ++ G) items' else None
  end.

(** [exec G s] follows the execution of statement [s] with the names [G]
    bound.  It returns [None] when [s] may read a name that is not bound
    (Python's [NameError] or [UnboundLocalError]) and otherwise the names that
    are certainly bound afterwards.  A loop body may run zero times and only
    one branch of an [if] runs, so their bindings are kept only where they
    are certain.  The body of a function is checked where the function is
    defined, with its parameters bound and the names it assigns unbound; its
    own name is not bound in it (no function of the notebooks calls itself).
    A class body holds method definitions, each checked in the environment of
    the class statement: a method does not see the names of its class. *)
Fixpoint exec (G : env) (s : stmt) {struct s} : option env :=
  let fix block (G : env) (ss : list stmt) {struct ss} : option env :=
    match ss with
    | [] => Some G
    | s' :: ss' =>
        match exec G s' with Some G' => block G' ss' | None => None end
    end in
  match s with
  | SMagic _ | SPass => Some G
  | SImport m a => Some (import_binding m a :: G)
  | SImportFrom _ ns => Some (ns ++ G)
  | SAssign t v =>
      if closed G (loads v ++ target_loads t) then Some (stores t ++ G) else None
  | SExpr v | SReturn v | SRaise v => if closed G (loads v) then Some G else None
  | SDef f ps va body =>
      if closed G (default_loads ps) then
        match block (param_names ps va ++ remove_all (flat_map assigned body) G) body with
        | Some _ => Some (f :: G)
        | None => None
        end
      else None
  | SClass c bases body =>
      if closed G (flat_map loads bases)
         && forallb (fun s' => match s' with
                               | SDef _ _ _ _ =>
                                   match exec G s' with Some _ => true | None => false end
                               | _ => false
                               end) body
      then Some (c :: G) else None
  | SIf t b o =>
      if closed G (loads t) then
        match block G b, block G o with
        | Some G1, Some G2 => Some (List.filter (fun x => mem x G2) G1)
        | _, _ => None
        end
      else None
  | SFor t it b =>
      if closed G (loads it ++ target_loads t) then
        match block (stores t ++ G) b with Some _ => Some G | None => None end
      else None
  | SWith items b =>
      match enter G items with Some G1 => block G1 b | None => None end
  end.

Fixpoint exec_block (G : env) (ss : list stmt) : option env :=
  match ss with
  | [] => Some G
  | s :: ss' => match exec G s with Some G' => exec_block G' ss' | None => None end
  end.

(** The functions Python provides without any import (Python 3.6). *)
Definition builtins : env :=
  ["abs"; "all"; "any"; "ascii"; "bin"; "bool"; "bytearray"; "bytes"; "callable";
   "chr"; "classmethod"; "compile"; "complex"; "delattr"; "dict"; "dir"; "divmod";
   "enumerate"; "eval"; "exec"; "filter"; "float"; "format"; "frozenset"; "getattr";
   "globals"; "hasattr"; "hash"; "help"; "hex"; "id"; "input"; "int"; "isinstance";
   "issubclass"; "iter"; "len"; "list"; "locals"; "map"; "max"; "memoryview"; "min";
   "next"; "object"; "oct"; "open"; "ord"; "pow"; "print"; "property"; "range";
   "repr"; "reversed"; "round"; "set"; "setattr"; "slice"; "sorted"; "staticmethod";
   "str"; "sum"; "super"; "tuple"; "type"; "vars"; "zip"].

Definition code_cells (nb : notebook) : list (list stmt) :=
  flat_map (fun c => match c with Code _ b => [b] | Markdown _ => [] end) (nb_cells nb).

(** Running the code cells of a notebook in file order. *)
Fixpoint run_cells (G : env) (cs : list (list stmt)) : option env :=
  match cs with
  | [] => Some G
  | c :: cs' => match exec_block G c with Some G' => run_cells G' cs' | None => None end
  end.

Definition run_notebook (nb : notebook) : option env :=
  run_cells builtins (code_cells nb).

Definition cell_refs (c : list stmt) : list string := flat_map refs c.
Definition cell_binds (c : list stmt) : list string := flat_map assigned c.

(** ** Sub-statements, sub-expressions and what the notebooks define *)

(** A statement with every statement nested in it. *)
Fixpoint substmts (s : stmt) : list stmt :=
  s :: match s with
       | SDef _ _ _ b | SClass _ _ b | SFor _ _ b | SWith _ b => flat_map substmts b
       | SIf _ b o => flat_map substmts b ++ flat_map substmts o
       | _ => []
       end.

(** The statements that run when the cell runs: as [substmts], without the
    bodies of functions and classes. *)
Fixpoint module_stmts (s : stmt) : list stmt :=
  s :: match s with
       | SFor _ _ b | SWith _ b => flat_map module_stmts b
       | SIf _ b o => flat_map module_stmts b ++ flat_map module_stmts o
       | _ => []
       end.

(** An expression with every expression nested in it. *)
Fixpoint subexprs (e : expr) : list expr :=
  e :: match e with
       | EAttr v _ => subexprs v
       | ECall f args kws =>
           subexprs f ++ flat_map subexprs args
             ++ flat_map (fun kw => match kw with (_, v) => subexprs v end) kws
       | EIndex v s => subexprs v ++ subexprs s
       | ESlice lo hi =>
           match lo with Some l => subexprs l | None => [] end
             ++ match hi with Some h => subexprs h | None => [] end
       | ETuple es | EList es => flat_map subexprs es
       | EDict items =>
           flat_map (fun kv => match kv with (k, v) => subexprs k ++ subexprs v end) items
       | EBinOp _ l r | EIs l r => subexprs l ++ subexprs r
       | EUnaryOp _ x => subexprs x
       | ELambda _ b => subexprs b
       | EListComp elt tgt it => subexprs elt ++ subexprs tgt ++ subexprs it
       | EName _ | ENum _ | EStr _ | ENone | ETrue | EFalse => []
       end.

(** The expressions written directly in a statement (not in a nested
    statement). *)
Definition stmt_exprs (s : stmt) : list expr :=
  match s with
  | SAssign t v => [t; v]
  | SExpr v | SReturn v | SRaise v => [v]
  | SDef _ ps _ _ =>
      flat_map (fun p => match p with (_, Some d) => [d] | (_, None) => [] end) ps
  | SClass _ bases _ => bases
  | SIf t _ _ => [t]
  | SFor t it _ => [t; it]
  | SWith items _ =>
      flat_map (fun it => match it with (e, Some t) => [e; t] | (e, None) => [e] end) items
  | SMagic _ | SImport _ _ | SImportFrom _ _ | SPass => []
  end.

Definition all_stmts (ss : list stmt) : list stmt := flat_map substmts ss.

Definition all_exprs (ss : list stmt) : list expr :=
  flat_map subexprs (flat_map stmt_exprs (all_stmts ss)).

(** All the code of a notebook, cell after cell. *)
Definition nb_code (nb : notebook) : list stmt := concat (code_cells nb).

(** The classes a piece of code defines: name, base classes, body. *)
Definition class_defs (ss : list stmt) : list (string * list expr * list stmt) :=
  flat_map (fun s => match s with SClass c bases body => [(c, bases, body)] | _ => [] end)
           (all_stmts ss).


(** The functions a piece of code defines outside of classes. *)
Fixpoint functions (s : stmt) : list string :=
  match s with
  | SDef f _ _ b => f :: flat_map functions b
  | SFor _ _ b | SWith _ b => flat_map functions b
  | SIf _ b o => flat_map functions b ++ flat_map functions o
  | _ => []
  end.

Definition function_names (ss : list stmt) : list string := flat_map functions ss.

(** The methods of a class body. *)
Definition methods (body : list stmt) : list string :=
  flat_map (fun s => match s with SDef f _ _ _ => [f] | _ => [] end) body.


Definition is_raise (s : stmt) : bool :=
  match s with SRaise _ => true | _ => false end.

(** The [raise] statements of a piece of code. *)
Definition raise_stmts (ss : list stmt) : list stmt := List.filter is_raise (all_stmts ss).

(** The functions (outside classes) whose body contains a [raise]. *)
Fixpoint raising_functions (s : stmt) : list string :=
  match s with
  | SDef f _ _ b =>
      (if existsb is_raise (all_stmts b) then [f] else []) ++ flat_map raising_functions b
  | SFor _ _ b | SWith _ b | SClass _ _ b => flat_map raising_functions b
  | SIf _ b o => flat_map raising_functions b ++ flat_map raising_functions o
  | _ => []
  end.

(** ** Calls *)

Definition is_call (e : expr) : bool :=
  match e with ECall _ _ _ => true | _ => false end.

Definition calls (ss : list stmt) : list expr := List.filter is_call (all_exprs ss).

(** The name an expression starts from: [tf] in [tf.nn.softmax(logits)],
    [sim] in [sim.data[p]]. *)
Fixpoint root (e : expr) : option string :=
  match e with
  | EName x => Some x
  | EAttr v _ | EIndex v _ => root v
  | ECall f _ _ => root f
  | _ => None
  end.



(** The names bound to objects: assignment, loop and [with] targets,
    parameters of functions and lambdas, comprehension targets. *)
Definition variables (ss : list stmt) : list string :=
  flat_map (fun s => match s with
                     | SAssign t _ | SFor t _ _ => stores t
                     | SWith items _ => flat_map item_stores items
                     | SDef _ ps va _ => param_names ps va
                     | _ => []
                     end) (all_stmts ss)
  ++ flat_map (fun e => match e with
                        | ELambda ps _ => ps
                        | EListComp _ t _ => stores t
                        | _ => []
                        end) (all_exprs ss).




(** ** Stores into objects *)

(** The attribute and subscript targets of an assignment target. *)
Fixpoint places (target : expr) : list expr :=
  match target with
  | EAttr _ _ | EIndex _ _ => [target]
  | ETuple es | EList es => flat_map places es
  | _ => []
  end.

(** The attribute and subscript targets a cell assigns to when it runs:
    each one changes an object that already exists. *)
Definition module_stores (c : list stmt) : list expr :=
  flat_map (fun s => match s with SAssign t _ => places t | _ => [] end)
           (flat_map module_stmts c).

(** The names at which those objects are reached. *)
Definition mutated_names (c : list stmt) : list string :=
  flat_map (fun t => match root t with Some x => [x] | None => [] end) (module_stores c).

(** A store in short: the name the object is reached from, and the
    attribute stored ([[]] for an item). *)
Definition store_summary (t : expr) : string * string :=
  (match root t with Some x => x | None => "" end,
   match t with EAttr _ a => a | _ => "[]" end).

(** ** TensorNodes *)

(** A call [nengo_dl.TensorNode(...)]. *)
Definition is_tensor_node (e : expr) : bool :=
  match e with
  | ECall (EAttr (EName "nengo_dl") "TensorNode") _ _ => true
  | _ => false
  end.

(** A call [nengo_dl.tensor_layer(input, layer_func, ...)].  The notebooks
    describe it as a wrapper that constructs a TensorNode from a function on
    tensors, and an Ensemble when it is given a Nengo neuron type instead
    (spiking-mnist.ipynb, lines 71-80). *)
Definition is_tensor_layer (e : expr) : bool :=
  match e with
  | ECall (EAttr (EName "nengo_dl") "tensor_layer") _ _ => true
  | _ => false
  end.

(** The function or callable a node is built from: the first argument of
    [nengo_dl.TensorNode], the second of [nengo_dl.tensor_layer]. *)
Definition callable_of (call : expr) : expr :=
  match call with
  | ECall (EAttr (EName "nengo_dl") "tensor_layer") (_ :: f :: _) _ => f
  | ECall (EAttr (EName "nengo_dl") "tensor_layer") _ _ => ENone
  | ECall _ (f :: _) _ => f
  | _ => ENone
  end.

Definition find_def (f : string) (ss : list stmt)
  : option (list string * list stmt) :=
  head (flat_map (fun s => match s with
                           | SDef g ps va body =>
                               if String.eqb f g then [(param_names ps va, body)] else []
                           | _ => []
                           end) ss).

Definition find_class (c : string) (ss : list stmt) : option (list stmt) :=
  head (flat_map (fun d => if String.eqb c (fst (fst d)) then [snd d] else [])
                 (class_defs ss)).

(** The parameters and body of what runs when the callable [f] is called: a
    lambda, a function of the notebook, or an instance [C(...)] of a class of
    the notebook, whose [__call__] method runs. *)
Definition callable_body (ss : list stmt) (f : expr)
  : option (list string * list stmt) :=
  match f with
  | ELambda ps b => Some (ps, [SReturn b])
  | EName g => find_def g (all_stmts ss)
  | ECall (EName c) _ _ =>
      match find_class c ss with
      | Some body => find_def "__call__" body
      | None => None
      end
  | _ => None
  end.

(** The value last assigned to the local name [x] in a body. *)
Definition last_assignment (x : string) (body : list stmt) : option expr :=
  last (flat_map (fun s => match s with
                           | SAssign (EName y) v => if String.eqb x y then [v] else []
                           | _ => []
                           end) (all_stmts body)).

(** A layer function that is a Nengo object, such as the neuron type
    [nengo.LIF(amplitude=0.01)]: a call that starts from [nengo], or a name
    bound to one. *)
Definition is_nengo_call (e : expr) : bool :=
  match e with
  | ECall g _ _ => match root g with Some "nengo" => true | _ => false end
  | _ => false
  end.

Definition is_neuron_type (ss : list stmt) (f : expr) : bool :=
  match f with
  | EName x =>
      match last_assignment x ss with
      | Some v => is_nengo_call v
      | None => false
      end
  | _ => is_nengo_call f
  end.

(** An expression that constructs a TensorNode: a call of
    [nengo_dl.TensorNode], or a call of [nengo_dl.tensor_layer] whose layer
    function is not a neuron type. *)
Definition constructs_tensor_node (ss : list stmt) (e : expr) : bool :=
  is_tensor_node e || (is_tensor_layer e && negb (is_neuron_type ss (callable_of e))).

(** The expressions of a piece of code that construct a TensorNode. *)
Definition tensor_nodes (ss : list stmt) : list expr :=
  List.filter (constructs_tensor_node ss) (all_exprs ss).

(** The calls of [nengo_dl.tensor_layer] that are given a neuron type, and
    construct an Ensemble. *)
Definition ensemble_layers (ss : list stmt) : list expr :=
  List.filter (fun e => is_tensor_layer e && is_neuron_type ss (callable_of e))
              (all_exprs ss).

(** The expression a body returns: the operand of its [return]; when that
    is a local name, the value last assigned to it. *)
Definition returned (body : list stmt) : option expr :=
  match last (flat_map (fun s => match s with SReturn e => [e] | _ => [] end)
                       (all_stmts body)) with
  | Some (EName x) =>
      match last_assignment x body with
      | Some v => Some v
      | None => Some (EName x)
      end
  | r => r
  end.

(** How a TensorNode produces its output. *)
Inductive output_kind : Set :=
| TfFunction        (* the node is built from a [tf.*] function itself *)
| TfOperation       (* its callable returns a call of a [tf.*] function *)
| ModelCall         (* its callable returns a call of a method of an object held by [self] *)
| InputUnchanged    (* its callable returns a parameter, as it came in *)
| OtherOutput.

Definition output_kind_of (params : list string) (e : expr) : output_kind :=
  match e with
  | ECall f _ _ =>
      match root f with
      | Some "tf" => TfOperation
      | Some "self" => ModelCall
      | _ => OtherOutput
      end
  | EName x => if mem x params then InputUnchanged else OtherOutput
  | _ => OtherOutput
  end.

(** The expression the callable of a TensorNode returns, where the callable
    is written in the notebook. *)
Definition tensor_node_returns (ss : list stmt) (call : expr) : option expr :=
  match callable_body ss (callable_of call) with
  | Some (_, body) => returned body
  | None => None
  end.

Definition tensor_node_output (ss : list stmt) (call : expr) : output_kind :=
  match callable_body ss (callable_of call) with
  | Some (params, body) =>
      match returned body with
      | Some e => output_kind_of params e
      | None => OtherOutput
      end
  | None =>
      match callable_of call with
      | EAttr v _ => match root v with Some "tf" => TfFunction | _ => OtherOutput end
      | _ => OtherOutput
      end
  end.

(** A TensorNode whose output is produced by an operation of the
    deep-learning framework. *)
Definition applies_framework_operation (ss : list stmt) (call : expr) : bool :=
  match tensor_node_output ss call with
  | TfFunction | TfOperation | ModelCall => true
  | InputUnchanged | OtherOutput => false
  end.

(** ** Source files and their lines *)

(** A notebook file is JSON: two opening lines, the cells, and 23 closing
    lines (the end of the cell list, the metadata and the format version).
    A markdown cell takes six lines and a code cell eight around its source
    lines. *)
Definition cell_lines (c : cell) : nat :=
  match c with
  | Markdown n => 6 + n
  | Code n _ => 8 + n
  end.

Definition notebook_lines (nb : notebook) : nat :=
  2 + sum_list_with cell_lines (nb_cells nb) + 23.

(** The lines of Python (with the comments and blank lines between them) in
    the code cells of a notebook. *)
Definition python_lines (nb : notebook) : nat :=
  sum_list_with (fun c => match c with Code n _ => n | Markdown _ => 0 end) (nb_cells nb).

(** A configuration file, with its number of lines and whether the last one
    ends in a newline. *)
Record config_file : Set :=
  { cf_path : string; cf_lines : nat; cf_final_newline : bool }.

(** The NengoBones configuration ([pkg_name], [ci_scripts], [travis_yml], ...),
    the second document of [src/unnamed/part_000]. *)
Definition nengobones_yml : config_file :=
  {| cf_path := "src/unnamed/part_000"; cf_lines := 57; cf_final_newline := true |}.

(** [setup.cfg] ([build_sphinx], [tool:pytest], [coverage], [pylint]). *)
Definition setup_cfg : config_file :=
  {| cf_path := "src/unnamed/part_001"; cf_lines := 96; cf_final_newline := false |}.

(** A source document of the repository. *)
Inductive source : Set :=
| Notebook (nb : notebook)
| Config (cf : config_file).

Definition sources : list source :=
  [Notebook from_nengo; Config nengobones_yml; Notebook from_tensorflow;
   Notebook tensorflow_models; Notebook spiking_mnist; Config setup_cfg].

Definition source_lines (s : source) : nat :=
  match s with
  | Notebook nb => notebook_lines nb
  | Config cf => cf_lines cf
  end.

Definition total_lines : nat := sum_list_with source_lines sources.

(** The number of newline characters: what [wc -l] counts. *)
Definition source_newlines (s : source) : nat :=
  match s with
  | Notebook nb => notebook_lines nb
  | Config cf => if cf_final_newline cf then cf_lines cf else cf_lines cf - 1
  end.

Definition total_newlines : nat := sum_list_with source_newlines sources.

(** ** The statements of the specification about the code cells *)

























(** A notebook without error handling: nothing in it raises. *)
Definition no_error_handling (nb : notebook) : Prop :=
  raise_stmts (nb_code nb) = [].

(** No class of a notebook has a base class. *)
Definition no_inheritance (nb : notebook) : Prop :=
  Forall (fun d => snd (fst d) = []) (class_defs (nb_code nb)).

(** No cell of a notebook stores into an object reached from a name the
    notebook has bound. *)
Definition never_mutates (nb : notebook) : Prop :=
  Forall (fun c => Forall (fun x => ~ In x (variables (nb_code nb))) (mutated_names c))
         (code_cells nb).

(** The names a cell stores into that an earlier cell had bound. *)
Fixpoint mutated_later (earlier : list string) (cs : list (list stmt)) : list string :=
  match cs with
  | [] => []
  | c :: cs' =>
      List.filter (fun x => mem x earlier) (mutated_names c)
        ++ mutated_later (cell_binds c ++ earlier) cs'
  end.

(** Every TensorNode of a notebook computes its output with an operation of
    the framework. *)
Definition tensor_nodes_apply_framework (nb : notebook) : Prop :=
  Forall (fun tn => applies_framework_operation (nb_code nb) tn = true)
         (tensor_nodes (nb_code nb)).

(** Name [x] is bound by a cell before cell [i]. *)
Definition bound_earlier (cs : list (list stmt)) (i : nat) (x : string) : Prop :=
  exists j c', j < i /\ cs !! j = Some c' /\ In x (cell_binds c').

(** ** Induction on statements, and what a successful run guarantees *)

(** Induction on statements, with the statements of every body. *)
Section stmt_induction.
Variable P : stmt -> Prop.
Hypothesis H_magic : forall l, P (SMagic l).
Hypothesis H_import : forall m a, P (SImport m a).
Hypothesis H_from : forall m ns, P (SImportFrom m ns).
Hypothesis H_assign : forall t v, P (SAssign t v).
Hypothesis H_expr : forall v, P (SExpr v).
Hypothesis H_def : forall f ps va b, Forall P b -> P (SDef f ps va b).
Hypothesis H_class : forall c bases b, Forall P b -> P (SClass c bases b).
Hypothesis H_return : forall v, P (SReturn v).
Hypothesis H_if : forall t b o, Forall P b -> Forall P o -> P (SIf t b o).
Hypothesis H_for : forall t it b, Forall P b -> P (SFor t it b).
Hypothesis H_with : forall items b, Forall P b -> P (SWith items b).
Hypothesis H_raise : forall e, P (SRaise e).
Hypothesis H_pass : P SPass.

Fixpoint stmt_induction (s : stmt) : P s :=
  let fix all (ss : list stmt) : Forall P ss :=
    match ss with
    | [] => @List.Forall_nil _ P
    | s' :: ss' => @List.Forall_cons _ P s' ss' (stmt_induction s') (all ss')
    end in
  match s with
  | SMagic l => H_magic l
  | SImport m a => H_import m a
  | SImportFrom m ns => H_from m ns
  | SAssign t v => H_assign t v
  | SExpr v => H_expr v
  | SDef f ps va b => H_def f ps va b (all b)
  | SClass c bases b => H_class c bases b (all b)
  | SReturn v => H_return v
  | SIf t b o => H_if t b o (all b) (all o)
  | SFor t it b => H_for t it b (all b)
  | SWith items b => H_with items b (all b)
  | SRaise e => H_raise e
  | SPass => H_pass
  end.
End stmt_induction.

(** What a successful [exec] guarantees: every name the statement reads is
    bound before it or bound by it (for a function definition: bound before
    it), and it binds no name but those it assigns. *)
Definition exec_ok (s : stmt) : Prop :=
  forall G G', exec G s = Some G' ->
    (forall x, In x (refs s) -> In x G \/ In x (assigned s))
    /\ (forall x, In x G' -> In x (assigned s) \/ In x G)
    /\ match s with
       | SDef _ _ _ _ => forall x, In x (refs s) -> In x G
       | _ => True
       end.

(** * The computations the notebooks implement themselves *)

(** ** The [onerror] handler of tensorflow-models.ipynb

    [shutil.rmtree("models", onerror=onerror)] calls
    [onerror(func, path, exc_info)] when the operation [func] has failed on
    [path].  The handler talks to the operating system through [os.access],
    [os.chmod] and [func].  What these do depends on the system, the user
    and the files, and is not the notebook's to decide: they are parameters,
    each a function of the state of the system that returns or raises.  The
    handler is a computation over a world: the state of the system, and the
    log of what the handler did. *)

Definition W_OK : Z := 2.
Definition S_IWUSR : Z := 128.   (* 0o200, the owner-write bit *)

Section handler.

Context {S E : Type}.   (* the states of the system, the exceptions *)

(** What a call into the system does: it returns a value or raises an
    exception, and leaves the system in some state. *)
Inductive ran (A : Type) : Type :=
| Ok (a : A) (s : S)
| Fail (e : E) (s : S).
Arguments Ok {A} a s.
Arguments Fail {A} e s.

Inductive event : Type :=
| EvAccess (path : string) (mode : Z)  (* [os.access(path, mode)] was called *)
| EvChmod (path : string) (mode : Z)   (* [os.chmod(path, mode)] was called *)
| EvCall (path : string)               (* [func(path)] was called *)
| EvRaise (e : E).                     (* a [raise] statement of the handler ran *)

Record world : Type := { os : S; log : list event }.

Inductive outcome (A : Type) : Type :=
| Returns (a : A) (w : world)
| Raises (e : E) (w : world).
Arguments Returns {A} a w.
Arguments Raises {A} e w.

(** Computations that read and change the world and may raise. *)
Definition M (A : Type) : Type := world -> outcome A.

#[export] Instance M_ret : MRet M := fun A a w => Returns a w.

#[export] Instance M_bind : MBind M := fun A B k m w =>
  match m w with
  | Returns a w' => k a w'
  | Raises e w' => Raises e w'
  end.

(** A call into the system, entered in the log. *)
Definition perform {A : Type} (ev : event) (f : S -> ran A) : M A := fun w =>
  match f (os w) with
  | Ok a s => Returns a {| os := s; log := log w ++ [ev] |}
  | Fail e s => Raises e {| os := s; log := log w ++ [ev] |}
  end.

(** The [raise e] statement. *)
Definition raise {A : Type} (e : E) : M A := fun w =>
  Raises e {| os := os w; log := log w ++ [EvRaise e] |}.

Variable access : string -> Z -> S -> ran bool.
Variable chmod : string -> Z -> S -> ran unit.

(** [os.access(path, mode)] *)
Definition os_access (path : string) (mode : Z) : M bool :=
  perform (EvAccess path mode) (access path mode).

(** [os.chmod(path, mode)] *)
Definition os_chmod (path : string) (mode : Z) : M unit :=
  perform (EvChmod path mode) (chmod path mode).

(** The operation [rmtree] hands to the handler ([os.unlink], [os.rmdir],
    ...); what it returns is not used. *)
Definition operation : Type := string -> S -> ran unit.

(** The call [func(path)]. *)
Definition call (func : operation) (path : string) : M unit :=
  perform (EvCall path) (func path).

(** What [sys.exc_info()] returns: the type of the exception, the exception
    and its traceback. *)
Definition exc_info : Type := (string * E * list string)%type.

Definition onerror (func : operation) (path : string) (exc_info : exc_info) : M unit :=
  writable ← os_access path W_OK;
  if negb writable then
    os_chmod path S_IWUSR ;;
    call func path
  else
    raise (snd (fst exc_info)).   (* [exc_info[1]] *)

(** The world an outcome ends in. *)
Definition final {A : Type} (o : outcome A) : world :=
  match o with Returns _ w | Raises _ w => w end.

Definition is_raise_event (ev : event) : bool :=
  match ev with EvRaise _ => true | _ => false end.

Definition is_call_event (ev : event) : bool :=
  match ev with EvCall _ => true | _ => false end.

End handler.

Arguments Ok {S E A} a s.
Arguments Fail {S E A} e s.
Arguments Returns {S E A} a w.
Arguments Raises {S E A} e w.
Arguments EvAccess {E} path mode.
Arguments EvChmod {E} path mode.
Arguments EvCall {E} path.
Arguments EvRaise {E} e.

(** ** The one-hot encoding of the labels in spiking-mnist.ipynb *)

(** [np.zeros((rows, cols))].  The array holds floats, but only 0.0 and 1.0
    ever occur in it; they are kept as the integers 0 and 1. *)
Definition np_zeros (rows cols : nat) : list (list Z) :=
  replicate rows (replicate cols 0%Z).

(** [np.arange(n)] *)
Definition np_arange (n : nat) : list Z := map Z.of_nat (seq 0 n).

(** An index into an axis of length [dim]: negative indices count from the
    end, anything else out of range is an [IndexError]. *)
Definition norm_index (i : Z) (dim : nat) : option nat :=
  if ((0 <=? i) && (i <? Z.of_nat dim))%Z then Some (Z.to_nat i)
  else if ((- Z.of_nat dim <=? i) && (i <? 0))%Z then Some (Z.to_nat (i + Z.of_nat dim))
  else None.

(** Two index arrays broadcast to a list of index pairs: they have the same
    length, or one of them has length one. *)
Definition broadcast (rows cols : list Z) : option (list (Z * Z)) :=
  if Nat.eqb (length rows) (length cols) then Some (zip rows cols)
  else match rows, cols with
       | [r], _ => Some (map (fun c => (r, c)) cols)
       | _, [c] => Some (map (fun r => (r, c)) rows)
       | _, _ => None
       end.

(** [a[i, j] = v] *)
Definition set_item (a : list (list Z)) (ij : Z * Z) (v : Z) : option (list (list Z)) :=
  i ← norm_index (fst ij) (length a);
  row ← a !! i;
  j ← norm_index (snd ij) (length row);
  Some (<[i := <[j := v]> row]> a).

Fixpoint set_items (a : list (list Z)) (idx : list (Z * Z)) (v : Z)
  : option (list (list Z)) :=
  match idx with
  | [] => Some a
  | ij :: idx' => a' ← set_item a ij v; set_items a' idx' v
  end.

(** [a[rows, cols] = v] with two integer index arrays. *)
Definition setitem (a : list (list Z)) (rows cols : list Z) (v : Z)
  : option (list (list Z)) :=
  idx ← broadcast rows cols; set_items a idx v.

(** The row of [label] in the encoding: zeros, and a one in column [label]. *)
Definition one_hot_row (label : Z) : list Z :=
  <[Z.to_nat label := 1%Z]> (replicate 10 0%Z).

(** The body of the loop over [(train_data, test_data)]: [data0] is
    [data[0]], the images, and [data1] is [data[1]], their labels; the
    result is the array stored back into [data[1]]. *)
Definition one_hot {A : Type} (data0 : list A) (data1 : list Z) : option (list (list Z)) :=
  let one_hot := np_zeros (length data0) 10 in
  setitem one_hot (np_arange (length data0)) data1 1%Z.

(** ** The top-5 selection of tensorflow-models.ipynb *)

(** [enumerate(l)] *)
Definition enumerate {A : Type} (l : list A) : list (nat * A) :=
  zip (seq 0 (length l)) l.

(** [sorted(l, key=key)]: the stable sort by increasing key, here by
    insertion.  The keys are floats that are not NaN, kept as the rationals
    they are. *)
Fixpoint insert {A : Type} (key : A -> Q) (x : A) (l : list A) : list A :=
  match l with
  | [] => [x]
  | y :: l' => if Qle_bool (key x) (key y) then x :: l else y :: insert key x l'
  end.

Definition sorted {A : Type} (key : A -> Q) (l : list A) : list A :=
  foldr (insert key) [] l.

(** The order [sorted] sorts by. *)
Definition key_le {A : Type} (key : A -> Q) (a b : A) : Prop := (key a <= key b)%Q.

Definition sorted_inds (probabilities : list Q) : list nat :=
  map fst (sorted snd (enumerate (map Qopp probabilities))).

(** The indices the loop [for i in range(5)] prints: [sorted_inds[i]], an
    [IndexError] if there are fewer than five. *)
Definition printed (probabilities : list Q) : option (list nat) :=
  mapM (fun i => sorted_inds probabilities !! i) (seq 0 5).

(** [probabilities[i]] *)
Definition prob (probabilities : list Q) (i : nat) : Q := nth i probabilities 0%Q.

(** ** Sample inputs *)

(** The exceptions of the samples. *)
Inductive exn : Set :=
| FileNotFoundError
| PermissionError
| OSError (msg : string).

(** A sample system: files with an owner and permission bits, and the user
    who runs the notebook.  The user 0 is the superuser; groups are left
    out. *)
Record file : Set := { file_owner : nat; file_mode : Z }.

Record posix : Type := { uid : nat; files : gmap string file }.

Definition posix_access (path : string) (amode : Z) (s : posix) : ran (S := posix) (E := exn) bool :=
  Ok (match files s !! path with
      | Some f =>
          Nat.eqb (uid s) 0
          || (Z.land (Z.shiftr (file_mode f) (if Nat.eqb (uid s) (file_owner f) then 6 else 0))
                     amode =? amode)%Z
      | None => false
      end) s.

Definition posix_chmod (path : string) (mode : Z) (s : posix) : ran (S := posix) (E := exn) unit :=
  match files s !! path with
  | Some f =>
      if Nat.eqb (uid s) 0 || Nat.eqb (uid s) (file_owner f)
      then Ok tt {| uid := uid s;
                    files := <[path := {| file_owner := file_owner f; file_mode := mode |}]>
                               (files s) |}
      else Fail PermissionError s
  | None => Fail FileNotFoundError s
  end.

(** [os.unlink] as [rmtree] uses it, on a system where a read-only file
    cannot be removed (Windows): it removes a file that exists and whose
    owner-write bit is set. *)
Definition unlink : operation (S := posix) (E := exn) := fun path s =>
  match files s !! path with
  | Some f =>
      if Z.testbit (file_mode f) 7
      then Ok tt {| uid := uid s; files := delete path (files s) |}
      else Fail PermissionError s
  | None => Fail FileNotFoundError s
  end.

(** [os.rmdir] on a directory that is not empty. *)
Definition rmdir_not_empty : operation (S := posix) (E := exn) := fun path s =>
  Fail (OSError "Directory not empty") s.

(** The user 1000 and one read-only file of theirs (mode [0o444]), as git
    leaves its pack files. *)
Definition read_only_pack : world (S := posix) (E := exn) :=
  {| os := {| uid := 1000;
              files := {[ "models/.git/objects/pack/pack-1.idx"
                          := {| file_owner := 1000; file_mode := 292 |} ]} |};
     log := [] |}.

(** The user 1000 and no file at all: [models] was never cloned. *)
Definition nothing_cloned : world (S := posix) (E := exn) :=
  {| os := {| uid := 1000; files := ∅ |}; log := [] |}.

(** The user 1000 and a read-only file of the user 0. *)
Definition file_of_another_user : world (S := posix) (E := exn) :=
  {| os := {| uid := 1000;
              files := {[ "models/README.md" := {| file_owner := 0; file_mode := 292 |} ]} |};
     log := [] |}.

Definition permission_denied : exc_info (E := exn) :=
  ("PermissionError", PermissionError, []).

(** The uniform distribution over the 1001 classes. *)
Definition uniform : list Q := replicate 1001 (1 # 1001)%Q.

(** * Further computations of the notebooks *)

(** ** Slices and ranges *)

(** A bound [i] of a slice of a sequence of [len] elements: a negative
    bound counts from the end, and every bound is clipped to [0..len]. *)
Definition slice_bound (len : nat) (i : Z) : nat :=
  if (i <? 0)%Z then Z.to_nat (Z.max 0 (i + Z.of_nat len))
  else Z.to_nat (Z.min i (Z.of_nat len)).

(** [l[lo:hi]]; a bound left out is [None]. *)
Definition slice {A : Type} (l : list A) (lo hi : option Z) : list A :=
  let a := from_option (slice_bound (length l)) 0 lo in
  let b := from_option (slice_bound (length l)) (length l) hi in
  take (b - a) (drop a l).

(** [range(start, stop, step)]; a step of zero is a [ValueError]. *)
Definition range (start stop step : Z) : option (list Z) :=
  if (step =? 0)%Z then None
  else
    let n := if (0 <? step)%Z then ((stop - start + step - 1) / step)%Z
             else ((start - stop - step - 1) / - step)%Z in
    Some (map (fun k => start + Z.of_nat k * step)%Z (seq 0 (Z.to_nat n))).

(** ** The TensorFlow training loop of from-tensorflow.ipynb *)

(** The [feed_dict] of the step at offset [j]: the autoencoder is fed the
    rows [data[j:j+minibatch_size]] both as its input [tf_a] and as its
    [targets]. *)
Definition feed_dict {A : Type} (data : list A) (j minibatch_size : Z)
  : list A * list A :=
  (slice data (Some j) (Some (j + minibatch_size)%Z),
   slice data (Some j) (Some (j + minibatch_size)%Z)).

(** The feeds of [for j in range(0, len(data), minibatch_size)], in the
    order in which [sess.run] receives them. *)
Definition epoch_feeds {A : Type} (data : list A) (minibatch_size : Z)
  : option (list (list A * list A)) :=
  js ← range 0 (Z.of_nat (length data)) minibatch_size;
  Some (map (fun j => feed_dict data j minibatch_size) js).

(** The feeds of the whole training loop, [for i in range(n_epochs)] around
    the loop over the minibatches: what the loops hand to [sess.run], one
    feed after the other, for as long as no step raises. *)
Definition training_feeds {A : Type} (train_data : list A) (n_epochs minibatch_size : Z)
  : option (list (list A * list A)) :=
  epochs ← range 0 n_epochs 1;
  feeds ← mapM (fun _ => epoch_feeds train_data minibatch_size) epochs;
  Some (concat feeds).

(** The steps themselves.  The placeholders [tf_a] and [targets] have the
    shape [(minibatch_size, n_in)]: [sess.run] refuses a feed of another
    shape before anything runs.  What a step does with a feed that fits, on
    the state of the session, is a parameter: it returns or raises. *)

Section session.

Context {A S E : Type}.
Variable run : list (list A) * list (list A) -> S -> S + E.
Variable refused : list (list A) * list (list A) -> E.   (* the [ValueError] of a feed that does not fit *)
Variable zero_step : E.                                  (* the [ValueError] of [range] *)

Definition fits (minibatch_size : Z) (n_in : nat) (x : list (list A)) : bool :=
  (Z.of_nat (length x) =? minibatch_size)%Z
  && forallb (fun row => Nat.eqb (length row) n_in) x.

(** [sess.run(opt_op, feed_dict={tf_a: ..., targets: ...})] *)
Definition sess_run (minibatch_size : Z) (n_in : nat)
  (feed : list (list A) * list (list A)) (s : S) : S + E :=
  if fits minibatch_size n_in (fst feed) && fits minibatch_size n_in (snd feed)
  then run feed s
  else inr (refused feed).

(** How a loop of steps ends, with the feeds of the steps that returned and
    the state of the session. *)
Record ended : Type := {
  steps : list (list (list A) * list (list A));
  session : S;
  raised : option E
}.

Fixpoint run_steps (minibatch_size : Z) (n_in : nat)
  (feeds : list (list (list A) * list (list A)))
  (done : list (list (list A) * list (list A))) (s : S) : ended :=
  match feeds with
  | [] => {| steps := done; session := s; raised := None |}
  | feed :: feeds' =>
      match sess_run minibatch_size n_in feed s with
      | inl s' => run_steps minibatch_size n_in feeds' (done ++ [feed]) s'
      | inr e => {| steps := done; session := s; raised := Some e |}
      end
  end.

(** The training loop: the steps on the feeds of [training_feeds] in their
    order, up to the first one that raises. *)
Definition training_loop (train_data : list (list A)) (n_epochs minibatch_size : Z)
  (n_in : nat) (s : S) : ended :=
  match training_feeds train_data n_epochs minibatch_size with
  | Some feeds => run_steps minibatch_size n_in feeds [] s
  | None => {| steps := []; session := s; raised := Some zero_step |}
  end.

End session.

(** ** Data over time in spiking-mnist.ipynb

    An array of shape [(items, n)] is a list of rows, an array of shape
    [(items, steps, n)] a list of lists of rows. *)

(** [a[:, None, :]]: a new axis of length one between the two axes. *)
Definition newaxis {A : Type} (a : list (list A)) : list (list (list A)) :=
  map (fun row => [row]) a.

(** [np.tile(a, (1, reps, 1))]: the second axis repeated [reps] times. *)
Definition np_tile {A : Type} (a : list (list (list A))) (reps : nat)
  : list (list (list A)) :=
  map (fun steps => concat (replicate reps steps)) a.

(** [train_data[k][:, None, :]], the training array of one node or probe. *)
Definition train_array {A : Type} (data : list (list A)) : list (list (list A)) :=
  newaxis data.

(** [np.tile(test_data[k][:minibatch_size*2, None, :], (1, n_steps, 1))],
    the test array of one node or probe. *)
Definition test_array {A : Type} (data : list (list A)) (minibatch_size : Z) (n_steps : nat)
  : list (list (list A)) :=
  np_tile (newaxis (slice data None (Some (minibatch_size * 2)%Z))) n_steps.

(** [a[i, j]] for natural [i] and [j]. *)
Definition item {A : Type} (a : list (list (list A))) (i j : nat) : option (list A) :=
  steps ← a !! i; steps !! j.

(** ** Objectives

    [mse] of from-tensorflow.ipynb, [test_mse] of from-nengo.ipynb and
    [classification_error] of spiking-mnist.ipynb apply TensorFlow
    operations to slices of their arguments, tensors of shape
    [(batch, steps, n)].  The operations are parameters. *)

Section objectives.

Context {T R : Type}.
Variable tf_subtract : list (list (list T)) -> list (list (list T)) -> list (list (list T)).
Variable tf_square : list (list (list T)) -> list (list (list T)).
Variable tf_reduce_mean : list (list (list T)) -> R.

Definition mse (out tar : list (list (list T))) : R :=
  tf_reduce_mean (tf_square (tf_subtract out tar)).

(** [x[:, -10:]] *)
Definition last_ten (x : list (list (list T))) : list (list (list T)) :=
  map (fun steps => slice steps (Some (-10)%Z) None) x.

Definition test_mse (outputs targets : list (list (list T))) : R :=
  tf_reduce_mean (tf_square (tf_subtract (last_ten outputs) (last_ten targets))).

End objectives.

Section classification.

Context {T I B F R : Type}.
Variable tf_argmax : list (list T) -> I.          (* [axis=-1] *)
Variable tf_not_equal : I -> I -> B.
Variable tf_cast : B -> F.                        (* to [tf.float32] *)
Variable tf_reduce_mean : F -> R.
Variable times : Z -> R -> R.

(** [x[:, -1]]: the last step of every item, an error where an item has no
    step. *)
Definition final_step (x : list (list (list T))) : option (list (list T)) :=
  mapM last x.

Definition classification_error (outputs targets : list (list (list T))) : option R :=
  o ← final_step outputs;
  t ← final_step targets;
  Some (times 100 (tf_reduce_mean (tf_cast (tf_not_equal (tf_argmax o) (tf_argmax t))))).

End classification.

(** ** Reading a label back: [np.argmax] *)

(** The index of the first largest entry among those from position [i] on,
    [best] being the index of the largest entry [best_value] seen so far. *)
Fixpoint argmax_from (best : nat) (best_value : Z) (i : nat) (l : list Z) : nat :=
  match l with
  | [] => best
  | x :: l' =>
      if (best_value <? x)%Z then argmax_from i x (S i) l'
      else argmax_from best best_value (S i) l'
  end.

(** [np.argmax(l)]: the first index of the maximum, a [ValueError] on an
    empty array. *)
Definition np_argmax (l : list Z) : option nat :=
  match l with
  | [] => None
  | x :: l' => Some (argmax_from 0 x 1 l')
  end.

(** The title of the image [i] plotted after the encoding,
    [np.argmax(train_data[1][i])]. *)
Definition title (labels : list (list Z)) (i : nat) : option nat :=
  row ← labels !! i; np_argmax row.

(** ** The order of [sorted_inds] *)

(** The order of the pairs [(index, key)] after a stable sort of
    [enumerate]: by key, and by index among equal keys. *)
Definition by_key_then_index (x y : nat * Q) : Prop :=
  (snd x < snd y)%Q \/ ((snd x == snd y)%Q /\ fst x < fst y).

(** ** Shapes: flattening the images and restoring them
    (tensorflow-models.ipynb)

    An array is its shape and its entries in row-major order; reshaping
    keeps the entries and replaces the shape. *)

Record ndarray (A : Type) : Type := { shape : list nat; data : list A }.
Arguments shape {A} _.
Arguments data {A} _.

(** The product of the dimensions of a shape. *)
Definition product (dims : list Z) : Z := foldr Z.mul 1%Z dims.

(** The shape tuple of an array, as Python integers. *)
Definition shape_of {A : Type} (a : ndarray A) : list Z := map Z.of_nat (shape a).

(** An array has as many entries as its shape says. *)
Definition well_formed {A : Type} (a : ndarray A) : Prop :=
  Z.of_nat (length (data a)) = product (shape_of a).

(** A number as [reshape] is given one: an integer, or a float, which
    [reshape] refuses as a dimension. *)
Inductive number : Set :=
| Integer (z : Z)
| Float (q : Q).

(** An integer of NumPy, [int_bits] wide (64, or 32 where the C [long] is
    32 bits wide): arithmetic wraps around. *)
Definition wrap (int_bits : Z) (z : Z) : Z :=
  ((z + 2 ^ (int_bits - 1)) mod 2 ^ int_bits - 2 ^ (int_bits - 1))%Z.

(** [np.prod(dims)] for a tuple of Python integers: their product as an
    integer of NumPy, and the float [1.0] for the empty tuple. *)
Definition np_prod (int_bits : Z) (dims : list Z) : number :=
  match dims with
  | [] => Float 1
  | _ => Integer (wrap int_bits (product dims))
  end.

(** A dimension given to [reshape]: a [TypeError] for a float. *)
Definition dimension (n : number) : option Z :=
  match n with
  | Integer z => Some z
  | Float _ => None
  end.

(** The shape an array of [size] entries takes for the requested
    [newshape]: one dimension may be [-1] and is then inferred; a request
    that does not fit the size is a [ValueError]. *)
Definition resolve_shape (size : nat) (newshape : list Z) : option (list nat) :=
  let known := product (List.filter (fun d => negb (d =? -1)%Z) newshape) in
  if existsb (fun d => (d <? -1)%Z) newshape then None
  else match List.filter (fun d => (d =? -1)%Z) newshape with
       | [] =>
           if (known =? Z.of_nat size)%Z then Some (map Z.to_nat newshape) else None
       | [_] =>
           if ((0 <? known) && (Z.of_nat size mod known =? 0))%Z
           then Some (map (fun d => if (d =? -1)%Z
                                    then Z.to_nat (Z.of_nat size / known)
                                    else Z.to_nat d) newshape)
           else None
       | _ => None
       end.

(** [a.reshape(newshape)] and [tf.reshape(a, newshape)] *)
Definition reshape {A : Type} (a : ndarray A) (newshape : list number) : option (ndarray A) :=
  requested ← mapM dimension newshape;
  dims ← resolve_shape (length (data a)) requested;
  Some {| shape := dims; data := data a |}.

(** [a.flatten()] *)
Definition flatten {A : Type} (a : ndarray A) : ndarray A :=
  {| shape := [length (data a)]; data := data a |}.

(** [test_inputs.reshape((-1, net_input_shape))] with
    [net_input_shape = np.prod(image_shape)]. *)
Definition flatten_images {A : Type} (int_bits : Z) (image_shape : list Z)
  (test_inputs : ndarray A) : option (ndarray A) :=
  let net_input_shape := np_prod int_bits image_shape in
  reshape test_inputs [Integer (-1); net_input_shape].

(** The first statement of [KerasNode.__call__]:
    [images = tf.reshape(x, (-1,) + image_shape)]. *)
Definition keras_images {A : Type} (image_shape : list Z) (x : ndarray A)
  : option (ndarray A) :=
  reshape x (map Integer ([(-1)%Z] ++ image_shape)).

(** [tf.cast(x, dtype)]: every entry converted. *)
Definition tf_cast {A B : Type} (convert : A -> B) (x : ndarray A) : ndarray B :=
  {| shape := shape x; data := map convert (data x) |}.

(** The first statement of [InceptionNode.__call__]:
    [img = tf.reshape(tf.cast(x, tf.uint8), image_shape)], where
    [image_shape = image.shape] and [to_uint8] converts a float to an
    unsigned byte. *)
Definition inception_img {F U : Type} (to_uint8 : F -> U) (image : ndarray U) (x : ndarray F)
  : option (ndarray U) :=
  let image_shape := map Integer (shape_of image) in
  reshape (tf_cast to_uint8 x) image_shape.

(** ** The test targets of from-nengo.ipynb *)


(** ** The build stages of [KerasNode] (tensorflow-models.ipynb)

    Keras models are objects that several names can refer to, and
    [load_weights] changes the object it is called on: the models live in a
    store, from address to weights, and [self.model] is an address. *)

Module KerasNode.

Section methods.

Context {A W : Type}.
Variable initial : W.   (* the weights [clone_model] gives its new layers *)
Variable saved : W.     (* the weights in the file [model_weights] *)
Variable image_shape : list Z.

Record state : Type := {
  models : gmap nat W;     (* the Keras models that exist *)
  self_model : nat;        (* [self.model] *)
  built : list nat         (* the models whose [call] was built into the graph *)
}.

(** [self.model = keras_model] *)
Definition __init__ (models : gmap nat W) (keras_model : nat) : state :=
  {| models := models; self_model := keras_model; built := [] |}.

(** [self.model = keras.models.clone_model(self.model)]: a new model. *)
Definition pre_build (self : state) : state :=
  let clone := fresh (dom (models self)) in
  {| models := <[clone := initial]> (models self);
     self_model := clone;
     built := built self |}.

(** [images = tf.reshape(x, (-1,) + image_shape)] and
    [return self.model.call(images)]: the tensor returned is the model at
    [self.model] applied to [images]. *)
Definition __call__ (self : state) (x : ndarray A) : option (state * (nat * ndarray A)) :=
  images ← keras_images image_shape x;
  Some ({| models := models self;
           self_model := self_model self;
           built := built self ++ [self_model self] |},
        (self_model self, images)).

(** [self.model.load_weights(model_weights)] *)
Definition post_build (self : state) : state :=
  {| models := <[self_model self := saved]> (models self);
     self_model := self_model self;
     built := built self |}.

End methods.

End KerasNode.

(** ** Sample operations

    Operations on tensors of rationals: entry by entry on tensors of the
    same shape, and the mean of all entries. *)

Definition subtract (x y : list (list (list Q))) : list (list (list Q)) :=
  zip_with (zip_with (zip_with Qminus)) x y.

Definition square (x : list (list (list Q))) : list (list (list Q)) :=
  map (map (map (fun v => v * v)%Q)) x.

Definition mean (x : list Q) : Q :=
  (foldr Qplus 0 x / inject_Z (Z.of_nat (length x)))%Q.

Definition reduce_mean (x : list (list (list Q))) : Q := mean (concat (concat x)).

Definition argmax_rows (x : list (list Z)) : list (option nat) := map np_argmax x.

Definition not_equal (a b : list (option nat)) : list bool :=
  zip_with (fun i j => negb (bool_decide (i = j))) a b.

Definition to_float (b : list bool) : list Q :=
  map (fun v : bool => if v then 1%Q else 0%Q) b.

Definition scale (k : Z) (x : Q) : Q := (inject_Z k * x)%Q.

(** * Properties *)

(** ** Names: top-to-bottom execution binds every name that is read *)

Lemma mem_In (x : string) (l : list string) : mem x l = true <-> In x l.
Proof.
  unfold mem. rewrite existsb_exists. split.
  - intros (y & Hy & Heq). apply String.eqb_eq in Heq. now subst.
  - intros H. exists x. split; [exact H | apply String.eqb_refl].
Qed.

Lemma closed_In (G : env) (names : list string) :
  closed G names = true -> forall x, In x names -> In x G.
Proof.
  unfold closed. rewrite forallb_forall. intros H x Hx. apply mem_In. now apply H.
Qed.

Lemma In_remove_all (x : string) (xs l : list string) :
  In x (remove_all xs l) <-> In x l /\ ~ In x xs.
Proof.
  unfold remove_all. rewrite filter_In, negb_true_iff, <- not_true_iff_false, mem_In.
  reflexivity.
Qed.

(** [exec] on compound statements, in terms of [exec_block]. *)
Lemma exec_def G f ps va body :
  exec G (SDef f ps va body) =
  if closed G (default_loads ps) then
    match exec_block (param_names ps va ++ remove_all (flat_map assigned body) G) body with
    | Some _ => Some (f :: G)
    | None => None
    end
  else None.
Proof. reflexivity. Qed.

Lemma exec_if G t b o :
  exec G (SIf t b o) =
  if closed G (loads t) then
    match exec_block G b, exec_block G o with
    | Some G1, Some G2 => Some (List.filter (fun x => mem x G2) G1)
    | _, _ => None
    end
  else None.
Proof. reflexivity. Qed.

Lemma exec_for G t it b :
  exec G (SFor t it b) =
  if closed G (loads it ++ target_loads t) then
    match exec_block (stores t ++ G) b with Some _ => Some G | None => None end
  else None.
Proof. reflexivity. Qed.

Lemma exec_with G items b :
  exec G (SWith items b) =
  match enter G items with Some G1 => exec_block G1 b | None => None end.
Proof. reflexivity. Qed.

Lemma enter_sound items : forall G G1,
  enter G items = Some G1 ->
  (forall x, In x (flat_map item_loads items) ->
             In x G \/ In x (flat_map item_stores items))
  /\ (forall x, In x G1 -> In x (flat_map item_stores items) \/ In x G).
Proof.
  induction items as [|it items IH]; simpl; intros G G1 H.
  - injection H as <-. split; [contradiction | auto].
  - destruct (closed G (item_loads it)) eqn:Hc; [|discriminate].
    destruct (IH _ _ H) as [IH1 IH2]. split; intros x Hx.
    + apply in_app_or in Hx as [Hx|Hx].
      * left. eapply closed_In; eauto.
      * destruct (IH1 x Hx) as [Hin|Hin].
        -- apply in_app_or in Hin as [Hin|Hin]; [right; apply in_or_app|]; auto.
        -- right. apply in_or_app. auto.
    + destruct (IH2 x Hx) as [Hin|Hin].
      * left. apply in_or_app. auto.
      * apply in_app_or in Hin as [Hin|Hin]; [left; apply in_or_app|]; auto.
Qed.

Lemma exec_block_sound ss :
  Forall exec_ok ss -> forall G G',
  exec_block G ss = Some G' ->
  (forall x, In x (flat_map refs ss) -> In x G \/ In x (flat_map assigned ss))
  /\ (forall x, In x G' -> In x (flat_map assigned ss) \/ In x G).
Proof.
  induction 1 as [|s ss Hs Hss IH]; simpl; intros G G' H.
  - injection H as <-. split; [contradiction | auto].
  - destruct (exec G s) as [G1|] eqn:He; [|discriminate].
    destruct (Hs _ _ He) as (Hs1 & Hs2 & _). destruct (IH _ _ H) as [IH1 IH2].
    split; intros x Hx.
    + apply in_app_or in Hx as [Hx|Hx].
      * destruct (Hs1 x Hx); [left|right; apply in_or_app]; auto.
      * destruct (IH1 x Hx) as [Hin|Hin].
        -- destruct (Hs2 x Hin); [right; apply in_or_app|left]; auto.
        -- right. apply in_or_app. auto.
    + destruct (IH2 x Hx) as [Hin|Hin].
      * left. apply in_or_app. auto.
      * destruct (Hs2 x Hin); [left; apply in_or_app|right]; auto.
Qed.

Lemma exec_sound (s : stmt) : exec_ok s.
Proof.
  induction s as [l|m a|m ns|t v|v|f ps va b IHb|c bases b IHb|v|t b o IHb IHo
                  |t it b IHb|items b IHb|e|] using stmt_induction;
    unfold exec_ok; intros G G' H.
  - (* magic *) simpl in H. injection H as <-. simpl. tauto.
  - (* import *) simpl in H. injection H as <-. simpl.
    split; [tauto|]. split; [|exact I]. intros x [->|Hx]; auto.
  - (* from-import *) simpl in H. injection H as <-. simpl.
    split; [tauto|]. split; [|exact I]. intros x Hx. apply in_app_or in Hx. tauto.
  - (* assignment *) simpl in H.
    destruct (closed G (loads v ++ target_loads t)) eqn:Hc; [|discriminate].
    injection H as <-. simpl. split; [|split; [|exact I]].
    + intros x Hx. left. eapply closed_In; eauto.
    + intros x Hx. apply in_app_or in Hx. tauto.
  - (* expression *) simpl in H. destruct (closed G (loads v)) eqn:Hc; [|discriminate].
    injection H as <-. simpl. split; [|split; [tauto|exact I]].
    intros x Hx. left. eapply closed_In; eauto.
  - (* def *) rewrite exec_def in H.
    destruct (closed G (default_loads ps)) eqn:Hc; [|discriminate].
    destruct (exec_block _ b) as [Gb|] eqn:Hb; [|discriminate].
    injection H as <-.
    destruct (exec_block_sound _ IHb _ _ Hb) as [Hb1 _].
    assert (Hrefs : forall x, In x (refs (SDef f ps va b)) -> In x G).
    { simpl. intros x Hx. apply in_app_or in Hx as [Hx|Hx].
      - eapply closed_In; eauto.
      - apply In_remove_all in Hx as [Hx Hloc].
        destruct (Hb1 x Hx) as [Hin|Hin].
        + apply in_app_or in Hin as [Hin|Hin].
          * exfalso. apply Hloc. apply in_or_app. auto.
          * now apply In_remove_all in Hin.
        + exfalso. apply Hloc. apply in_or_app. auto. }
    split; [auto|]. split; [|exact Hrefs].
    intros x [->|Hx]; simpl; auto.
  - (* class *) simpl in H.
    destruct (closed G (flat_map loads bases)) eqn:Hc; simpl in H; [|discriminate].
    match type of H with (if ?t then _ else _) = _ => destruct t eqn:Hm end;
      [|discriminate].
    injection H as <-. simpl. split; [|split; [|exact I]].
    + intros x Hx. left. apply in_app_or in Hx as [Hx|Hx].
      * eapply closed_In; eauto.
      * apply in_flat_map in Hx as (s' & Hs' & Hx).
        rewrite forallb_forall in Hm. specialize (Hm _ Hs').
        rewrite List.Forall_forall in IHb. specialize (IHb _ Hs').
        destruct s'; try discriminate.
        destruct (exec G (SDef name params vararg body)) as [G1|] eqn:He;
          [|discriminate].
        destruct (IHb _ _ He) as (_ & _ & Hd). auto.
    + intros x [->|Hx]; auto.
  - (* return *) simpl in H. destruct (closed G (loads v)) eqn:Hc; [|discriminate].
    injection H as <-. simpl. split; [|split; [tauto|exact I]].
    intros x Hx. left. eapply closed_In; eauto.
  - (* if *) rewrite exec_if in H.
    destruct (closed G (loads t)) eqn:Hc; [|discriminate].
    destruct (exec_block G b) as [G1|] eqn:Hb; [|discriminate].
    destruct (exec_block G o) as [G2|] eqn:Ho; [|discriminate].
    injection H as <-.
    destruct (exec_block_sound _ IHb _ _ Hb) as [Hb1 Hb2].
    destruct (exec_block_sound _ IHo _ _ Ho) as [Ho1 _].
    simpl. split; [|split; [|exact I]].
    + intros x Hx. apply in_app_or in Hx as [Hx|Hx].
      * left. eapply closed_In; eauto.
      * apply in_app_or in Hx as [Hx|Hx].
        -- destruct (Hb1 x Hx); [left|right; apply in_or_app]; auto.
        -- destruct (Ho1 x Hx); [left|right; apply in_or_app]; auto.
    + intros x Hx. apply filter_In in Hx as [Hx _].
      destruct (Hb2 x Hx); [left; apply in_or_app|right]; auto.
  - (* for *) rewrite exec_for in H.
    destruct (closed G (loads it ++ target_loads t)) eqn:Hc; [|discriminate].
    destruct (exec_block _ b) as [Gb|] eqn:Hb; [|discriminate].
    injection H as <-.
    destruct (exec_block_sound _ IHb _ _ Hb) as [Hb1 _].
    simpl. split; [|split; [tauto|exact I]].
    intros x Hx. rewrite app_assoc in Hx. apply in_app_or in Hx as [Hx|Hx].
    + left. eapply closed_In; eauto.
    + destruct (Hb1 x Hx) as [Hin|Hin].
      * apply in_app_or in Hin as [Hin|Hin]; [right; apply in_or_app|left]; auto.
      * right. apply in_or_app. auto.
  - (* with *) rewrite exec_with in H.
    destruct (enter G items) as [G1|] eqn:Hi; [|discriminate].
    destruct (enter_sound _ _ _ Hi) as [Hi1 Hi2].
    destruct (exec_block_sound _ IHb _ _ H) as [Hb1 Hb2].
    simpl. split; [|split; [|exact I]].
    + intros x Hx. apply in_app_or in Hx as [Hx|Hx].
      * destruct (Hi1 x Hx); [left|right; apply in_or_app]; auto.
      * destruct (Hb1 x Hx) as [Hin|Hin].
        -- destruct (Hi2 x Hin); [right; apply in_or_app|left]; auto.
        -- right. apply in_or_app. auto.
    + intros x Hx. destruct (Hb2 x Hx) as [Hin|Hin].
      * left. apply in_or_app. auto.
      * destruct (Hi2 x Hin); [left; apply in_or_app|right]; auto.
  - (* raise *) simpl in H. destruct (closed G (loads e)) eqn:Hc; [|discriminate].
    injection H as <-. simpl. split; [|split; [tauto|exact I]].
    intros x Hx. left. eapply closed_In; eauto.
  - (* pass *) simpl in H. injection H as <-. simpl. tauto.
Qed.

Lemma all_exec_ok (ss : list stmt) : Forall exec_ok ss.
Proof. apply List.Forall_forall. intros s _. apply exec_sound. Qed.

(** If the cells run from top to bottom without reading an unbound name,
    every name a cell reads was bound at the start, by the cell itself or by
    an earlier cell. *)
Lemma run_cells_sound (cs : list (list stmt)) : forall G G',
  run_cells G cs = Some G' ->
  forall i c x, cs !! i = Some c -> In x (cell_refs c) ->
    In x G \/ In x (cell_binds c) \/ bound_earlier cs i x.
Proof.
  induction cs as [|c0 cs IH]; intros G G' Hrun i c x Hi Hx.
  - discriminate.
  - simpl in Hrun. destruct (exec_block G c0) as [G1|] eqn:H0; [|discriminate].
    destruct (exec_block_sound c0 (all_exec_ok c0) _ _ H0) as [Hrefs Henv].
    destruct i as [|i]; simpl in Hi.
    + injection Hi as <-. destruct (Hrefs x Hx); auto.
    + destruct (IH _ _ Hrun i c x Hi Hx) as [Hin|[Hin|(j & c' & Hj & Hc' & Hin)]].
      * destruct (Henv x Hin) as [Hb|HG]; [|auto].
        right. right. exists 0, c0. repeat split; [lia|assumption].
      * auto.
      * right. right. exists (S j), c'. repeat split; [lia|assumption..].
Qed.

(** Run on its own, the cell of from-nengo.ipynb that switches to the NengoDL
    simulator and calls [plot] reads names that are not bound. *)
Example plot_cell_needs_the_earlier_cells : run_cells builtins [from_nengo_cell09] = None.
Proof. reflexivity. Qed.

(** ** What the notebooks define and call *)



(** ** The one-hot encoding *)

Lemma norm_index_in_range (i : Z) (dim : nat) :
  (0 <= i < Z.of_nat dim)%Z -> norm_index i dim = Some (Z.to_nat i).
Proof.
  intros [H0 H1]. unfold norm_index.
  apply Z.leb_le in H0. apply Z.ltb_lt in H1. now rewrite H0, H1.
Qed.

Lemma set_item_row (pre rest : list (list Z)) (row : list Z) (j v : Z) :
  (0 <= j < Z.of_nat (length row))%Z ->
  set_item (pre ++ row :: rest) (Z.of_nat (length pre), j) v
  = Some (pre ++ <[Z.to_nat j := v]> row :: rest).
Proof.
  intros Hj. unfold set_item. simpl fst. simpl snd.
  rewrite norm_index_in_range, Nat2Z.id.
  2:{ rewrite length_app. simpl. lia. }
  simpl. rewrite list_lookup_middle by reflexivity. simpl.
  rewrite norm_index_in_range by exact Hj. simpl.
  f_equal. rewrite insert_app_r_alt by lia.
  now replace (length pre - length pre) with 0 by lia.
Qed.

(** Filling the rows after [pre] one by one, each with a one in the column
    of its label. *)
Lemma set_items_rows (labels : list Z) : forall pre : list (list Z),
  Forall (fun l => 0 <= l <= 9)%Z labels ->
  set_items (pre ++ replicate (length labels) (replicate 10 0%Z))
            (zip (map Z.of_nat (seq (length pre) (length labels))) labels) 1%Z
  = Some (pre ++ map one_hot_row labels).
Proof.
  induction labels as [|l labels IH]; intros pre Hl.
  - reflexivity.
  - inversion Hl as [|? ? Hl0 Hl']; subst.
    specialize (IH (pre ++ [one_hot_row l]) Hl').
    rewrite length_app in IH. simpl length in IH.
    replace (length pre + 1) with (S (length pre)) in IH by lia.
    rewrite <- !app_assoc in IH. simpl app in IH.
    unfold one_hot_row at 1 in IH.
    remember (replicate 10 0%Z) as zrow eqn:Hz.
    assert (Hlen : length zrow = 10) by (subst; apply length_replicate).
    simpl. rewrite set_item_row by (rewrite Hlen; lia). simpl. subst zrow. exact IH.
Qed.

Lemma one_hot_rows {A : Type} (data0 : list A) (labels : list Z) :
  length labels = length data0 ->
  Forall (fun l => 0 <= l <= 9)%Z labels ->
  one_hot data0 labels = Some (map one_hot_row labels).
Proof.
  intros Hlen Hl. unfold one_hot, setitem, broadcast, np_arange, np_zeros.
  rewrite length_map, length_seq, <- Hlen, Nat.eqb_refl. simpl.
  apply (set_items_rows labels [] Hl).
Qed.

Lemma one_hot_row_length (l : Z) : length (one_hot_row l) = 10.
Proof. unfold one_hot_row. now rewrite length_insert, length_replicate. Qed.

Lemma one_hot_row_lookup (l : Z) (j : nat) :
  (0 <= l <= 9)%Z -> j < 10 ->
  one_hot_row l !! j = Some (if decide (j = Z.to_nat l) then 1%Z else 0%Z).
Proof.
  intros Hl Hj. unfold one_hot_row. destruct (decide (j = Z.to_nat l)) as [->|Hne].
  - apply list_lookup_insert_eq. rewrite length_replicate. lia.
  - rewrite list_lookup_insert_ne by congruence. now apply lookup_replicate_2.
Qed.

(** ** Sorting the class probabilities *)

Lemma insert_perm {A : Type} (key : A -> Q) (x : A) (l : list A) :
  Permutation (insert key x l) (x :: l).
Proof.
  induction l as [|y l IH]; simpl.
  - reflexivity.
  - destruct (Qle_bool (key x) (key y)).
    + reflexivity.
    + rewrite IH. apply perm_swap.
Qed.

Lemma sorted_perm {A : Type} (key : A -> Q) (l : list A) :
  Permutation (sorted key l) l.
Proof.
  induction l as [|x l IH]; simpl.
  - reflexivity.
  - rewrite insert_perm. now apply perm_skip.
Qed.

Lemma insert_HdRel {A : Type} (key : A -> Q) (x y : A) (l : list A) :
  key_le key y x -> HdRel (key_le key) y l -> HdRel (key_le key) y (insert key x l).
Proof.
  intros Hyx Hl. destruct l as [|z l]; simpl.
  - now constructor.
  - destruct (Qle_bool (key x) (key z)); constructor; [exact Hyx|].
    now inversion Hl.
Qed.

Lemma insert_Sorted {A : Type} (key : A -> Q) (x : A) (l : list A) :
  Sorted (key_le key) l -> Sorted (key_le key) (insert key x l).
Proof.
  induction 1 as [|y l Hl IH Hy]; simpl.
  - repeat constructor.
  - destruct (Qle_bool (key x) (key y)) eqn:Hxy.
    + constructor; [now constructor|]. constructor. now apply Qle_bool_iff.
    + constructor; [exact IH|]. apply insert_HdRel; [|exact Hy].
      unfold key_le. apply Qlt_le_weak, Qnot_le_lt.
      intros Hle. apply Qle_bool_iff in Hle. congruence.
Qed.

Lemma sorted_Sorted {A : Type} (key : A -> Q) (l : list A) :
  Sorted (key_le key) (sorted key l).
Proof.
  induction l as [|x l IH]; simpl.
  - constructor.
  - now apply insert_Sorted.
Qed.

Lemma key_le_trans {A : Type} (key : A -> Q) (a b c : A) :
  key_le key a b -> key_le key b c -> key_le key a c.
Proof. unfold key_le. apply Qle_trans. Qed.

Lemma sorted_StronglySorted {A : Type} (key : A -> Q) (l : list A) :
  StronglySorted (key_le key) (sorted key l).
Proof.
  apply Sorted_StronglySorted; [|apply sorted_Sorted].
  intros a b c. apply key_le_trans.
Qed.

Lemma StronglySorted_lookup {A : Type} (R : A -> A -> Prop) (l : list A) :
  StronglySorted R l ->
  forall a b x y, a < b -> l !! a = Some x -> l !! b = Some y -> R x y.
Proof.
  induction 1 as [|z l Hl IH Hz]; intros a b x y Hab Ha Hb.
  - discriminate.
  - destruct b as [|b]; [lia|]. simpl in Hb. destruct a as [|a].
    + simpl in Ha. injection Ha as <-.
      rewrite List.Forall_forall in Hz. apply Hz.
      apply list_elem_of_In. eapply list_elem_of_lookup_2. exact Hb.
    + simpl in Ha. apply (IH a b); [lia|assumption..].
Qed.

Lemma enumerate_fst {A : Type} (l : list A) :
  map fst (enumerate l) = seq 0 (length l).
Proof. unfold enumerate. apply fst_zip. now rewrite length_seq. Qed.

Lemma enumerate_lookup {A : Type} (l : list A) (i : nat) (x : A) :
  (i, x) ∈ enumerate l -> l !! i = Some x.
Proof.
  unfold enumerate. intros H.
  apply list_elem_of_lookup in H as [k Hk].
  apply lookup_zip_with_Some in Hk as (i' & x' & Heq & Hi & Hx).
  injection Heq as -> ->. apply lookup_seq in Hi as [-> _]. exact Hx.
Qed.

Lemma sorted_inds_perm (probabilities : list Q) :
  Permutation (sorted_inds probabilities) (seq 0 (length probabilities)).
Proof.
  unfold sorted_inds. rewrite sorted_perm, enumerate_fst. now rewrite length_map.
Qed.

(** Every pair of the sorted list is an index with the negated probability
    at that index. *)
Lemma sorted_pairs (probabilities : list Q) (k i : nat) (q : Q) :
  sorted snd (enumerate (map Qopp probabilities)) !! k = Some (i, q) ->
  q = Qopp (prob probabilities i).
Proof.
  intros Hk. apply list_elem_of_lookup_2 in Hk.
  rewrite sorted_perm in Hk. apply enumerate_lookup in Hk.
  rewrite list_lookup_fmap in Hk. unfold prob.
  destruct (probabilities !! i) as [p|] eqn:Hp; [|discriminate].
  simpl in Hk. injection Hk as <-.
  now rewrite (nth_lookup_Some _ _ _ _ Hp).
Qed.

Lemma sorted_inds_ordered (probabilities : list Q) (a b i j : nat) :
  a < b ->
  sorted_inds probabilities !! a = Some i ->
  sorted_inds probabilities !! b = Some j ->
  (prob probabilities j <= prob probabilities i)%Q.
Proof.
  unfold sorted_inds. intros Hab Ha Hb.
  rewrite list_lookup_fmap in Ha, Hb.
  destruct (sorted snd _ !! a) as [[i' qa]|] eqn:Ea; [|discriminate].
  destruct (sorted snd _ !! b) as [[j' qb]|] eqn:Eb; [|discriminate].
  simpl in Ha, Hb. injection Ha as ->. injection Hb as ->.
  pose proof (StronglySorted_lookup _ _ (sorted_StronglySorted snd _)
                _ _ _ _ Hab Ea Eb) as Hle.
  unfold key_le in Hle. simpl in Hle.
  rewrite (sorted_pairs _ _ _ _ Ea), (sorted_pairs _ _ _ _ Eb) in Hle.
  apply Qopp_le_compat in Hle. now rewrite !Qopp_involutive in Hle.
Qed.

Lemma printed_take (probabilities : list Q) :
  5 <= length probabilities ->
  printed probabilities = Some (take 5 (sorted_inds probabilities)).
Proof.
  intros Hlen. unfold printed.
  pose proof (Permutation_length (sorted_inds_perm probabilities)) as Hl.
  rewrite length_seq in Hl.
  destruct (sorted_inds probabilities) as [|x0 [|x1 [|x2 [|x3 [|x4 rest]]]]];
    simpl in Hl; try lia.
  reflexivity.
Qed.

(** ** The [onerror] handler *)

(** What the handler does, case by case on what the system answers. *)
Lemma onerror_outcome {S E : Type}
  (access : string -> Z -> S -> ran bool) (chmod : string -> Z -> S -> ran unit)
  (func : operation) (path : string) (ei : exc_info) (w : world (S := S) (E := E)) :
  onerror access chmod func path ei w
  = match access path W_OK (os w) with
    | Fail e0 s0 => Raises e0 {| os := s0; log := log w ++ [EvAccess path W_OK] |}
    | Ok true s0 =>
        Raises (snd (fst ei))
               {| os := s0; log := log w ++ [EvAccess path W_OK; EvRaise (snd (fst ei))] |}
    | Ok false s0 =>
        match chmod path S_IWUSR s0 with
        | Fail e1 s1 =>
            Raises e1 {| os := s1;
                         log := log w ++ [EvAccess path W_OK; EvChmod path S_IWUSR] |}
        | Ok _ s1 =>
            match func path s1 with
            | Ok _ s2 =>
                Returns tt {| os := s2;
                              log := log w ++ [EvAccess path W_OK; EvChmod path S_IWUSR;
                                               EvCall path] |}
            | Fail e2 s2 =>
                Raises e2 {| os := s2;
                             log := log w ++ [EvAccess path W_OK; EvChmod path S_IWUSR;
                                              EvCall path] |}
            end
        end
    end.
Proof.
  unfold onerror, mbind, M_bind, os_access, os_chmod, call, perform, raise.
  destruct (access path W_OK (os w)) as [[|] s0|e0 s0]; simpl.
  - now rewrite <- app_assoc.
  - destruct (chmod path S_IWUSR s0) as [[] s1|e1 s1]; simpl.
    + destruct (func path s1) as [[] s2|e2 s2]; simpl; now rewrite <- !app_assoc.
    + now rewrite <- app_assoc.
  - reflexivity.
Qed.

(** What the handler added to the log. *)
Lemma onerror_did {S E : Type}
  (access : string -> Z -> S -> ran bool) (chmod : string -> Z -> S -> ran unit)
  (func : operation) (path : string) (ei : exc_info) (w : world (S := S) (E := E)) :
  drop (length (log w)) (log (final (onerror access chmod func path ei w)))
  = match access path W_OK (os w) with
    | Fail _ _ => [EvAccess path W_OK]
    | Ok true _ => [EvAccess path W_OK; EvRaise (snd (fst ei))]
    | Ok false s0 =>
        match chmod path S_IWUSR s0 with
        | Fail _ _ => [EvAccess path W_OK; EvChmod path S_IWUSR]
        | Ok _ _ => [EvAccess path W_OK; EvChmod path S_IWUSR; EvCall path]
        end
    end.
Proof.
  rewrite onerror_outcome.
  destruct (access path W_OK (os w)) as [[|] s0|e0 s0]; simpl.
  - apply drop_app_length.
  - destruct (chmod path S_IWUSR s0) as [[] s1|e1 s1]; simpl.
    + destruct (func path s1) as [[] s2|e2 s2]; simpl; apply drop_app_length.
    + apply drop_app_length.
  - apply drop_app_length.
Qed.

(** * The claims *)





(** C3, as stated, fails: tensorflow-models.ipynb contains a [raise]. *)
Lemma tensorflow_models_handles_errors : ~ no_error_handling tensorflow_models.
Proof. intros H. vm_compute in H. discriminate H. Qed.

(** C3, amended: the only error handling in the notebooks is the function
    [onerror] of the last cell of tensorflow-models.ipynb, passed to
    [shutil.rmtree]: it holds the only [raise] statement.  Whatever the
    system answers, it calls [os.access(path, os.W_OK)]; when that returns
    true it raises the exception it was given, [exc_info[1]]; when that
    returns false it calls [os.chmod(path, stat.S_IWUSR)] and then, if
    [os.chmod] returned, the failed operation [func(path)] once more, and
    returns or raises as that call does; an exception of [os.access] or of
    [os.chmod] is the handler's, and [func] is then not called. *)
Theorem onerror_is_the_only_error_handling :
  map (fun nb => raise_stmts (nb_code nb)) notebooks
  = [[]; []; [SRaise (EIndex (EName "exc_info") (ENum "1"))]; []]
  /\ map (fun nb => flat_map raising_functions (nb_code nb)) notebooks
     = [[]; []; ["onerror"]; []]
  /\ last (code_cells tensorflow_models) = Some tensorflow_models_cell34
  /\ function_names tensorflow_models_cell34 = ["onerror"]
  /\ calls tensorflow_models_cell34
     = [ECall (EAttr (EName "os") "access")
          [EName "path"; EAttr (EName "os") "W_OK"] [];
        ECall (EAttr (EName "os") "chmod")
          [EName "path"; EAttr (EName "stat") "S_IWUSR"] [];
        ECall (EName "func") [EName "path"] [];
        ECall (EAttr (EName "shutil") "rmtree") [EStr "models"]
          [("onerror", EName "onerror")]]
  /\ (forall (S E : Type)
             (access : string -> Z -> S -> ran bool) (chmod : string -> Z -> S -> ran unit)
             (func : operation) (path : string)
             (ty : string) (e : E) (tb : list string) (w : world (S := S) (E := E)),
        onerror access chmod func path (ty, e, tb) w
        = match access path W_OK (os w) with
          | Fail e0 s0 => Raises e0 {| os := s0; log := log w ++ [EvAccess path W_OK] |}
          | Ok true s0 =>
              Raises e {| os := s0; log := log w ++ [EvAccess path W_OK; EvRaise e] |}
          | Ok false s0 =>
              match chmod path S_IWUSR s0 with
              | Fail e1 s1 =>
                  Raises e1 {| os := s1;
                               log := log w ++ [EvAccess path W_OK;
                                                EvChmod path S_IWUSR] |}
              | Ok _ s1 =>
                  match func path s1 with
                  | Ok _ s2 =>
                      Returns tt {| os := s2;
                                    log := log w ++ [EvAccess path W_OK;
                                                     EvChmod path S_IWUSR;
                                                     EvCall path] |}
                  | Fail e2 s2 =>
                      Raises e2 {| os := s2;
                                   log := log w ++ [EvAccess path W_OK;
                                                    EvChmod path S_IWUSR;
                                                    EvCall path] |}
                  end
              end
          end).
Proof.
  repeat split; try (vm_compute; reflexivity).
  intros S E access chmod func path ty e tb w.
  apply (onerror_outcome access chmod func path (ty, e, tb) w).
Qed.

(** C4, as stated, fails: the source files do not have 2,380 lines. *)
Lemma source_files_do_not_have_2380_lines : total_lines <> 2380 /\ total_newlines <> 2380.
Proof. split; vm_compute; discriminate. Qed.

(** C4, amended: the source files have 2,379 lines (2,378 newline
    characters: the last line of setup.cfg is not terminated), all of them in
    four tutorial notebooks (567, 720, 576 and 363 lines) and two
    configuration files (57 and 96 lines); 865 of the notebook lines are the
    Python source lines of code cells. *)
Theorem source_files_have_2379_lines :
  total_lines = 2379
  /\ total_newlines = 2378
  /\ map source_lines sources = [567; 57; 720; 576; 363; 96]
  /\ sum_list_with python_lines notebooks = 865.
Proof. repeat split; vm_compute; reflexivity. Qed.

(** C5, as stated, fails: from-nengo.ipynb stores into objects it created
    in earlier cells ([outpt_p.synapse = 0.04]). *)
Lemma from_nengo_mutates_its_objects : ~ never_mutates from_nengo.
Proof.
  intros H. unfold never_mutates in H. rewrite List.Forall_forall in H.
  specialize (H from_nengo_cell21).
  assert (Hin : In from_nengo_cell21 (code_cells from_nengo)).
  { unfold code_cells, from_nengo. simpl. tauto. }
  specialize (H Hin). rewrite List.Forall_forall in H.
  apply (H "outpt_p"); vm_compute; tauto.
Qed.

(** C5, amended: every class of the notebooks declares no base class;
    module-level objects of the notebooks are changed after their creation by
    attribute and item assignments: in from-nengo [conn.synapse],
    [outpt_p.synapse] and [net.config[...].trainable] ([outpt_p] and [net]
    were bound by an earlier cell), in from-tensorflow [ens.gain], [ens.bias]
    and [conn.synapse], in spiking-mnist [one_hot[...]], [data[1]],
    [net.config[...].max_rates] and [net.config[...].intercepts];
    tensorflow-models has no such assignment at module level. *)
Theorem classes_have_no_base_and_objects_are_mutated :
  Forall no_inheritance notebooks
  /\ map (fun nb => map store_summary (flat_map module_stores (code_cells nb))) notebooks
     = [[("conn", "synapse"); ("outpt_p", "synapse"); ("net", "trainable")];
        [("ens", "gain"); ("ens", "bias"); ("conn", "synapse")];
        [];
        [("one_hot", "[]"); ("data", "[]"); ("net", "max_rates");
         ("net", "intercepts")]]
  /\ map (fun nb => mutated_later [] (code_cells nb)) notebooks
     = [["outpt_p"; "net"]; []; []; []].
Proof.
  split; [|split; vm_compute; reflexivity].
  repeat constructor.
Qed.

(** C6, as stated, fails: the callable of the TensorNode built from
    [TensorFunc()] in from-tensorflow.ipynb returns its input [x] as it came
    in. *)
Lemma tensor_func_node_applies_no_operation : ~ tensor_nodes_apply_framework from_tensorflow.
Proof.
  intros H. unfold tensor_nodes_apply_framework in H. rewrite List.Forall_forall in H.
  specialize (H (ECall (EAttr (EName "nengo_dl") "TensorNode")
                       [ECall (EName "TensorFunc") [] []]
                       [("size_in", ENum "1"); ("size_out", ENum "1")])).
  assert (Hf : applies_framework_operation (nb_code from_tensorflow)
                 (ECall (EAttr (EName "nengo_dl") "TensorNode")
                    [ECall (EName "TensorFunc") [] []]
                    [("size_in", ENum "1"); ("size_out", ENum "1")]) = false)
    by (vm_compute; reflexivity).
  rewrite H in Hf; [discriminate|]. vm_compute. tauto.
Qed.

(** C6, amended: the notebooks construct TensorNodes at 14 places, seven
    calls of [nengo_dl.TensorNode] and seven calls of [nengo_dl.tensor_layer]
    that are given a function of [tf.layers] ([batch_normalization] in
    from-tensorflow; [conv2d] three times, [average_pooling2d] twice and
    [dense] in spiking-mnist), which is then the function of the node.  Of
    the seven calls of [nengo_dl.TensorNode], five are given a callable that
    returns the result of a [tf.*] operation ([tf.exp(x)],
    [tf.layers.batch_normalization(x, momentum=0.9)], [tf.add(t, x)],
    [tf.reshape(out, (1, 1))] with [out = tf.sin(t)], and
    [tf.nn.softmax(logits)]), the one given [KerasNode(model)] returns
    [self.model.call(images)], the result of calling the Keras model it
    holds, and the one given [TensorFunc()] returns its input [x] unchanged.
    The three other calls of [nengo_dl.tensor_layer], in spiking-mnist, are
    given [neuron_type], bound to [nengo.LIF(amplitude=0.01)], and construct
    Ensembles. *)
Theorem tensor_node_outputs :
  map (fun nb => map (fun tn => (callable_of tn, tensor_node_output (nb_code nb) tn))
                     (tensor_nodes (nb_code nb))) notebooks
  =
    [[(ELambda ["t"; "x"] (ECall (EAttr (EName "tf") "exp") [EName "x"] []),
       TfOperation)];
     [(EAttr (EAttr (EName "tf") "layers") "batch_normalization", TfFunction);
      (ELambda ["t"; "x"]
         (ECall (EAttr (EAttr (EName "tf") "layers") "batch_normalization")
            [EName "x"] [("momentum", ENum "0.9")]),
       TfOperation);
      (EName "tensor_func", TfOperation);
      (ECall (EName "TensorFunc") [] [], InputUnchanged)];
     [(EName "sin_func", TfOperation);
      (ECall (EName "KerasNode") [EName "model"] [], ModelCall);
      (ECall (EName "InceptionNode") [] [], TfOperation)];
     [(EAttr (EAttr (EName "tf") "layers") "conv2d", TfFunction);
      (EAttr (EAttr (EName "tf") "layers") "conv2d", TfFunction);
      (EAttr (EAttr (EName "tf") "layers") "average_pooling2d", TfFunction);
      (EAttr (EAttr (EName "tf") "layers") "conv2d", TfFunction);
      (EAttr (EAttr (EName "tf") "layers") "average_pooling2d", TfFunction);
      (EAttr (EAttr (EName "tf") "layers") "dense", TfFunction)]]
  /\ map (fun nb => map (tensor_node_returns (nb_code nb)) (tensor_nodes (nb_code nb)))
         notebooks
     =
    [[Some (ECall (EAttr (EName "tf") "exp") [EName "x"] [])];
     [None;
      Some
        (ECall (EAttr (EAttr (EName "tf") "layers") "batch_normalization") [
           EName "x"] [("momentum", ENum "0.9")]);
      Some (ECall (EAttr (EName "tf") "add") [EName "t"; EName "x"] []);
      Some (EName "x")];
     [Some
        (ECall (EAttr (EName "tf") "reshape")
           [EName "out"; ETuple [ENum "1"; ENum "1"]] []);
      Some (ECall (EAttr (EAttr (EName "self") "model") "call") [EName "images"] []);
      Some (ECall (EAttr (EAttr (EName "tf") "nn") "softmax") [EName "logits"] [])];
     [None; None; None; None; None; None]]
  /\ map (fun nb => length (List.filter is_tensor_node (tensor_nodes (nb_code nb))))
         notebooks
     = [1; 3; 3; 0]
  /\ map (fun nb => length (List.filter is_tensor_layer (tensor_nodes (nb_code nb))))
         notebooks
     = [0; 1; 0; 6]
  /\ map (fun nb => map callable_of (ensemble_layers (nb_code nb))) notebooks
     = [[]; []; []; [EName "neuron_type"; EName "neuron_type"; EName "neuron_type"]]
  /\ last_assignment "neuron_type" (nb_code spiking_mnist)
     = Some (ECall (EAttr (EName "nengo") "LIF") [] [("amplitude", ENum "0.01")]).
Proof. repeat split; vm_compute; reflexivity. Qed.

(** C7: each notebook is a linear script.  Its code cells run from top to
    bottom without reading an unbound name, and every name a code cell reads
    is a Python builtin or is bound by the cell itself or by an earlier cell
    of the notebook. *)
Theorem notebooks_are_linear_scripts (nb : notebook) :
  In nb notebooks ->
  is_Some (run_notebook nb)
  /\ forall i c x, code_cells nb !! i = Some c -> In x (cell_refs c) ->
       In x builtins \/ In x (cell_binds c) \/ bound_earlier (code_cells nb) i x.
Proof.
  intros Hnb.
  assert (Hrun : is_Some (run_notebook nb)).
  { simpl in Hnb. destruct Hnb as [<-|[<-|[<-|[<-|[]]]]]; vm_compute; eauto. }
  split; [exact Hrun|]. destruct Hrun as [G' Hrun].
  exact (run_cells_sound _ _ _ Hrun).
Qed.

(** The class [InceptionNode] of tensorflow-models.ipynb reads [slim], which
    the first code cell imports. *)
Lemma notebooks_are_linear_scripts_witness :
  In "slim" builtins \/ In "slim" (cell_binds tensorflow_models_cell29)
  \/ bound_earlier (code_cells tensorflow_models) 13 "slim".
Proof.
  apply (proj2 (notebooks_are_linear_scripts tensorflow_models
                  (or_intror (or_intror (or_introl eq_refl))))
               13 tensorflow_models_cell29 "slim").
  - reflexivity.
  - vm_compute. tauto.
Defined.

(** On a writable file the handler raises the exception it was given; on a
    read-only file of the user it makes the file writable and the second
    [unlink] removes it; on a file of another user [os.chmod] raises and
    [func] is not called. *)
Example onerror_on_a_writable_file :
  onerror posix_access posix_chmod unlink "models/README.md" permission_denied
          {| os := {| uid := 1000;
                      files := {[ "models/README.md"
                                  := {| file_owner := 1000; file_mode := 420 |} ]} |};
             log := [] |}
  = Raises PermissionError
           {| os := {| uid := 1000;
                       files := {[ "models/README.md"
                                   := {| file_owner := 1000; file_mode := 420 |} ]} |};
              log := [EvAccess "models/README.md" W_OK; EvRaise PermissionError] |}.
Proof. vm_compute. reflexivity. Qed.

Example onerror_on_a_read_only_file :
  onerror posix_access posix_chmod unlink "models/.git/objects/pack/pack-1.idx"
          permission_denied read_only_pack
  = Returns tt
            {| os := {| uid := 1000; files := ∅ |};
               log := [EvAccess "models/.git/objects/pack/pack-1.idx" W_OK;
                       EvChmod "models/.git/objects/pack/pack-1.idx" S_IWUSR;
                       EvCall "models/.git/objects/pack/pack-1.idx"] |}.
Proof. vm_compute. reflexivity. Qed.

Example onerror_on_a_file_of_another_user :
  onerror posix_access posix_chmod unlink "models/README.md" permission_denied
          file_of_another_user
  = Raises PermissionError
           {| os := os file_of_another_user;
              log := [EvAccess "models/README.md" W_OK;
                      EvChmod "models/README.md" S_IWUSR] |}.
Proof. vm_compute. reflexivity. Qed.

(** C8, as stated, fails: a path that is not writable is not always retried.
    Where [models] does not exist, [os.access] answers false, [os.chmod]
    raises [FileNotFoundError], and the handler ends without having called
    [func]. *)
Lemma onerror_does_not_retry_on_a_missing_path :
  posix_access "models" W_OK (os nothing_cloned) = Ok false (os nothing_cloned)
  /\ onerror posix_access posix_chmod unlink "models" permission_denied nothing_cloned
     = Raises FileNotFoundError
              {| os := os nothing_cloned;
                 log := [EvAccess "models" W_OK; EvChmod "models" S_IWUSR] |}
  /\ List.filter is_call_event
       (log (final (onerror posix_access posix_chmod unlink "models" permission_denied
                            nothing_cloned)))
     = [].
Proof. repeat split; vm_compute; reflexivity. Qed.

(** C8, amended: whatever the system answers, the handler raises the
    exception it was given, [exc_info[1]], when [os.access(path, os.W_OK)]
    returns true, and its [raise] statement runs in that case only.  When
    [os.access] returns false it calls [os.chmod(path, stat.S_IWUSR)], the
    mode being the owner-write bit alone; if [os.chmod] returns, it calls
    [func(path)] exactly once, in the state [os.chmod] left, and returns or
    raises as that call does; if [os.chmod] raises, that exception is the
    handler's and [func] is not called. *)
Theorem onerror_reraises_iff_writable_and_retries_when_chmod_returns
  {S E : Type}
  (access : string -> Z -> S -> ran bool) (chmod : string -> Z -> S -> ran unit)
  (func : operation) (path : string)
  (ty : string) (e : E) (tb : list string) (w : world (S := S) (E := E)) :
  let o := onerror access chmod func path (ty, e, tb) w in
  let did := drop (length (log w)) (log (final o)) in
  (forall s0, access path W_OK (os w) = Ok true s0 ->
     o = Raises e {| os := s0; log := log w ++ [EvAccess path W_OK; EvRaise e] |})
  /\ (existsb is_raise_event did = true
      <-> exists s0, access path W_OK (os w) = Ok true s0)
  /\ (forall s0, access path W_OK (os w) = Ok false s0 ->
        (forall u s1, chmod path S_IWUSR s0 = Ok u s1 ->
           did = [EvAccess path W_OK; EvChmod path S_IWUSR; EvCall path]
           /\ List.filter is_call_event did = [EvCall path]
           /\ match func path s1 with
              | Ok _ s2 =>
                  o = Returns tt
                        {| os := s2;
                           log := log w ++ [EvAccess path W_OK; EvChmod path S_IWUSR;
                                            EvCall path] |}
              | Fail e2 s2 =>
                  o = Raises e2
                        {| os := s2;
                           log := log w ++ [EvAccess path W_OK; EvChmod path S_IWUSR;
                                            EvCall path] |}
              end)
        /\ (forall e1 s1, chmod path S_IWUSR s0 = Fail e1 s1 ->
              o = Raises e1 {| os := s1;
                               log := log w ++ [EvAccess path W_OK;
                                                EvChmod path S_IWUSR] |}
              /\ List.filter is_call_event did = []))
  /\ (forall n, Z.testbit S_IWUSR n = (n =? 7)%Z).
Proof.
  intros o did.
  pose proof (onerror_outcome access chmod func path (ty, e, tb) w) as Ho.
  pose proof (onerror_did access chmod func path (ty, e, tb) w) as Hd.
  fold o in Ho. fold o did in Hd. simpl in Ho, Hd.
  split; [|split; [|split]].
  - intros s0 Ha. now rewrite Ha in Ho.
  - rewrite Hd. destruct (access path W_OK (os w)) as [[|] s0|e0 s0]; simpl.
    + split; eauto.
    + destruct (chmod path S_IWUSR s0) as [[] s1|e1 s1]; simpl;
        (split; [discriminate|intros [s Hs]; discriminate]).
    + split; [discriminate|intros [s Hs]; discriminate].
  - intros s0 Ha. rewrite Ha in Ho, Hd. split.
    + intros u s1 Hc. rewrite Hc in Ho, Hd. rewrite Hd.
      split; [reflexivity|]. split; [reflexivity|].
      destruct (func path s1) as [[] s2|e2 s2]; exact Ho.
    + intros e1 s1 Hc. rewrite Hc in Ho, Hd. rewrite Hd. split; [exact Ho|reflexivity].
  - intros n. change S_IWUSR with (2 ^ 7)%Z.
    destruct (Z.ltb_spec n 0) as [Hn|Hn].
    + rewrite Z.testbit_neg_r by lia. symmetry. apply Z.eqb_neq. lia.
    + rewrite Z.pow2_bits_eqb by lia. apply Z.eqb_sym.
Qed.

(** A label out of range is an [IndexError]; a negative label counts from
    the last column, as NumPy has it. *)
Example one_hot_label_out_of_range : one_hot [tt] [10]%Z = None.
Proof. reflexivity. Qed.

Example one_hot_negative_label :
  one_hot [tt] [-1]%Z = Some [[0; 0; 0; 0; 0; 0; 0; 0; 0; 1]]%Z.
Proof. reflexivity. Qed.

(** C9: for [n] images and [n] labels in 0..9, [one_hot] has shape
    [(n, 10)], and row [i] has a 1 in the column of label [i] and a 0 in
    every other column. *)
Theorem one_hot_has_a_single_one_per_row {A : Type} (data0 : list A) (labels : list Z) :
  length labels = length data0 ->
  Forall (fun l => 0 <= l <= 9)%Z labels ->
  exists m, one_hot data0 labels = Some m
    /\ length m = length data0
    /\ Forall (fun row => length row = 10) m
    /\ forall i l, labels !! i = Some l ->
         exists row, m !! i = Some row
           /\ forall j, j < 10 ->
                row !! j = Some (if decide (j = Z.to_nat l) then 1%Z else 0%Z).
Proof.
  intros Hlen Hl. exists (map one_hot_row labels).
  split; [now apply one_hot_rows|].
  split; [now rewrite length_map|].
  split.
  - apply List.Forall_forall. intros row Hrow.
    apply in_map_iff in Hrow as (l & <- & _). apply one_hot_row_length.
  - intros i l Hi. exists (one_hot_row l). split.
    + now rewrite list_lookup_fmap, Hi.
    + intros j Hj. apply one_hot_row_lookup; [|exact Hj].
      rewrite List.Forall_forall in Hl. apply Hl.
      apply list_elem_of_In. eapply list_elem_of_lookup_2. exact Hi.
Qed.

(** Three images with the labels 3, 0 and 9. *)
Lemma one_hot_has_a_single_one_per_row_witness :
  exists m, one_hot [tt; tt; tt] [3; 0; 9]%Z = Some m
    /\ length m = 3
    /\ Forall (fun row => length row = 10) m
    /\ forall i l, [3; 0; 9]%Z !! i = Some l ->
         exists row, m !! i = Some row
           /\ forall j, j < 10 ->
                row !! j = Some (if decide (j = Z.to_nat l) then 1%Z else 0%Z).
Proof.
  apply (one_hot_has_a_single_one_per_row [tt; tt; tt] [3; 0; 9]%Z).
  - reflexivity.
  - repeat constructor; lia.
Defined.

(** Equal probabilities keep the order of their indices: the sort is
    stable. *)
Example sorted_inds_of_six_classes :
  sorted_inds [1 # 10; 5 # 10; 2 # 10; 5 # 10; 0; 3 # 10]%Q = [1; 3; 5; 2; 0; 4].
Proof. reflexivity. Qed.

(** C10: for 1001 class probabilities, [sorted_inds] is a permutation of
    the indices 0..1000 in order of non-increasing probability, and the five
    indices printed are its first five: no other class is more probable than
    any of them. *)
Theorem sorted_inds_are_by_decreasing_probability (probabilities : list Q) :
  length probabilities = 1001 ->
  Permutation (sorted_inds probabilities) (seq 0 1001)
  /\ (forall k i j,
        sorted_inds probabilities !! k = Some i ->
        sorted_inds probabilities !! S k = Some j ->
        (prob probabilities j <= prob probabilities i)%Q)
  /\ exists top, printed probabilities = Some top
       /\ top = take 5 (sorted_inds probabilities)
       /\ forall i j, In i top -> j < 1001 -> ~ In j top ->
            (prob probabilities j <= prob probabilities i)%Q.
Proof.
  intros Hlen.
  pose proof (sorted_inds_perm probabilities) as Hperm. rewrite Hlen in Hperm.
  split; [exact Hperm|]. split.
  - intros k i j Hi Hj. apply (sorted_inds_ordered probabilities k (S k)); auto.
  - exists (take 5 (sorted_inds probabilities)).
    split; [apply printed_take; lia|]. split; [reflexivity|].
    intros i j Hi Hj Hnj.
    apply list_elem_of_In, list_elem_of_lookup in Hi as [a Ha].
    apply lookup_take_Some in Ha as [Ha Ha5].
    assert (Hjs : j ∈ sorted_inds probabilities).
    { rewrite Hperm. apply list_elem_of_In, in_seq. lia. }
    apply list_elem_of_lookup in Hjs as [b Hb].
    apply (sorted_inds_ordered probabilities a b); [|assumption..].
    destruct (Nat.lt_ge_cases b 5) as [Hb5|Hb5]; [|lia].
    exfalso. apply Hnj. apply list_elem_of_In.
    eapply list_elem_of_lookup_2. apply lookup_take_Some. eauto.
Qed.

(** The uniform distribution over the 1001 classes. *)
Lemma sorted_inds_are_by_decreasing_probability_witness :
  Permutation (sorted_inds uniform) (seq 0 1001).
Proof.
  refine (proj1 (sorted_inds_are_by_decreasing_probability uniform _)).
  vm_compute. reflexivity.
Defined.

(** * Further properties of the computations *)

(** ** The [onerror] handler: every way it can end *)

(** X1: whatever the system answers, [onerror] returns normally exactly
    when [os.access] returned false, [os.chmod] returned, and the second
    [func(path)] returned: the handler never swallows a failure.  The state
    it leaves is the one [func] left, and it has called [os.access],
    [os.chmod] and [func] once each and run no [raise]. *)
Theorem onerror_returns_iff_the_retry_succeeds
  {S E : Type}
  (access : string -> Z -> S -> ran bool) (chmod : string -> Z -> S -> ran unit)
  (func : operation) (path : string) (ei : exc_info) (w w' : world (S := S) (E := E)) :
  onerror access chmod func path ei w = Returns tt w'
  <-> exists s0 u s1 v,
        access path W_OK (os w) = Ok false s0
        /\ chmod path S_IWUSR s0 = Ok u s1
        /\ func path s1 = Ok v (os w')
        /\ log w' = log w ++ [EvAccess path W_OK; EvChmod path S_IWUSR; EvCall path].
Proof.
  rewrite onerror_outcome.
  destruct (access path W_OK (os w)) as [[|] s0|e0 s0] eqn:Ha.
  - split; [discriminate|]. intros (? & ? & ? & ? & H & _). discriminate.
  - destruct (chmod path S_IWUSR s0) as [u s1|e1 s1] eqn:Hc.
    + destruct (func path s1) as [v s2|e2 s2] eqn:Hf; split.
      * intros [= <-]. exists s0, u, s1, v. auto.
      * intros (s0' & u' & s1' & v' & [= <-] & Hc' & Hf' & Hlog).
        rewrite Hc in Hc'. injection Hc' as <- <-.
        rewrite Hf in Hf'. injection Hf' as _ ->.
        destruct w' as [s' l']. simpl in *. now rewrite Hlog.
      * discriminate.
      * intros (s0' & u' & s1' & v' & [= <-] & Hc' & Hf' & _).
        rewrite Hc in Hc'. injection Hc' as <- <-.
        rewrite Hf in Hf'. discriminate.
    + split; [discriminate|].
      intros (s0' & u' & s1' & v' & [= <-] & Hc' & _).
      rewrite Hc in Hc'. discriminate.
  - split; [discriminate|]. intros (? & ? & ? & ? & H & _). discriminate.
Qed.

(** X2: whatever the system answers, when [onerror] raises it is in one of
    four ways.  [os.access] raised: the exception is its own.  [os.access]
    returned true: the exception is the one the handler was given.
    [os.chmod] raised (the path does not exist, or the user may not change
    it): the exception is its own, [func] is not called and the exception
    the handler was given is lost.  [os.chmod] returned and the second
    [func(path)] raised: the exception is the one of that call.  In each
    case the state is the one the last call left. *)
Theorem onerror_raises_in_four_ways
  {S E : Type}
  (access : string -> Z -> S -> ran bool) (chmod : string -> Z -> S -> ran unit)
  (func : operation) (path : string) (ei : exc_info) (w w' : world (S := S) (E := E))
  (e : E) :
  onerror access chmod func path ei w = Raises e w' ->
  (access path W_OK (os w) = Fail e (os w')
   /\ log w' = log w ++ [EvAccess path W_OK])
  \/ (access path W_OK (os w) = Ok true (os w')
      /\ e = snd (fst ei)
      /\ log w' = log w ++ [EvAccess path W_OK; EvRaise e])
  \/ (exists s0,
        access path W_OK (os w) = Ok false s0
        /\ chmod path S_IWUSR s0 = Fail e (os w')
        /\ log w' = log w ++ [EvAccess path W_OK; EvChmod path S_IWUSR])
  \/ (exists s0 u s1,
        access path W_OK (os w) = Ok false s0
        /\ chmod path S_IWUSR s0 = Ok u s1
        /\ func path s1 = Fail e (os w')
        /\ log w' = log w ++ [EvAccess path W_OK; EvChmod path S_IWUSR; EvCall path]).
Proof.
  rewrite onerror_outcome.
  destruct (access path W_OK (os w)) as [[|] s0|e0 s0] eqn:Ha.
  - intros [= <- <-]. right. left. auto.
  - destruct (chmod path S_IWUSR s0) as [u s1|e1 s1] eqn:Hc.
    + destruct (func path s1) as [v s2|e2 s2] eqn:Hf; [discriminate|].
      intros [= <- <-]. right. right. right. exists s0, u, s1. auto.
    + intros [= <- <-]. right. right. left. exists s0. auto.
  - intros [= <- <-]. left. auto.
Qed.

(** A read-only directory of the user that is not empty: [os.rmdir] fails
    on it again after the handler has made it writable. *)
Lemma onerror_raises_in_four_ways_witness :
  let path := "models/.git/objects/pack/pack-1.idx" in
  let e := OSError "Directory not empty" in
  let s1 := {| uid := 1000;
               files := {[ path := {| file_owner := 1000; file_mode := S_IWUSR |} ]} |} in
  let w' := {| os := s1;
               log := [EvAccess path W_OK; EvChmod path S_IWUSR; EvCall path] |} in
  (posix_access path W_OK (os read_only_pack) = Fail e (os w')
   /\ log w' = log read_only_pack ++ [EvAccess path W_OK])
  \/ (posix_access path W_OK (os read_only_pack) = Ok true (os w')
      /\ e = snd (fst permission_denied)
      /\ log w' = log read_only_pack ++ [EvAccess path W_OK; EvRaise e])
  \/ (exists s0,
        posix_access path W_OK (os read_only_pack) = Ok false s0
        /\ posix_chmod path S_IWUSR s0 = Fail e (os w')
        /\ log w' = log read_only_pack ++ [EvAccess path W_OK; EvChmod path S_IWUSR])
  \/ (exists s0 u s1,
        posix_access path W_OK (os read_only_pack) = Ok false s0
        /\ posix_chmod path S_IWUSR s0 = Ok u s1
        /\ rmdir_not_empty path s1 = Fail e (os w')
        /\ log w' = log read_only_pack
                    ++ [EvAccess path W_OK; EvChmod path S_IWUSR; EvCall path]).
Proof.
  intros path e s1 w'.
  apply (onerror_raises_in_four_ways posix_access posix_chmod rmdir_not_empty path
           permission_denied read_only_pack w' e).
  vm_compute. reflexivity.
Defined.

(** ** The one-hot encoding: labels out of range and negative labels *)

Lemma norm_index_wrap (i : Z) (dim : nat) :
  (- Z.of_nat dim <= i < Z.of_nat dim)%Z ->
  norm_index i dim = Some (Z.to_nat (i mod Z.of_nat dim)).
Proof.
  intros Hi. unfold norm_index.
  destruct (Z.leb_spec 0 i) as [H0|H0].
  - destruct (Z.ltb_spec i (Z.of_nat dim)) as [H1|H1]; [|lia].
    simpl. now rewrite Z.mod_small by lia.
  - simpl. destruct (Z.leb_spec (- Z.of_nat dim) i) as [H1|H1]; [|lia].
    destruct (Z.ltb_spec i 0) as [H2|H2]; [|lia]. simpl.
    do 2 f_equal. apply Z.mod_unique with (q := (-1)%Z); lia.
Qed.

Lemma norm_index_out_of_range (i : Z) (dim : nat) :
  (i < - Z.of_nat dim \/ Z.of_nat dim <= i)%Z -> norm_index i dim = None.
Proof.
  intros Hi. unfold norm_index.
  destruct (Z.leb_spec 0 i), (Z.ltb_spec i (Z.of_nat dim)),
    (Z.leb_spec (- Z.of_nat dim) i), (Z.ltb_spec i 0); simpl; try reflexivity; lia.
Qed.

Lemma set_item_row_wrap (pre rest : list (list Z)) (row : list Z) (j v : Z) :
  (- Z.of_nat (length row) <= j < Z.of_nat (length row))%Z ->
  set_item (pre ++ row :: rest) (Z.of_nat (length pre), j) v
  = Some (pre ++ <[Z.to_nat (j mod Z.of_nat (length row)) := v]> row :: rest).
Proof.
  intros Hj. unfold set_item. simpl fst. simpl snd.
  rewrite norm_index_in_range, Nat2Z.id.
  2:{ rewrite length_app. simpl. lia. }
  simpl. rewrite list_lookup_middle by reflexivity. simpl.
  rewrite norm_index_wrap by exact Hj. simpl.
  f_equal. rewrite insert_app_r_alt by lia.
  now replace (length pre - length pre) with 0 by lia.
Qed.

Lemma set_item_row_out_of_range (pre rest : list (list Z)) (row : list Z) (j v : Z) :
  (j < - Z.of_nat (length row) \/ Z.of_nat (length row) <= j)%Z ->
  set_item (pre ++ row :: rest) (Z.of_nat (length pre), j) v = None.
Proof.
  intros Hj. unfold set_item. simpl fst. simpl snd.
  rewrite norm_index_in_range, Nat2Z.id.
  2:{ rewrite length_app. simpl. lia. }
  simpl. rewrite list_lookup_middle by reflexivity. simpl.
  now rewrite norm_index_out_of_range by exact Hj.
Qed.

(** Filling the rows after [pre] one by one stops at the first label that
    is not a column. *)
Lemma set_items_rows_wrap (labels : list Z) : forall pre : list (list Z),
  set_items (pre ++ replicate (length labels) (replicate 10 0%Z))
            (zip (map Z.of_nat (seq (length pre) (length labels))) labels) 1%Z
  = if forallb (fun l => (-10 <=? l) && (l <? 10))%Z labels
    then Some (pre ++ map (fun l => one_hot_row (l mod 10)) labels)
    else None.
Proof.
  induction labels as [|l labels IH]; intros pre.
  - reflexivity.
  - specialize (IH (pre ++ [one_hot_row (l mod 10)])).
    rewrite length_app in IH. simpl length in IH.
    replace (length pre + 1) with (S (length pre)) in IH by lia.
    rewrite <- !app_assoc in IH. simpl app in IH.
    unfold one_hot_row at 1 in IH.
    remember (replicate 10 0%Z) as zrow eqn:Hz.
    assert (Hlen : length zrow = 10) by (subst; apply length_replicate).
    simpl. destruct (Z.leb_spec (-10) l) as [H0|H0];
      [destruct (Z.ltb_spec l 10) as [H1|H1]|]; simpl.
    + rewrite set_item_row_wrap by (rewrite Hlen; lia). simpl.
      rewrite Hlen. subst zrow. exact IH.
    + now rewrite set_item_row_out_of_range by (rewrite Hlen; lia).
    + now rewrite set_item_row_out_of_range by (rewrite Hlen; lia).
Qed.

Lemma one_hot_rows_wrap {A : Type} (data0 : list A) (labels : list Z) :
  length labels = length data0 ->
  one_hot data0 labels
  = if forallb (fun l => (-10 <=? l) && (l <? 10))%Z labels
    then Some (map (fun l => one_hot_row (l mod 10)) labels)
    else None.
Proof.
  intros Hlen. unfold one_hot, setitem, broadcast, np_arange, np_zeros.
  rewrite length_map, length_seq, <- Hlen, Nat.eqb_refl. simpl.
  apply (set_items_rows_wrap labels []).
Qed.

Lemma labels_in_range (labels : list Z) :
  forallb (fun l => (-10 <=? l) && (l <? 10))%Z labels = true
  <-> Forall (fun l => -10 <= l < 10)%Z labels.
Proof.
  rewrite forallb_forall, List.Forall_forall. split; intros H l Hl.
  - specialize (H l Hl). lia.
  - specialize (H l Hl). lia.
Qed.

Lemma labels_out_of_range (labels : list Z) :
  forallb (fun l => (-10 <=? l) && (l <? 10))%Z labels = false
  <-> Exists (fun l => l < -10 \/ 10 <= l)%Z labels.
Proof.
  induction labels as [|l labels IH]; simpl.
  - split; [discriminate|]. intros H. inversion H.
  - rewrite andb_false_iff, IH. split.
    + intros [H|H]; [left; lia|now right].
    + intros H. inversion H; subst; [left; lia|now right].
Qed.

(** X3: with as many labels as images, the encoding fails (an
    [IndexError]) exactly when some label is below -10 or above 9; a label
    from -10 to -1 is taken as NumPy takes a negative index, as the column
    ten further on. *)
Theorem one_hot_fails_iff_a_label_is_out_of_range
  {A : Type} (data0 : list A) (labels : list Z) :
  length labels = length data0 ->
  (one_hot data0 labels = None <-> Exists (fun l => l < -10 \/ 10 <= l)%Z labels)
  /\ (Forall (fun l => -10 <= l < 10)%Z labels ->
      one_hot data0 labels = Some (map (fun l => one_hot_row (l mod 10)) labels)).
Proof.
  intros Hlen. rewrite (one_hot_rows_wrap data0 labels Hlen).
  rewrite <- labels_out_of_range, <- labels_in_range.
  destruct (forallb _ labels); split; try tauto; try discriminate.
  split; [discriminate|congruence].
Qed.

(** Three images whose labels are 3, -1 and 0. *)
Lemma one_hot_fails_iff_a_label_is_out_of_range_witness :
  one_hot [tt; tt; tt] [3; -1; 0]%Z
  = Some (map (fun l => one_hot_row (l mod 10)) [3; -1; 0]%Z).
Proof.
  refine (proj2 (one_hot_fails_iff_a_label_is_out_of_range
                   [tt; tt; tt] [3; -1; 0]%Z _) _).
  - reflexivity.
  - repeat constructor; lia.
Defined.

(** ** Reading the labels back *)

Lemma np_argmax_one_hot_row (k : nat) :
  k < 10 -> np_argmax (<[k := 1%Z]> (replicate 10 0%Z)) = Some k.
Proof.
  intros Hk. do 10 (destruct k as [|k]; [reflexivity|]). lia.
Qed.

(** X4: [np.argmax] reads the label back from its row of the encoding, which
    is what the titles of the plotted training images rely on: for labels in
    0..9 the title of image [i] is label [i]. *)
Theorem title_is_the_label
  {A : Type} (data0 : list A) (labels : list Z) (m : list (list Z)) (i : nat) (l : Z) :
  length labels = length data0 ->
  Forall (fun l => 0 <= l <= 9)%Z labels ->
  one_hot data0 labels = Some m ->
  labels !! i = Some l ->
  title m i = Some (Z.to_nat l).
Proof.
  intros Hlen Hl Hm Hi.
  rewrite (one_hot_rows data0 labels Hlen Hl) in Hm. injection Hm as <-.
  unfold title. rewrite list_lookup_fmap, Hi. simpl.
  apply np_argmax_one_hot_row.
  rewrite List.Forall_forall in Hl.
  assert (0 <= l <= 9)%Z; [|lia].
  apply Hl, list_elem_of_In. eapply list_elem_of_lookup_2. exact Hi.
Qed.

(** The second of three images, labelled 0. *)
Lemma title_is_the_label_witness :
  title [one_hot_row 3; one_hot_row 0; one_hot_row 9] 1 = Some 0.
Proof.
  apply (title_is_the_label [tt; tt; tt] [3; 0; 9]%Z _ 1 0%Z).
  - reflexivity.
  - repeat constructor; lia.
  - reflexivity.
  - reflexivity.
Defined.

(** ** The order of [sorted_inds] among equal probabilities *)

Lemma by_key_then_index_le (x y : nat * Q) :
  (snd x <= snd y)%Q -> fst x < fst y -> by_key_then_index x y.
Proof.
  intros Hle Hlt. unfold by_key_then_index.
  apply Qle_lteq in Hle as [H|H]; [now left|now right].
Qed.

Lemma by_key_then_index_key (x y : nat * Q) :
  by_key_then_index x y -> (snd x <= snd y)%Q.
Proof.
  intros [H|[H _]]; [now apply Qlt_le_weak|now apply Qle_lteq; right].
Qed.

(** Inserting a pair whose index is below every index of the list keeps the
    list in order. *)
Lemma insert_by_key_then_index (x : nat * Q) (l : list (nat * Q)) :
  StronglySorted by_key_then_index l ->
  Forall (fun z => fst x < fst z) l ->
  StronglySorted by_key_then_index (insert snd x l).
Proof.
  induction 1 as [|y l Hl IH Hy]; intros Hx; simpl.
  - repeat constructor.
  - inversion Hx as [|? ? Hxy Hxl]; subst.
    destruct (Qle_bool (snd x) (snd y)) eqn:Hle.
    + apply Qle_bool_iff in Hle.
      constructor; [now constructor|].
      constructor; [now apply by_key_then_index_le|].
      rewrite List.Forall_forall in Hy, Hxl. apply List.Forall_forall.
      intros z Hz. apply by_key_then_index_le; [|now apply Hxl].
      apply Qle_trans with (snd y); [exact Hle|].
      now apply by_key_then_index_key, Hy.
    + constructor; [now apply IH|].
      apply (Permutation_Forall (Permutation_sym (insert_perm snd x l))).
      constructor; [|exact Hy].
      left. apply Qnot_le_lt. intros H. apply Qle_bool_iff in H. congruence.
Qed.

Lemma sorted_by_key_then_index (l : list (nat * Q)) :
  StronglySorted (fun x y => fst x < fst y) l ->
  StronglySorted by_key_then_index (sorted snd l).
Proof.
  induction 1 as [|x l Hl IH Hx]; simpl.
  - constructor.
  - apply insert_by_key_then_index; [exact IH|].
    apply (Permutation_Forall (Permutation_sym (sorted_perm snd l))). exact Hx.
Qed.

Lemma enumerate_increasing {A : Type} (l : list A) : forall s,
  StronglySorted (fun x y : nat * A => fst x < fst y) (zip (seq s (length l)) l).
Proof.
  induction l as [|x l IH]; intros s; simpl.
  - constructor.
  - constructor; [apply IH|].
    apply List.Forall_forall. intros [i y] Hin. simpl.
    apply list_elem_of_In, elem_of_zip_l, elem_of_seq in Hin. lia.
Qed.

(** X5: for any number of classes, a class listed earlier in [sorted_inds]
    is strictly more probable than one listed later, or as probable and of
    smaller index: the sort being stable, equal probabilities keep the order
    of their indices. *)
Theorem sorted_inds_break_ties_by_index (probabilities : list Q) (a b i j : nat) :
  a < b ->
  sorted_inds probabilities !! a = Some i ->
  sorted_inds probabilities !! b = Some j ->
  (prob probabilities j < prob probabilities i)%Q
  \/ ((prob probabilities i == prob probabilities j)%Q /\ i < j).
Proof.
  unfold sorted_inds. intros Hab Ha Hb.
  rewrite list_lookup_fmap in Ha, Hb.
  destruct (sorted snd _ !! a) as [[i' qa]|] eqn:Ea; [|discriminate].
  destruct (sorted snd _ !! b) as [[j' qb]|] eqn:Eb; [|discriminate].
  simpl in Ha, Hb. injection Ha as ->. injection Hb as ->.
  pose proof (StronglySorted_lookup _ _
                (sorted_by_key_then_index _ (enumerate_increasing _ 0))
                _ _ _ _ Hab Ea Eb) as Hlt.
  unfold by_key_then_index in Hlt. simpl in Hlt.
  rewrite (sorted_pairs _ _ _ _ Ea), (sorted_pairs _ _ _ _ Eb) in Hlt.
  destruct Hlt as [H|[H Hij]].
  - left. now apply Qopp_lt_compat in H; rewrite !Qopp_involutive in H.
  - right. split; [|exact Hij].
    rewrite <- (Qopp_involutive (prob probabilities i)),
            <- (Qopp_involutive (prob probabilities j)).
    now rewrite H.
Qed.

(** Classes 1 and 3 are equally probable, and 1 is listed first. *)
Lemma sorted_inds_break_ties_by_index_witness :
  let probabilities := [1 # 10; 5 # 10; 2 # 10; 5 # 10; 0; 3 # 10]%Q in
  (prob probabilities 3 < prob probabilities 1)%Q
  \/ ((prob probabilities 1 == prob probabilities 3)%Q /\ 1 < 3).
Proof.
  intros probabilities.
  apply (sorted_inds_break_ties_by_index probabilities 0 1 1 3).
  - lia.
  - reflexivity.
  - reflexivity.
Defined.

(** ** The five printed classes *)

Lemma sorted_inds_length (probabilities : list Q) :
  length (sorted_inds probabilities) = length probabilities.
Proof.
  rewrite (Permutation_length (sorted_inds_perm probabilities)). apply length_seq.
Qed.

(** X6: the loop that prints the top five fails (an [IndexError]) exactly
    when there are fewer than five classes; otherwise it prints five
    different classes, each an index of [probabilities]. *)
Theorem printed_iff_five_classes (probabilities : list Q) :
  (printed probabilities = None <-> length probabilities < 5)
  /\ (forall top, printed probabilities = Some top ->
        length top = 5 /\ NoDup top
        /\ Forall (fun i => i < length probabilities) top).
Proof.
  pose proof (sorted_inds_length probabilities) as Hlen.
  pose proof (sorted_inds_perm probabilities) as Hperm.
  destruct (Nat.lt_ge_cases (length probabilities) 5) as [Hlt|Hge].
  - assert (Hnone : printed probabilities = None).
    { unfold printed.
      destruct (sorted_inds probabilities) as [|x0 [|x1 [|x2 [|x3 [|x4 rest]]]]];
        simpl in Hlen; try reflexivity. lia. }
    split; [tauto|]. intros top Htop. congruence.
  - rewrite (printed_take probabilities Hge).
    split; [split; [discriminate|lia]|].
    intros top [= <-]. split; [|split].
    + rewrite length_take. lia.
    + apply sublist_NoDup with (sorted_inds probabilities); [|apply sublist_take].
      rewrite Hperm. apply NoDup_seq.
    + apply Forall_take. apply List.Forall_forall. intros i Hi.
      apply list_elem_of_In in Hi. rewrite Hperm in Hi.
      apply elem_of_seq in Hi. lia.
Qed.

(** ** The minibatches of the TensorFlow training loop *)

Lemma slice_take_drop {A : Type} (l : list A) (j s : nat) :
  j <= length l ->
  slice l (Some (Z.of_nat j)) (Some (Z.of_nat j + Z.of_nat s)%Z) = take s (drop j l).
Proof.
  intros Hj. unfold slice, slice_bound. simpl.
  destruct (Z.ltb_spec (Z.of_nat j) 0) as [H|_]; [lia|].
  destruct (Z.ltb_spec (Z.of_nat j + Z.of_nat s) 0) as [H|_]; [lia|].
  replace (Z.to_nat (Z.min (Z.of_nat j) (Z.of_nat (length l)))) with j by lia.
  destruct (Nat.le_gt_cases (j + s) (length l)) as [Hle|Hgt].
  - f_equal. lia.
  - rewrite !take_ge; [reflexivity| |]; rewrite length_drop; lia.
Qed.

Lemma range_of_offsets (n s : nat) :
  0 < s ->
  range 0 (Z.of_nat n) (Z.of_nat s)
  = Some (map (fun k => Z.of_nat (k * s)) (seq 0 ((n + s - 1) / s))).
Proof.
  intros Hs. unfold range.
  destruct (Z.eqb_spec (Z.of_nat s) 0) as [H|_]; [lia|].
  destruct (Z.ltb_spec 0 (Z.of_nat s)) as [_|H]; [|lia].
  replace (Z.of_nat n - 0 + Z.of_nat s - 1)%Z with (Z.of_nat (n + s - 1)) by lia.
  rewrite <- Nat2Z.inj_div, Nat2Z.id. f_equal.
  apply map_ext. intros k. lia.
Qed.

Lemma offsets_in_range (n s k : nat) :
  0 < s -> k < (n + s - 1) / s -> k * s < n.
Proof.
  intros Hs Hk.
  pose proof (Nat.Div0.mul_div_le (n + s - 1) s). nia.
Qed.

(** The feeds of an epoch are the successive blocks of [s] rows. *)
Lemma epoch_feeds_blocks {A : Type} (data : list A) (s : nat) :
  0 < s ->
  epoch_feeds data (Z.of_nat s)
  = Some (map (fun k => (take s (drop (k * s) data), take s (drop (k * s) data)))
              (seq 0 ((length data + s - 1) / s))).
Proof.
  intros Hs. unfold epoch_feeds. rewrite range_of_offsets by exact Hs. simpl.
  f_equal. rewrite List.map_map. apply map_ext_in. intros k Hk.
  apply in_seq in Hk. unfold feed_dict.
  rewrite slice_take_drop; [reflexivity|].
  pose proof (offsets_in_range (length data) s k Hs). lia.
Qed.

Lemma blocks_concat {A : Type} (s c : nat) : forall data : list A,
  length data <= c * s ->
  concat (map (fun k => take s (drop (k * s) data)) (seq 0 c)) = data.
Proof.
  induction c as [|c IH]; intros data Hlen.
  - destruct data; [reflexivity|simpl in Hlen; lia].
  - simpl seq. rewrite <- seq_shift. simpl. rewrite List.map_map.
    rewrite (map_ext _ (fun k => take s (drop (k * s) (drop s data)))).
    2:{ intros k. now rewrite drop_drop. }
    rewrite IH by (rewrite length_drop; lia).
    apply take_drop.
Qed.

Lemma blocks_cover (n s : nat) : 0 < s -> n <= (n + s - 1) / s * s.
Proof.
  intros Hs.
  pose proof (Nat.div_mod_eq (n + s - 1) s).
  pose proof (Nat.mod_upper_bound (n + s - 1) s). nia.
Qed.

(** X7: with a positive [minibatch_size], the loop over
    [range(0, len(data), minibatch_size)] feeds every row of the data exactly
    once and in order, the same rows as input and as target; no feed is
    empty and none has more than [minibatch_size] rows. *)
Theorem epoch_feeds_partition_the_data {A : Type} (data : list A) (minibatch_size : Z) :
  (0 < minibatch_size)%Z ->
  exists feeds, epoch_feeds data minibatch_size = Some feeds
    /\ concat (map fst feeds) = data
    /\ map snd feeds = map fst feeds
    /\ Forall (fun f => (0 < Z.of_nat (length (fst f)) <= minibatch_size)%Z) feeds.
Proof.
  intros Hs. rewrite <- (Z2Nat.id minibatch_size) by lia.
  set (s := Z.to_nat minibatch_size). assert (Hs' : 0 < s) by lia.
  eexists. split; [apply epoch_feeds_blocks; exact Hs'|].
  rewrite !List.map_map. simpl. split; [|split].
  - apply blocks_concat, blocks_cover, Hs'.
  - reflexivity.
  - apply List.Forall_forall. intros f Hf.
    apply in_map_iff in Hf as (k & <- & Hk). apply in_seq in Hk. simpl.
    rewrite length_take, length_drop.
    pose proof (offsets_in_range (length data) s k Hs'). lia.
Qed.

(** Five rows in minibatches of two. *)
Lemma epoch_feeds_partition_the_data_witness :
  exists feeds, epoch_feeds [1; 2; 3; 4; 5] 2 = Some feeds
    /\ concat (map fst feeds) = [1; 2; 3; 4; 5]
    /\ map snd feeds = map fst feeds
    /\ Forall (fun f => (0 < Z.of_nat (length (fst f)) <= 2)%Z) feeds.
Proof.
  apply (epoch_feeds_partition_the_data [1; 2; 3; 4; 5] 2). lia.
Defined.

(** X8: the feed at position [k] holds [minibatch_size] rows as long as
    that many are left from row [k * minibatch_size] on, and the remaining
    rows otherwise; there are as many feeds as the length of the data
    divided by [minibatch_size], rounded up.  So every feed has exactly
    [minibatch_size] rows, the shape of the placeholders, when
    [minibatch_size] divides the number of rows, and otherwise the last feed
    is shorter. *)
Theorem epoch_feeds_sizes {A : Type} (data : list A) (minibatch_size : Z) :
  (0 < minibatch_size)%Z ->
  exists feeds, epoch_feeds data minibatch_size = Some feeds
    /\ Z.of_nat (length feeds)
       = ((Z.of_nat (length data) + minibatch_size - 1) / minibatch_size)%Z
    /\ (forall k f, feeds !! k = Some f ->
          Z.of_nat (length (fst f))
          = Z.min minibatch_size (Z.of_nat (length data) - Z.of_nat k * minibatch_size))
    /\ ((Z.of_nat (length data) mod minibatch_size = 0)%Z ->
        Forall (fun f => Z.of_nat (length (fst f)) = minibatch_size) feeds)
    /\ ((Z.of_nat (length data) mod minibatch_size <> 0)%Z ->
        exists f, last feeds = Some f
          /\ Z.of_nat (length (fst f)) = (Z.of_nat (length data) mod minibatch_size)%Z).
Proof.
  intros Hs. rewrite <- (Z2Nat.id minibatch_size) by lia.
  set (s := Z.to_nat minibatch_size). assert (Hs' : 0 < s) by lia.
  remember (length data) as n eqn:En.
  set (c := (n + s - 1) / s).
  pose proof (Nat.div_mod_eq n s) as Hn.
  pose proof (Nat.mod_upper_bound n s ltac:(lia)) as Hr.
  pose proof (Nat.div_mod_eq (n + s - 1) s) as Hc. fold c in Hc.
  pose proof (Nat.mod_upper_bound (n + s - 1) s ltac:(lia)) as Hcr.
  assert (Hlen : forall k f,
            map (fun k => (take s (drop (k * s) data), take s (drop (k * s) data)))
                (seq 0 c) !! k = Some f ->
            k < c /\ k * s < n /\ length (fst f) = Nat.min s (n - k * s)).
  { intros k f Hk. rewrite list_lookup_fmap in Hk.
    destruct (seq 0 c !! k) as [k'|] eqn:Hk'; [|discriminate].
    apply lookup_seq in Hk' as [-> Hkc]. injection Hk as <-. simpl.
    split; [exact Hkc|]. split; [now apply offsets_in_range|].
    now rewrite length_take, length_drop, En. }
  eexists. split; [rewrite epoch_feeds_blocks, <- En by exact Hs'; reflexivity|].
  split; [|split; [|split]].
  - rewrite length_map, length_seq. unfold c.
    rewrite Nat2Z.inj_div. f_equal. lia.
  - intros k f Hk. apply Hlen in Hk as (_ & Hks & ->). lia.
  - intros Hmod. apply List.Forall_forall. intros f Hf.
    apply list_elem_of_In, list_elem_of_lookup in Hf as [k Hk].
    apply Hlen in Hk as (Hkc & Hks & ->).
    rewrite <- Nat2Z.inj_mod in Hmod.
    assert (Hq : n = s * (n / s)) by lia.
    assert (Hkq : k < n / s) by nia.
    assert (s <= n - k * s) by nia. lia.
  - intros Hmod. rewrite <- Nat2Z.inj_mod in Hmod |- *.
    assert (Hpos : 0 < n mod s) by lia.
    assert (Hcq : c = S (n / s)) by nia.
    destruct (last (map (fun k => (take s (drop (k * s) data),
                                    take s (drop (k * s) data))) (seq 0 c)))
      as [f|] eqn:Hlast.
    + exists f. split; [exact Hlast|].
      rewrite last_lookup, length_map, length_seq in Hlast.
      apply Hlen in Hlast as (_ & Hks & ->).
      replace (Init.Nat.pred c) with (n / s) in * by lia.
      assert (n - n / s * s = n mod s) by nia. lia.
    + apply last_None in Hlast. apply (f_equal length) in Hlast.
      rewrite length_map, length_seq in Hlast. simpl in Hlast. lia.
Qed.

(** Five rows in minibatches of two: three feeds, the last with one row. *)
Lemma epoch_feeds_sizes_witness :
  exists feeds, epoch_feeds [1; 2; 3; 4; 5] 2 = Some feeds
    /\ Z.of_nat (length feeds) = ((Z.of_nat 5 + 2 - 1) / 2)%Z
    /\ (forall k f, feeds !! k = Some f ->
          Z.of_nat (length (fst f)) = Z.min 2 (Z.of_nat 5 - Z.of_nat k * 2))
    /\ ((Z.of_nat 5 mod 2 = 0)%Z ->
        Forall (fun f => Z.of_nat (length (fst f)) = 2%Z) feeds)
    /\ ((Z.of_nat 5 mod 2 <> 0)%Z ->
        exists f, last feeds = Some f
          /\ Z.of_nat (length (fst f)) = (Z.of_nat 5 mod 2)%Z).
Proof.
  apply (epoch_feeds_sizes [1; 2; 3; 4; 5] 2). lia.
Defined.

(** X9: a [minibatch_size] of zero stops the loop with [range]'s
    [ValueError], and a negative one makes it run no step at all, without an
    error; so does a number of epochs that is not positive, whatever the
    [minibatch_size]. *)
Theorem training_feeds_without_a_positive_size
  {A : Type} (train_data : list A) (n_epochs minibatch_size : Z) :
  epoch_feeds train_data 0 = None
  /\ ((minibatch_size < 0)%Z -> epoch_feeds train_data minibatch_size = Some [])
  /\ ((n_epochs <= 0)%Z -> training_feeds train_data n_epochs minibatch_size = Some [])
  /\ ((0 < n_epochs)%Z -> training_feeds train_data n_epochs 0 = None)
  /\ ((0 < n_epochs)%Z -> (minibatch_size < 0)%Z ->
      training_feeds train_data n_epochs minibatch_size = Some []).
Proof.
  assert (Hneg : (minibatch_size < 0)%Z ->
                 epoch_feeds train_data minibatch_size = Some []).
  { intros Hs. unfold epoch_feeds, range.
    destruct (Z.eqb_spec minibatch_size 0) as [H|_]; [lia|].
    destruct (Z.ltb_spec 0 minibatch_size) as [H|_]; [lia|].
    assert (Hq : ((0 - Z.of_nat (length train_data) - minibatch_size - 1)
                  / - minibatch_size < 1)%Z)
      by (apply Z.div_lt_upper_bound; lia).
    replace (Z.to_nat _) with 0 by lia. reflexivity. }
  split; [reflexivity|]. split; [exact Hneg|].
  split; [|split].
  - intros Hn. unfold training_feeds, range. simpl.
    rewrite Z.div_1_r. replace (Z.to_nat _) with 0 by lia. reflexivity.
  - intros Hn. unfold training_feeds, range. simpl.
    rewrite Z.div_1_r.
    destruct (Z.to_nat (n_epochs - 0 + 1 - 1)) as [|k] eqn:Hk; [lia|].
    reflexivity.
  - intros Hn Hs. unfold training_feeds.
    destruct (range 0 n_epochs 1) as [epochs|] eqn:Hr; [|discriminate Hr].
    simpl. clear Hr. rewrite (Hneg Hs).
    induction epochs as [|e epochs IH]; [reflexivity|].
    simpl. destruct (mapM _ epochs) as [feeds|]; [|discriminate].
    simpl in *. congruence.
Qed.

(** The feeds of the whole loop are the feeds of an epoch, once per
    epoch. *)
Lemma training_feeds_epochs {A : Type} (train_data : list A) (e s : nat) :
  0 < s ->
  training_feeds train_data (Z.of_nat e) (Z.of_nat s)
  = Some (concat (replicate e
            (map (fun k => (take s (drop (k * s) train_data),
                            take s (drop (k * s) train_data)))
                 (seq 0 ((length train_data + s - 1) / s))))).
Proof.
  intros Hs. pose proof (epoch_feeds_blocks train_data s Hs) as Hepoch.
  set (epoch := map _ _) in *. clearbody epoch.
  unfold training_feeds, range. simpl. rewrite Z.div_1_r, Hepoch.
  replace (Z.to_nat (Z.of_nat e - 0 + 1 - 1)) with e by lia.
  assert (Hm : forall i, mapM (fun _ : Z => Some epoch)
                           (map (fun k => (0 + Z.of_nat k * 1)%Z) (seq i e))
                    = Some (replicate e epoch)).
  { induction e as [|e IH]; intros i; [reflexivity|].
    simpl. rewrite IH. reflexivity. }
  now rewrite Hm.
Qed.

(** The first [c] blocks of [s] rows are the first [c * s] rows. *)
Lemma blocks_prefix {A : Type} (s c : nat) : forall data : list A,
  concat (map (fun k => take s (drop (k * s) data)) (seq 0 c)) = take (c * s) data.
Proof.
  induction c as [|c IH]; intros data.
  - reflexivity.
  - simpl seq. rewrite <- seq_shift. simpl. rewrite List.map_map.
    rewrite (map_ext _ (fun k => take s (drop (k * s) (drop s data)))).
    2:{ intros k. now rewrite drop_drop. }
    rewrite IH. apply take_take_drop.
Qed.

Section steps.

Context {A S E : Type}.
Variable run : list (list A) * list (list A) -> S -> S + E.
Variable refused : list (list A) * list (list A) -> E.
Variable minibatch_size : Z.
Variable n_in : nat.

(** Steps on feeds that all fit, none of which raises, all run. *)
Lemma run_steps_all (feeds : list (list (list A) * list (list A))) :
  Forall (fun feed => fits minibatch_size n_in (fst feed)
                      && fits minibatch_size n_in (snd feed) = true) feeds ->
  (forall feed s, exists s', run feed s = inl s') ->
  forall done s, exists s',
    run_steps run refused minibatch_size n_in feeds done s
    = {| steps := done ++ feeds; session := s'; raised := None |}.
Proof.
  intros Hfit Hrun. induction Hfit as [|feed feeds Hfeed Hfeeds IH]; intros done s.
  - exists s. simpl. now rewrite app_nil_r.
  - simpl. unfold sess_run. rewrite Hfeed.
    destruct (Hrun feed s) as [s' ->].
    destruct (IH (done ++ [feed]) s') as [s'' ->].
    exists s''. now rewrite <- app_assoc.
Qed.

(** Steps stop at the latest at a feed that does not fit. *)
Lemma run_steps_stop (feeds : list (list (list A) * list (list A))) :
  forall k feed done s,
    feeds !! k = Some feed ->
    fits minibatch_size n_in (fst feed) && fits minibatch_size n_in (snd feed) = false ->
    is_Some (raised (run_steps run refused minibatch_size n_in feeds done s))
    /\ length (steps (run_steps run refused minibatch_size n_in feeds done s))
       <= length done + k.
Proof.
  induction feeds as [|f feeds IH]; intros k feed done s Hk Hfeed; [discriminate|].
  simpl. destruct k as [|k].
  - injection Hk as ->. unfold sess_run. rewrite Hfeed. simpl. split; [eauto|lia].
  - simpl in Hk. destruct (sess_run run refused minibatch_size n_in f s) as [s'|e].
    + destruct (IH k feed (done ++ [f]) s' Hk Hfeed) as [Hr Hl].
      split; [exact Hr|]. rewrite length_app in Hl. simpl in Hl. lia.
    + simpl. split; [eauto|lia].
Qed.

(** Where no step raises on a feed that fits, the steps stop exactly at the
    first feed that does not fit, with the error of that feed. *)
Lemma run_steps_refused (feeds : list (list (list A) * list (list A))) :
  (forall feed s, exists s', run feed s = inl s') ->
  forall k feed done s,
    feeds !! k = Some feed ->
    fits minibatch_size n_in (fst feed) && fits minibatch_size n_in (snd feed) = false ->
    Forall (fun feed => fits minibatch_size n_in (fst feed)
                        && fits minibatch_size n_in (snd feed) = true) (take k feeds) ->
    exists s',
      run_steps run refused minibatch_size n_in feeds done s
      = {| steps := done ++ take k feeds; session := s'; raised := Some (refused feed) |}.
Proof.
  intros Hrun. induction feeds as [|f feeds IH]; intros k feed done s Hk Hfeed Hfit;
    [discriminate|].
  simpl. destruct k as [|k].
  - injection Hk as ->. unfold sess_run. rewrite Hfeed. exists s.
    simpl. now rewrite app_nil_r.
  - simpl in Hk, Hfit. inversion Hfit as [|? ? Hf Hfit']; subst.
    unfold sess_run. rewrite Hf. destruct (Hrun f s) as [s' ->].
    destruct (IH k feed (done ++ [f]) s' Hk Hfeed Hfit') as [s'' ->].
    exists s''. now rewrite <- app_assoc.
Qed.

End steps.

(** A block of the data fits the placeholders exactly when it has [s]
    rows, the rows of the data having [n_in] entries. *)
Lemma fits_block {A : Type} (data : list (list A)) (s k n_in : nat) :
  Forall (fun row => length row = n_in) data ->
  fits (Z.of_nat s) n_in (take s (drop (k * s) data))
  = Nat.eqb (Nat.min s (length data - k * s)) s.
Proof.
  intros Hrows. unfold fits. rewrite length_take, length_drop.
  assert (Hall : forallb (fun row => Nat.eqb (length row) n_in)
                         (take s (drop (k * s) data)) = true).
  { apply forallb_forall. intros row Hin. apply Nat.eqb_eq.
    assert (Hblock : Forall (fun row => length row = n_in) (take s (drop (k * s) data)))
      by now apply Forall_take, Forall_drop.
    rewrite List.Forall_forall in Hblock. now apply Hblock. }
  rewrite Hall, andb_true_r.
  destruct (Nat.eqb_spec (Nat.min s (length data - k * s)) s);
    [apply Z.eqb_eq|apply Z.eqb_neq]; lia.
Qed.

(** X10: the training loop with [n_epochs > 0] and [minibatch_size > 0], on
    rows of [n_in] entries.  When [minibatch_size] divides the number of
    rows and no step raises, every feed fits the placeholders: the loop ends
    without an exception after [n_epochs] times the number of minibatches
    steps, and has fed the whole training data, in order, once per epoch.
    When [minibatch_size] does not divide the number of rows, the last feed
    of the first epoch is short and [sess.run] refuses it: the loop always
    ends with an exception, within the first epoch, and where no step raises
    before it, with that of the short feed after all the full ones. *)
Theorem training_loop_needs_full_minibatches
  {A S E : Type}
  (run : list (list A) * list (list A) -> S -> S + E)
  (refused : list (list A) * list (list A) -> E) (zero_step : E)
  (train_data : list (list A)) (n_epochs minibatch_size : Z) (n_in : nat) (s : S) :
  (0 < n_epochs)%Z -> (0 < minibatch_size)%Z ->
  Forall (fun row => length row = n_in) train_data ->
  let ended := training_loop run refused zero_step train_data n_epochs minibatch_size
                             n_in s in
  let full := (Z.of_nat (length train_data) / minibatch_size)%Z in
  ((Z.of_nat (length train_data) mod minibatch_size = 0)%Z ->
   (forall feed s, exists s', run feed s = inl s') ->
   raised ended = None
   /\ Z.of_nat (length (steps ended)) = (n_epochs * full)%Z
   /\ concat (map fst (steps ended)) = concat (replicate (Z.to_nat n_epochs) train_data))
  /\ ((Z.of_nat (length train_data) mod minibatch_size <> 0)%Z ->
      is_Some (raised ended)
      /\ (Z.of_nat (length (steps ended)) <= full)%Z
      /\ ((forall feed s, exists s', run feed s = inl s') ->
          let short := drop (Z.to_nat (full * minibatch_size)) train_data in
          raised ended = Some (refused (short, short))
          /\ Z.of_nat (length (steps ended)) = full
          /\ concat (map fst (steps ended)) ++ short = train_data)).
Proof.
  intros He Hs Hrows.
  assert (Hez : n_epochs = Z.of_nat (Z.to_nat n_epochs)) by lia.
  assert (Hbz : minibatch_size = Z.of_nat (Z.to_nat minibatch_size)) by lia.
  revert He Hs Hez Hbz.
  generalize (Z.to_nat n_epochs) (Z.to_nat minibatch_size). intros e b He0 Hb0 -> ->.
  assert (He : 0 < e) by lia. assert (Hb : 0 < b) by lia. clear He0 Hb0.
  rewrite ?Nat2Z.id.
  remember (length train_data) as n eqn:En.
  rewrite <- Nat2Z.inj_div, <- Nat2Z.inj_mod.
  unfold training_loop. rewrite (training_feeds_epochs train_data e b Hb), <- En.
  set (block := fun k => (take b (drop (k * b) train_data),
                          take b (drop (k * b) train_data))).
  pose proof (Nat.div_mod_eq n b) as Hn.
  pose proof (Nat.mod_upper_bound n b ltac:(lia)) as Hr.
  pose proof (Nat.div_mod_eq (n + b - 1) b) as Hc.
  pose proof (Nat.mod_upper_bound (n + b - 1) b ltac:(lia)) as Hcr.
  assert (Hcat : forall c, n <= c * b ->
            concat (map fst (map block (seq 0 c))) = train_data).
  { intros c Hcb. rewrite List.map_map. simpl. apply blocks_concat. lia. }
  assert (Hfits : forall k, fits (Z.of_nat b) n_in (fst (block k))
                            && fits (Z.of_nat b) n_in (snd (block k))
                            = Nat.eqb (Nat.min b (n - k * b)) b).
  { intros k. simpl. rewrite (fits_block train_data b k n_in Hrows), <- En.
    apply andb_diag. }
  simpl. split.
  - intros Hmod Hrun.
    assert (Hmod' : n mod b = 0) by lia.
    assert (Hcq : (n + b - 1) / b = n / b) by nia.
    rewrite Hcq.
    set (epoch := map block (seq 0 (n / b))).
    assert (Hall : Forall (fun feed => fits (Z.of_nat b) n_in (fst feed)
                                       && fits (Z.of_nat b) n_in (snd feed) = true)
                          (concat (replicate e epoch))).
    { apply Forall_concat, Forall_replicate. apply List.Forall_forall.
      intros feed Hin. apply in_map_iff in Hin as (k & <- & Hk). apply in_seq in Hk.
      rewrite Hfits. apply Nat.eqb_eq. nia. }
    destruct (run_steps_all run refused (Z.of_nat b) n_in _ Hall Hrun [] s) as [s' ->].
    simpl. split; [reflexivity|]. split.
    + assert (Hlen : length epoch = n / b)
        by (unfold epoch; now rewrite length_map, length_seq).
      clear Hall He. induction e as [|m IH]; [simpl; lia|].
      simpl. rewrite length_app, Hlen. nia.
    + assert (Hepoch : concat (map fst epoch) = train_data) by (apply Hcat; nia).
      clear Hall He. induction e as [|m IH]; [reflexivity|].
      simpl. now rewrite map_app, concat_app, IH, Hepoch.
  - intros Hmod.
    assert (Hmod' : 0 < n mod b) by lia.
    assert (Hcq : (n + b - 1) / b = Datatypes.S (n / b)) by nia.
    rewrite Hcq.
    set (epoch := map block (seq 0 (Datatypes.S (n / b)))).
    assert (Hshort : concat (replicate e epoch) !! (n / b) = Some (block (n / b))).
    { destruct e as [|e']; [lia|].
      change (concat (replicate (Datatypes.S e') epoch))
        with (epoch ++ concat (replicate e' epoch)).
      rewrite lookup_app_l by (unfold epoch; rewrite length_map, length_seq; lia).
      unfold epoch. rewrite list_lookup_fmap, lookup_seq_lt by lia. reflexivity. }
    assert (Hmis : fits (Z.of_nat b) n_in (fst (block (n / b)))
                   && fits (Z.of_nat b) n_in (snd (block (n / b))) = false).
    { rewrite Hfits. apply Nat.eqb_neq. nia. }
    destruct (run_steps_stop run refused (Z.of_nat b) n_in _ _ _ [] s Hshort Hmis)
      as [Hraised Hlen].
    split; [exact Hraised|]. split; [simpl in Hlen; lia|].
    intros Hrun.
    assert (Htake : take (n / b) (concat (replicate e epoch)) = map block (seq 0 (n / b))).
    { destruct e as [|e']; [lia|].
      change (concat (replicate (Datatypes.S e') epoch))
        with (epoch ++ concat (replicate e' epoch)).
      rewrite take_app_le by (unfold epoch; rewrite length_map, length_seq; lia).
      unfold epoch. rewrite <- fmap_take. f_equal.
      rewrite take_seq. f_equal. lia. }
    assert (Hfull : Forall (fun feed => fits (Z.of_nat b) n_in (fst feed)
                                        && fits (Z.of_nat b) n_in (snd feed) = true)
                           (take (n / b) (concat (replicate e epoch)))).
    { rewrite Htake. apply List.Forall_forall.
      intros feed Hin. apply in_map_iff in Hin as (k & <- & Hk). apply in_seq in Hk.
      rewrite Hfits. apply Nat.eqb_eq. nia. }
    destruct (run_steps_refused run refused (Z.of_nat b) n_in _ Hrun _ _ [] s
                Hshort Hmis Hfull) as [s' ->].
    simpl. rewrite Htake.
    assert (Hdrop : take b (drop (n / b * b) train_data)
                    = drop (Z.to_nat (Z.of_nat (n / b) * Z.of_nat b)) train_data).
    { replace (Z.to_nat (Z.of_nat (n / b) * Z.of_nat b)) with (n / b * b) by lia.
      apply take_ge. rewrite length_drop. nia. }
    split; [unfold block; now rewrite Hdrop|].
    split; [now rewrite length_map, length_seq|].
    replace (Z.to_nat (Z.of_nat (n / b) * Z.of_nat b)) with (n / b * b) by lia.
    rewrite List.map_map. simpl. rewrite blocks_prefix. apply take_drop.
Qed.

(** Five rows of one entry in minibatches of two: two steps run, and the
    third feed, of one row, is refused. *)
Lemma training_loop_needs_full_minibatches_witness :
  let ended := training_loop (fun _ (s : nat) => inl (s + 1) : nat + string)
                 (fun _ => "Cannot feed value") "range() arg 3 must not be zero"
                 [[1]; [2]; [3]; [4]; [5]] 2 2 1 0 in
  let full := (Z.of_nat (length [[1]; [2]; [3]; [4]; [5]]) / 2)%Z in
  ((Z.of_nat (length [[1]; [2]; [3]; [4]; [5]]) mod 2 = 0)%Z ->
   (forall (feed : list (list nat) * list (list nat)) (s : nat),
      exists s', (inl (s + 1) : nat + string) = inl s') ->
   raised ended = None
   /\ Z.of_nat (length (steps ended)) = (2 * full)%Z
   /\ concat (map fst (steps ended))
      = concat (replicate (Z.to_nat 2) [[1]; [2]; [3]; [4]; [5]]))
  /\ ((Z.of_nat (length [[1]; [2]; [3]; [4]; [5]]) mod 2 <> 0)%Z ->
      is_Some (raised ended)
      /\ (Z.of_nat (length (steps ended)) <= full)%Z
      /\ ((forall (feed : list (list nat) * list (list nat)) (s : nat),
             exists s', (inl (s + 1) : nat + string) = inl s') ->
          let short := drop (Z.to_nat (full * 2)) [[1]; [2]; [3]; [4]; [5]] in
          raised ended = Some "Cannot feed value"
          /\ Z.of_nat (length (steps ended)) = full
          /\ concat (map fst (steps ended)) ++ short = [[1]; [2]; [3]; [4]; [5]])).
Proof.
  apply (training_loop_needs_full_minibatches
           (fun _ (s : nat) => inl (s + 1) : nat + string)
           (fun _ => "Cannot feed value") "range() arg 3 must not be zero"
           [[1]; [2]; [3]; [4]; [5]] 2 2 1 0).
  - lia.
  - lia.
  - repeat constructor.
Defined.

(** ** The test data over time *)

Lemma slice_prefix {A : Type} (l : list A) (k : Z) :
  (0 <= k)%Z -> slice l None (Some k) = take (Z.to_nat k) l.
Proof.
  intros Hk. unfold slice, slice_bound. simpl.
  destruct (Z.ltb_spec k 0) as [H|_]; [lia|].
  rewrite Nat.sub_0_r, drop_0.
  destruct (Z.le_gt_cases k (Z.of_nat (length l))) as [Hle|Hgt].
  - f_equal. lia.
  - rewrite !take_ge by lia. reflexivity.
Qed.

Lemma concat_replicate_singleton {A : Type} (n : nat) (x : A) :
  concat (replicate n [x]) = replicate n x.
Proof. induction n as [|n IH]; simpl; [reflexivity|now rewrite IH]. Qed.

(** X11: the test array holds the first [2 * minibatch_size] rows of the
    data (all of them when there are fewer), each repeated unchanged on every
    one of the [n_steps] steps; so the entry the plots read back, at item
    [i] and step 0, is row [i] of the data. *)
Theorem test_array_repeats_each_row
  {A : Type} (data : list (list A)) (minibatch_size : Z) (n_steps : nat) :
  (0 <= minibatch_size)%Z ->
  length (test_array data minibatch_size n_steps)
  = Nat.min (Z.to_nat (minibatch_size * 2)) (length data)
  /\ forall i row, (Z.of_nat i < minibatch_size * 2)%Z -> data !! i = Some row ->
       test_array data minibatch_size n_steps !! i = Some (replicate n_steps row)
       /\ forall j, j < n_steps ->
            item (test_array data minibatch_size n_steps) i j = Some row.
Proof.
  intros Hs. unfold test_array, np_tile, newaxis.
  rewrite slice_prefix by lia. split.
  - now rewrite !length_map, length_take.
  - intros i row Hi Hrow.
    assert (Hl : map (fun steps => concat (replicate n_steps steps))
                   (map (fun row => [row]) (take (Z.to_nat (minibatch_size * 2)) data))
                 !! i = Some (replicate n_steps row)).
    { rewrite !list_lookup_fmap, lookup_take_lt by lia. rewrite Hrow. simpl.
      now rewrite concat_replicate_singleton. }
    split; [exact Hl|].
    intros j Hj. unfold item. rewrite Hl. simpl.
    now apply lookup_replicate_2.
Qed.

(** Three images of two pixels, a minibatch size of one and four steps. *)
Lemma test_array_repeats_each_row_witness :
  length (test_array [[1; 2]; [3; 4]; [5; 6]] 1 4)
  = Nat.min (Z.to_nat (1 * 2)) (length [[1; 2]; [3; 4]; [5; 6]]).
Proof.
  refine (proj1 (test_array_repeats_each_row [[1; 2]; [3; 4]; [5; 6]] 1 4 _)).
  lia.
Defined.

(** ** The objectives *)

Lemma slice_last_ten {A : Type} (pre steps : list A) :
  length steps = 10 -> slice (pre ++ steps) (Some (-10)%Z) None = steps.
Proof.
  intros Hlen. unfold slice, slice_bound. simpl.
  rewrite length_app, Hlen.
  replace (Z.to_nat (Z.max 0 (-10 + Z.of_nat (length pre + 10)))) with (length pre + 0)
    by lia.
  rewrite drop_app_add. simpl. apply take_ge. lia.
Qed.

Lemma slice_at_most_ten {A : Type} (steps : list A) :
  length steps <= 10 -> slice steps (Some (-10)%Z) None = steps.
Proof.
  intros Hlen. unfold slice, slice_bound. simpl.
  replace (Z.to_nat (Z.max 0 (-10 + Z.of_nat (length steps)))) with 0 by lia.
  simpl. apply take_ge. lia.
Qed.

Lemma last_ten_app {T : Type} (x : list (list (list T))) : forall pre,
  length pre = length x ->
  Forall (fun steps => length steps = 10) x ->
  last_ten (zip_with app pre x) = x.
Proof.
  induction x as [|steps x IH]; intros [|p pre] Hlen Hx; try discriminate.
  - reflexivity.
  - inversion Hx; subst. simpl.
    rewrite slice_last_ten by assumption. f_equal.
    apply IH; [simpl in Hlen; lia|assumption].
Qed.

Lemma last_ten_short {T : Type} (x : list (list (list T))) :
  Forall (fun steps => length steps <= 10) x -> last_ten x = x.
Proof.
  induction 1 as [|steps x Hsteps Hx IH]; [reflexivity|].
  simpl. rewrite slice_at_most_ten by assumption. f_equal. exact IH.
Qed.

(** X12: [test_mse] is [mse] of the last ten steps.  Whatever the run put
    before the last ten steps of an item, of the outputs or of the targets,
    does not count, whatever the TensorFlow operations compute. *)
Theorem test_mse_is_mse_of_the_last_ten_steps
  {T R : Type}
  (tf_subtract : list (list (list T)) -> list (list (list T)) -> list (list (list T)))
  (tf_square : list (list (list T)) -> list (list (list T)))
  (tf_reduce_mean : list (list (list T)) -> R)
  (before_outputs outputs before_targets targets : list (list (list T))) :
  length before_outputs = length outputs ->
  length before_targets = length targets ->
  Forall (fun steps => length steps = 10) outputs ->
  Forall (fun steps => length steps = 10) targets ->
  test_mse tf_subtract tf_square tf_reduce_mean
           (zip_with app before_outputs outputs) (zip_with app before_targets targets)
  = mse tf_subtract tf_square tf_reduce_mean outputs targets.
Proof.
  intros Ho Ht Hol Htl. unfold test_mse, mse.
  now rewrite !last_ten_app.
Qed.

(** A run of twelve steps, of which the first two are ignored. *)
Lemma test_mse_is_mse_of_the_last_ten_steps_witness :
  test_mse subtract square reduce_mean
           (zip_with app [[[5]; [6]]] [replicate 10 [1]])%Q
           (zip_with app [[[7]; [8]]] [replicate 10 [0]])%Q
  = mse subtract square reduce_mean [replicate 10 [1]]%Q [replicate 10 [0]]%Q.
Proof.
  apply (test_mse_is_mse_of_the_last_ten_steps subtract square reduce_mean).
  - reflexivity.
  - reflexivity.
  - repeat constructor.
  - repeat constructor.
Defined.

(** X13: on runs of at most ten steps the slice is the whole run, not an
    error, and [test_mse] is [mse]. *)
Theorem test_mse_of_short_runs_is_mse
  {T R : Type}
  (tf_subtract : list (list (list T)) -> list (list (list T)) -> list (list (list T)))
  (tf_square : list (list (list T)) -> list (list (list T)))
  (tf_reduce_mean : list (list (list T)) -> R)
  (outputs targets : list (list (list T))) :
  Forall (fun steps => length steps <= 10) outputs ->
  Forall (fun steps => length steps <= 10) targets ->
  test_mse tf_subtract tf_square tf_reduce_mean outputs targets
  = mse tf_subtract tf_square tf_reduce_mean outputs targets.
Proof.
  intros Ho Ht. unfold test_mse, mse. now rewrite !last_ten_short.
Qed.

(** A run of a single step, as in training. *)
Lemma test_mse_of_short_runs_is_mse_witness :
  test_mse subtract square reduce_mean [[[1]]]%Q [[[0]]]%Q
  = mse subtract square reduce_mean [[[1]]]%Q [[[0]]]%Q.
Proof.
  apply (test_mse_of_short_runs_is_mse subtract square reduce_mean).
  - repeat constructor.
  - repeat constructor.
Defined.

Lemma final_step_snoc {T : Type} (x : list (list T)) : forall before,
  length before = length x ->
  final_step (zip_with (fun b step => b ++ [step]) before x) = Some x.
Proof.
  unfold final_step.
  induction x as [|step x IH]; intros [|b before] Hlen; try discriminate.
  - reflexivity.
  - simpl. rewrite last_snoc. simpl. rewrite IH by (simpl in Hlen; lia).
    reflexivity.
Qed.

(** X14: [classification_error] reads the final step of every item and
    nothing else: what comes before it in the outputs and in the targets
    does not change the result.  On an item without a step it fails. *)
Theorem classification_error_reads_the_final_step
  {T I B F R : Type}
  (tf_argmax : list (list T) -> I) (tf_not_equal : I -> I -> B) (tf_cast : B -> F)
  (tf_reduce_mean : F -> R) (times : Z -> R -> R)
  (before_outputs before_targets : list (list (list T)))
  (outputs targets : list (list T)) :
  length before_outputs = length outputs ->
  length before_targets = length targets ->
  classification_error tf_argmax tf_not_equal tf_cast tf_reduce_mean times
    (zip_with (fun b step => b ++ [step]) before_outputs outputs)
    (zip_with (fun b step => b ++ [step]) before_targets targets)
  = Some (times 100%Z (tf_reduce_mean (tf_cast
            (tf_not_equal (tf_argmax outputs) (tf_argmax targets)))))
  /\ forall x y, In [] x ->
       classification_error tf_argmax tf_not_equal tf_cast tf_reduce_mean times x y
       = None.
Proof.
  intros Ho Ht. split.
  - unfold classification_error. now rewrite !final_step_snoc.
  - intros x y Hx. unfold classification_error, final_step.
    rewrite (mapM_None_2 last x); [reflexivity|].
    apply List.Exists_exists. exists []. split; [exact Hx|reflexivity].
Qed.

(** Two items over three steps; the second is classified wrongly on the
    final step: an error of 50 percent. *)
Lemma classification_error_reads_the_final_step_witness :
  classification_error argmax_rows not_equal to_float mean scale
    (zip_with (fun b step => b ++ [step])
       [[[0; 9]; [0; 9]]; [[9; 0]; [9; 0]]] [[9; 0]; [9; 0]])%Z
    (zip_with (fun b step => b ++ [step])
       [[[1; 0]; [1; 0]]; [[0; 1]; [0; 1]]] [[1; 0]; [0; 1]])%Z
  = Some (scale 100 (mean (to_float (not_equal (argmax_rows [[9; 0]; [9; 0]]%Z)
                                               (argmax_rows [[1; 0]; [0; 1]]%Z))))).
Proof.
  refine (proj1 (classification_error_reads_the_final_step
                   argmax_rows not_equal to_float mean scale
                   [[[0; 9]; [0; 9]]; [[9; 0]; [9; 0]]]%Z
                   [[[1; 0]; [1; 0]]; [[0; 1]; [0; 1]]]%Z
                   [[9; 0]; [9; 0]]%Z [[1; 0]; [0; 1]]%Z _ _)).
  - reflexivity.
  - reflexivity.
Defined.

(** ** Flattened images and their shape *)

Lemma product_positive (dims : list nat) :
  Forall (fun d => 0 < d) dims -> (0 < product (map Z.of_nat dims))%Z.
Proof.
  induction 1 as [|d dims Hd Hdims IH]; simpl; [lia|].
  apply Z.mul_pos_pos; lia.
Qed.

Lemma product_nonnegative (dims : list nat) : (0 <= product (map Z.of_nat dims))%Z.
Proof.
  induction dims as [|d dims IH]; simpl; [lia|].
  apply Z.mul_nonneg_nonneg; lia.
Qed.

(** An integer of NumPy holds a number that fits as it is. *)
Lemma wrap_small (int_bits z : Z) :
  (0 < int_bits)%Z -> (0 <= z < 2 ^ (int_bits - 1))%Z -> wrap int_bits z = z.
Proof.
  intros Hbits Hz. unfold wrap.
  assert (Hpow : (2 ^ int_bits = 2 * 2 ^ (int_bits - 1))%Z).
  { rewrite <- Z.pow_succ_r by lia. f_equal. lia. }
  rewrite Z.mod_small by lia. lia.
Qed.

(** [np.prod] of a tuple that is not empty and whose product fits. *)
Lemma np_prod_fits (int_bits : Z) (dims : list Z) :
  (0 < int_bits)%Z -> dims <> [] -> (0 <= product dims < 2 ^ (int_bits - 1))%Z ->
  np_prod int_bits dims = Integer (product dims).
Proof.
  intros Hbits Hne Hfit. destruct dims as [|d dims]; [congruence|].
  unfold np_prod. now rewrite wrap_small.
Qed.

Lemma filter_no_minus_one (dims : list nat) :
  List.filter (fun d => (d =? -1)%Z) (map Z.of_nat dims) = []
  /\ List.filter (fun d => negb (d =? -1)%Z) (map Z.of_nat dims) = map Z.of_nat dims
  /\ existsb (fun d => (d <? -1)%Z) (map Z.of_nat dims) = false.
Proof.
  induction dims as [|d dims (IH1 & IH2 & IH3)]; simpl; [auto|].
  destruct (Z.eqb_spec (Z.of_nat d) (-1)) as [H|_]; [lia|].
  destruct (Z.ltb_spec (Z.of_nat d) (-1)) as [H|_]; [lia|].
  simpl. rewrite IH2. auto.
Qed.

Lemma to_nat_of_nat (dims : list nat) : map Z.to_nat (map Z.of_nat dims) = dims.
Proof.
  rewrite List.map_map. rewrite <- (map_id dims) at 2.
  apply map_ext. intros d. apply Nat2Z.id.
Qed.

Lemma dimension_integers (dims : list Z) : mapM dimension (map Integer dims) = Some dims.
Proof.
  induction dims as [|d dims IH]; [reflexivity|].
  simpl. rewrite IH. reflexivity.
Qed.

Lemma reshape_integers {A : Type} (a : ndarray A) (newshape : list Z) :
  reshape a (map Integer newshape)
  = (dims ← resolve_shape (length (data a)) newshape;
     Some {| shape := dims; data := data a |}).
Proof. unfold reshape. now rewrite dimension_integers. Qed.

(** A request that is the shape of an array of the same size, without
    [-1], is granted as it stands. *)
Lemma resolve_shape_exact (size : nat) (dims : list nat) :
  Z.of_nat size = product (map Z.of_nat dims) ->
  resolve_shape size (map Z.of_nat dims) = Some dims.
Proof.
  intros Hsize. unfold resolve_shape.
  destruct (filter_no_minus_one dims) as (-> & -> & ->).
  rewrite <- Hsize, Z.eqb_refl. now rewrite to_nat_of_nat.
Qed.

(** A request [(-1, d1, ..., dn)] with positive [d1..dn] for an array of
    [b * d1 * ... * dn] entries is granted with [b] in the place of [-1]. *)
Lemma resolve_shape_batch (b : nat) (dims : list nat) :
  Forall (fun d => 0 < d) dims ->
  resolve_shape (b * Z.to_nat (product (map Z.of_nat dims))) ((-1)%Z :: map Z.of_nat dims)
  = Some (b :: dims).
Proof.
  intros Hpos. pose proof (product_positive dims Hpos) as Hp.
  unfold resolve_shape. simpl.
  destruct (filter_no_minus_one dims) as (-> & -> & ->).
  destruct (Z.ltb_spec 0 (product (map Z.of_nat dims))) as [_|H]; [|lia].
  rewrite Nat2Z.inj_mul, Z2Nat.id by lia.
  rewrite Z.mod_mul, Z.div_mul by lia. simpl.
  rewrite Nat2Z.id. f_equal. f_equal.
  rewrite <- (to_nat_of_nat dims) at 2. rewrite !List.map_map.
  apply map_ext_in. intros d Hd.
  destruct (Z.eqb_spec (Z.of_nat d) (-1)) as [H|_]; [lia|reflexivity].
Qed.

(** X15: a batch of [b] images of shape [image_shape], a tuple that is not
    empty, of positive dimensions whose product fits an integer of NumPy,
    is flattened by [reshape((-1, np.prod(image_shape)))] into [b] rows of
    that many entries, and [tf.reshape(x, (-1,) + image_shape)] in
    [KerasNode.__call__] gives the batch back: both reshapes succeed and the
    second undoes the first.  For the empty tuple [np.prod] is the float
    [1.0], and the first reshape is refused. *)
Theorem keras_images_restores_the_batch
  {A : Type} (int_bits : Z) (test_inputs : ndarray A) (b : nat) (dims : list nat) :
  (0 < int_bits)%Z ->
  shape test_inputs = b :: dims ->
  dims <> [] ->
  Forall (fun d => 0 < d) dims ->
  (product (map Z.of_nat dims) < 2 ^ (int_bits - 1))%Z ->
  well_formed test_inputs ->
  (exists flat,
     flatten_images int_bits (map Z.of_nat dims) test_inputs = Some flat
     /\ shape_of flat = [Z.of_nat b; product (map Z.of_nat dims)]
     /\ well_formed flat
     /\ keras_images (map Z.of_nat dims) flat = Some test_inputs)
  /\ flatten_images int_bits [] test_inputs = None.
Proof.
  intros Hbits Hshape Hne Hpos Hfit Hwf.
  pose proof (product_positive dims Hpos) as Hp.
  split; [|reflexivity].
  destruct test_inputs as [sh entries]. simpl in Hshape. subst sh.
  unfold well_formed, shape_of in Hwf. simpl in Hwf.
  assert (Hlen : length entries = b * Z.to_nat (product (map Z.of_nat dims))) by lia.
  assert (Hprod : np_prod int_bits (map Z.of_nat dims)
                  = Integer (product (map Z.of_nat dims))).
  { apply np_prod_fits; [exact Hbits| |lia].
    destruct dims; [congruence|discriminate]. }
  exists {| shape := [b; Z.to_nat (product (map Z.of_nat dims))]; data := entries |}.
  split; [|split; [|split]].
  - unfold flatten_images. rewrite Hprod.
    change [Integer (-1); Integer (product (map Z.of_nat dims))]
      with (map Integer [(-1)%Z; product (map Z.of_nat dims)]).
    rewrite reshape_integers. simpl data.
    replace (resolve_shape _ _)
      with (Some [b; Z.to_nat (product (map Z.of_nat dims))]); [reflexivity|].
    symmetry. rewrite Hlen.
    pose proof (resolve_shape_batch b [Z.to_nat (product (map Z.of_nat dims))]) as H.
    simpl in H. rewrite Z.mul_1_r, !Z2Nat.id in H by lia.
    apply H. repeat constructor. lia.
  - unfold shape_of. simpl. now rewrite Z2Nat.id by lia.
  - unfold well_formed, shape_of. simpl. lia.
  - unfold keras_images. rewrite reshape_integers. simpl.
    rewrite Hlen, resolve_shape_batch by exact Hpos. reflexivity.
Qed.

(** Two images of two by three pixels, with integers of 64 bits. *)
Lemma keras_images_restores_the_batch_witness :
  (exists flat,
     flatten_images 64 [2; 3]%Z {| shape := [2; 2; 3]; data := seq 0 12 |} = Some flat
     /\ shape_of flat = [2; 6]%Z
     /\ well_formed flat
     /\ keras_images [2; 3]%Z flat = Some {| shape := [2; 2; 3]; data := seq 0 12 |})
  /\ flatten_images 64 [] {| shape := [2; 2; 3]; data := seq 0 12 |} = None.
Proof.
  apply (keras_images_restores_the_batch 64
           {| shape := [2; 2; 3]; data := seq 0 12 |} 2 [2; 3]).
  - lia.
  - reflexivity.
  - discriminate.
  - repeat constructor.
  - reflexivity.
  - reflexivity.
Defined.

(** X16: for an image with at least one axis whose number of entries fits
    an integer of NumPy, [np.prod(image_shape)], the [size_in] given to the
    TensorNode, is the number of entries of [image.flatten()]; and where the
    input [x] holds the entries of the flattened image as floats, each of
    which [tf.cast(x, tf.uint8)] converts back to the entry it came from,
    [tf.reshape(tf.cast(x, tf.uint8), image_shape)] in
    [InceptionNode.__call__] succeeds, whatever the shape of [x], and gives
    the image back. *)
Theorem inception_img_restores_the_image
  {F U : Type} (int_bits : Z) (to_float : U -> F) (to_uint8 : F -> U)
  (image : ndarray U) (x : ndarray F) :
  (0 < int_bits)%Z ->
  shape image <> [] ->
  (product (shape_of image) < 2 ^ (int_bits - 1))%Z ->
  well_formed image ->
  Forall (fun entry => to_uint8 (to_float entry) = entry) (data image) ->
  data x = map to_float (data (flatten image)) ->
  np_prod int_bits (shape_of image) = Integer (Z.of_nat (length (data (flatten image))))
  /\ inception_img to_uint8 image x = Some image.
Proof.
  intros Hbits Hne Hfit Hwf Hcast Hx. destruct image as [sh entries]. simpl in *.
  unfold well_formed, shape_of in *. simpl in *. split.
  - rewrite np_prod_fits; [now rewrite Hwf|exact Hbits| |].
    + destruct sh; [congruence|discriminate].
    + split; [apply product_nonnegative|exact Hfit].
  - unfold inception_img, shape_of. rewrite reshape_integers. simpl.
    rewrite Hx, !length_map.
    rewrite resolve_shape_exact by exact Hwf. simpl. f_equal. f_equal.
    rewrite List.map_map. rewrite <- (map_id entries) at 2.
    apply map_ext_in. intros entry Hin.
    rewrite List.Forall_forall in Hcast. now apply Hcast.
Qed.

(** An image of two by two pixels with three channels, its bytes delivered
    as rationals in one row of twelve entries; the cast truncates and wraps
    at 256. *)
Lemma inception_img_restores_the_image_witness :
  let image := {| shape := [2; 2; 3]; data := map Z.of_nat (seq 0 12) |} in
  let to_uint8 := fun q : Q => ((Qnum q / Zpos (Qden q)) mod 256)%Z in
  np_prod 64 (shape_of image) = Integer (Z.of_nat (length (data (flatten image))))
  /\ inception_img to_uint8 image
       {| shape := [1; 12]; data := map inject_Z (map Z.of_nat (seq 0 12)) |}
     = Some image.
Proof.
  intros image to_uint8.
  apply (inception_img_restores_the_image 64 inject_Z to_uint8 image
           {| shape := [1; 12]; data := map inject_Z (map Z.of_nat (seq 0 12)) |}).
  - lia.
  - discriminate.
  - reflexivity.
  - reflexivity.
  - repeat constructor.
  - reflexivity.
Defined.

(** ** The test targets seen by [test_mse] *)






(** ** The build stages of [KerasNode] *)

(** X18: NengoDL runs [pre_build], then the node itself, then [post_build],
    and [post_build] again at every reset.  The model the node applies to
    its input is the clone made by [pre_build], a model that did not exist
    before; [post_build] loads the saved weights into that clone; every
    other model, the one the node was created with among them, keeps its
    weights; and running [post_build] again changes nothing. *)
Theorem keras_node_loads_the_weights_into_the_clone
  {A W : Type} (initial saved : W) (image_shape : list Z)
  (models0 : gmap nat W) (keras_model : nat) (x : ndarray A)
  (self1 : KerasNode.state) (out : nat * ndarray A) :
  is_Some (models0 !! keras_model) ->
  KerasNode.__call__ image_shape
    (KerasNode.pre_build initial (KerasNode.__init__ models0 keras_model)) x
  = Some (self1, out) ->
  let self := KerasNode.post_build saved self1 in
  KerasNode.built self = [KerasNode.self_model self]
  /\ fst out = KerasNode.self_model self
  /\ keras_images image_shape x = Some (snd out)
  /\ models0 !! KerasNode.self_model self = None
  /\ KerasNode.self_model self <> keras_model
  /\ KerasNode.models self !! KerasNode.self_model self = Some saved
  /\ (forall m, m <> KerasNode.self_model self ->
        KerasNode.models self !! m = models0 !! m)
  /\ KerasNode.post_build saved self = self.
Proof.
  intros Hm Hcall. unfold KerasNode.__call__ in Hcall.
  destruct (keras_images image_shape x) as [images|]; [|discriminate].
  simpl in Hcall. injection Hcall as <- <-. simpl.
  pose proof (is_fresh (dom models0)) as Hfresh.
  set (clone := fresh (dom models0)) in *.
  assert (Hnone : models0 !! clone = None) by now apply not_elem_of_dom.
  split; [reflexivity|]. split; [reflexivity|]. split; [reflexivity|].
  split; [exact Hnone|]. split.
  { intros Heq. rewrite <- Heq, Hnone in Hm. now destruct Hm. }
  split; [apply lookup_insert_eq|]. split.
  - intros m Hne. now rewrite !lookup_insert_ne by congruence.
  - unfold KerasNode.post_build. simpl. f_equal. now rewrite insert_insert_eq.
Qed.

(** The trained model at address 0, and a batch of two flattened images of
    two by three pixels. *)
Lemma keras_node_loads_the_weights_into_the_clone_witness :
  let self :=
    KerasNode.post_build "keras_weights.h5"
      {| KerasNode.models := {[ 1 := "initial"; 0 := "trained" ]};
         KerasNode.self_model := 1;
         KerasNode.built := [1] |} in
  let out := (1, {| shape := [2; 2; 3]; data := seq 0 12 |}) in
  KerasNode.built self = [KerasNode.self_model self]
  /\ fst out = KerasNode.self_model self
  /\ keras_images [2; 3]%Z {| shape := [2; 6]; data := seq 0 12 |} = Some (snd out)
  /\ ({[ 0 := "trained" ]} : gmap nat string) !! KerasNode.self_model self = None
  /\ KerasNode.self_model self <> 0
  /\ KerasNode.models self !! KerasNode.self_model self = Some "keras_weights.h5"
  /\ (forall m, m <> KerasNode.self_model self ->
        KerasNode.models self !! m = ({[ 0 := "trained" ]} : gmap nat string) !! m)
  /\ KerasNode.post_build "keras_weights.h5" self = self.
Proof.
  apply (keras_node_loads_the_weights_into_the_clone
           "initial" "keras_weights.h5" [2; 3]%Z {[ 0 := "trained" ]} 0
           {| shape := [2; 6]; data := seq 0 12 |}).
  - rewrite lookup_singleton_eq. eauto.
  - vm_compute. reflexivity.
Defined.
